(** * Agentic Query System: session store, orchestrator, query engine

    A shallow embedding of [session_manager.py], [main.py] and
    [tools_runtime.py], followed by the properties of the specification
    that were checked against it.

    Conventions.
    - Python values that travel as JSON (tool arguments, tool results,
      messages sent to the model) are [pyval]s; a [dict] is an association
      list in insertion order.
    - [datetime] values are integers (microseconds); [datetime.now()] and
      [uuid.uuid4()] read successive entries of two streams supplied by
      the environment, so every call is visible in the state.
    - Code that can raise runs in the monad [M]: a state transformer over
      [world] whose result is either a value or a raised exception.  The
      state survives an exception, as the session store does. *)

From Stdlib Require Import ZArith String Ascii List Bool Lia Sorted Permutation.
From stdpp Require Import base option list gmap strings sorting.
Import ListNotations.

Local Open Scope string_scope.
Local Open Scope list_scope.
Set Warnings "-register-all".

(** ** Python values and exceptions *)

Inductive pyval : Type :=
| PNone
| PBool (b : bool)
| PInt (z : Z)
| PNaN
| PStr (s : string)
| PList (xs : list pyval)
| PDict (kvs : list (string * pyval)).

(** The exception classes the code distinguishes.  Every one of them is a
    subclass of [Exception]; [PyError cls msg] stands for the remaining
    ones ([TypeError], [RuntimeError], [re.error], pydantic's
    [ValidationError], ...). *)
Inductive exn : Type :=
| HTTPException (status_code : Z) (detail : string)
| OpenAIError (msg : string)
| PyError (cls msg : string).

Inductive outcome (A : Type) : Type :=
| Return (a : A)
| Raise (e : exn).
Arguments Return {A} a.
Arguments Raise {A} e.

Definition digit_of (n : nat) : ascii := ascii_of_nat (48 + n).

Fixpoint nat_digits (fuel n : nat) (acc : string) : string :=
  match fuel with
  | O => acc
  | S fuel =>
      let acc := String (digit_of (n mod 10)) acc in
      if (n / 10 =? 0)%nat then acc else nat_digits fuel (n / 10) acc
  end.

(** [str(z)] for an integer. *)
Definition str_Z (z : Z) : string :=
  let n := Z.to_nat (Z.abs z) in
  let ds := nat_digits (S n) n EmptyString in
  if (z <? 0)%Z then String "-" ds else ds.

(** [str(e)]: Starlette's [HTTPException.__str__] prints the status code
    and the detail; the other classes print their message. *)
Definition str_exn (e : exn) : string :=
  match e with
  | HTTPException status_code detail => str_Z status_code +:+ ": " +:+ detail
  | OpenAIError msg => msg
  | PyError _ msg => msg
  end.

(** ** Session store: data model ([session_manager.py]) *)

Record ChatMessage : Type := mkChatMessage {
  role : string;
  content : string;
  timestamp : Z;
  tool_calls : option (list pyval);
  tool_call_id : option string
}.

Record ChatSession : Type := mkChatSession {
  session_id : string;
  messages : list ChatMessage;
  created_at : Z;
  last_updated : Z
}.

(** The process state: [session_manager.sessions], the positions in the
    clock and uuid streams, and the lazily created OpenAI [client]
    (represented by the key it was built with). *)
Record world : Type := mkWorld {
  sessions : gmap string ChatSession;
  ticks : nat;
  issued : nat;
  client : option string
}.

(** The assistant message of a completion: [content] may be [None]; an
    absent and an empty [tool_calls] are both falsy and are both the empty
    list here. *)
Record ToolCallObj : Type := mkToolCallObj {
  tc_id : string;
  tc_type : string;
  tc_name : string;
  tc_arguments : string
}.

Record AssistantMessage : Type := mkAssistantMessage {
  am_content : option string;
  am_tool_calls : list ToolCallObj
}.

(** What the code takes from outside the repository. *)
Class Runtime : Type := {
  (** successive readings of [datetime.now()] *)
  clock : nat → Z;
  (** successive results of [str(uuid.uuid4())] *)
  uuid4 : nat → string;
  (** [SessionManager(session_timeout_hours=...)] *)
  session_timeout_hours : Z;
  (** [os.getenv("OPENAI_API_KEY")] *)
  OPENAI_API_KEY : option string;
  (** the text of [openai_tools.SYSTEM_PROMPT] *)
  SYSTEM_PROMPT : string;
  (** [openai_tools.TOOL_SCHEMAS] *)
  TOOL_SCHEMAS : pyval;
  (** [client.chat.completions.create(messages=..., tools=...)] followed
      by [.choices[0].message]; [tools] is [None] on the final call *)
  chat_completions_create : list pyval → option pyval → outcome AssistantMessage;
  json_loads : string → outcome pyval;
  json_dumps : pyval → string;
  (** the three handlers of [TOOL_FUNCTIONS], called as [f( **kwargs )] *)
  call_feeds_search : list (string * pyval) → outcome pyval;
  call_encoder_get_params : list (string * pyval) → outcome pyval;
  call_decoder_get_params : list (string * pyval) → outcome pyval
}.

(** ** The monad of stateful code that may raise *)

Definition M (A : Type) : Type := world → outcome A * world.

#[export] Instance M_ret : MRet M := λ A a w, (Return a, w).
#[export] Instance M_bind : MBind M := λ A B k m w,
  match m w with
  | (Return a, w') => k a w'
  | (Raise e, w') => (Raise e, w')
  end.

Definition raise {A} (e : exn) : M A := λ w, (Raise e, w).
Definition gets {A} (f : world → A) : M A := λ w, (Return (f w), w).
Definition modify (f : world → world) : M unit := λ w, (Return tt, f w).
Definition lift {A} (o : outcome A) : M A := λ w, (o, w).

(** [try: body / except Exception as e: handler e]. *)
Definition try_except {A} (body : M A) (handler : exn → M A) : M A := λ w,
  match body w with
  | (Return a, w') => (Return a, w')
  | (Raise e, w') => handler e w'
  end.

Definition set_sessions (f : gmap string ChatSession → gmap string ChatSession)
    (w : world) : world :=
  mkWorld (f (sessions w)) (ticks w) (issued w) (client w).

Section session_manager.
Context `{Runtime}.

(** [timedelta(hours=session_timeout_hours)], in microseconds. *)
Definition session_timeout : Z := session_timeout_hours * 3600 * 1000000.

Definition datetime_now : M Z := λ w,
  (Return (clock (ticks w)),
   mkWorld (sessions w) (S (ticks w)) (issued w) (client w)).

(** The state after one reading of the clock. *)
Definition tick (w : world) : world :=
  mkWorld (sessions w) (S (ticks w)) (issued w) (client w).

(** The session is past its timeout at the next reading of the clock. *)
Definition expired_at (w : world) (s : ChatSession) : Prop :=
  (session_timeout < clock (ticks w) - last_updated s)%Z.

#[export] Instance expired_at_dec w s : Decision (expired_at w s).
Proof. unfold expired_at. apply _. Defined.

Definition uuid4_str : M string := λ w,
  (Return (uuid4 (issued w)),
   mkWorld (sessions w) (ticks w) (S (issued w)) (client w)).

Definition create_session : M string :=
  sid ← uuid4_str;
  now ← datetime_now;
  modify (set_sessions <[sid := mkChatSession sid [] now now]>);;
  mret sid.

Definition get_session (sid : string) : M (option ChatSession) :=
  ss ← gets sessions;
  match ss !! sid with
  | None => mret None
  | Some session =>
      now ← datetime_now;
      if (session_timeout <? now - last_updated session)%Z
      then modify (set_sessions (delete sid));; mret None
      else mret (Some session)
  end.

(** A [str] field of a pydantic model ([ChatMessage.content],
    [QueryResponse.answer]) rejects [None]. *)
Definition validate_str (field : string) (v : option string) : M string :=
  match v with
  | Some s => mret s
  | None => raise (PyError "ValidationError" (field +:+ ": Input should be a valid string"))
  end.

Definition add_message (sid rl : string) (cnt : option string)
    (tcs : option (list pyval)) (tcid : option string) : M bool :=
  session ← get_session sid;
  match session with
  | None => mret false
  | Some session =>
      stamp ← datetime_now;
      cnt ← validate_str "content" cnt;
      let message := mkChatMessage rl cnt stamp tcs tcid in
      now ← datetime_now;
      modify (set_sessions
        <[sid := mkChatSession (session_id session)
                   (messages session ++ [message])
                   (created_at session) now]>);;
      mret true
  end.

(** One stored message in the shape the model API expects. *)
Definition openai_format (msg : ChatMessage) : pyval :=
  if String.eqb (role msg) "tool" then
    PDict [("role", PStr "tool");
           ("content", PStr (content msg));
           ("tool_call_id", from_option PStr PNone (tool_call_id msg))]
  else
    match tool_calls msg with
    | Some (tc :: tcs) =>
        if String.eqb (role msg) "assistant" then
          PDict [("role", PStr "assistant");
                 ("content", PStr (content msg));
                 ("tool_calls", PList (tc :: tcs))]
        else PDict [("role", PStr (role msg)); ("content", PStr (content msg))]
    | _ => PDict [("role", PStr (role msg)); ("content", PStr (content msg))]
    end.

Definition system_message : pyval :=
  PDict [("role", PStr "system"); ("content", PStr SYSTEM_PROMPT)].

Definition get_conversation_history (sid : string) (include_system : bool)
    : M (list pyval) :=
  session ← get_session sid;
  match session with
  | None => mret []
  | Some session =>
      mret ((if include_system then [system_message] else [])
            ++ map openai_format (messages session))
  end.

Definition clear_session (sid : string) : M bool :=
  session ← get_session sid;
  match session with
  | None => mret false
  | Some session =>
      now ← datetime_now;
      modify (set_sessions
        <[sid := mkChatSession (session_id session) []
                   (created_at session) now]>);;
      mret true
  end.

Definition delete_session (sid : string) : M bool :=
  ss ← gets sessions;
  match ss !! sid with
  | Some _ => modify (set_sessions (delete sid));; mret true
  | None => mret false
  end.

End session_manager.

(** ** Tool dispatcher ([tools_runtime.execute_tool]) *)

Definition kwargs : Type := list (string * pyval).

Fixpoint dict_get {A} (k : string) (d : list (string * A)) : option A :=
  match d with
  | [] => None
  | (k', v) :: d => if String.eqb k k' then Some v else dict_get k d
  end.

Definition error_result (msg : string) : pyval := PDict [("error", PStr msg)].

Section dispatcher.
Context `{Runtime}.

Definition TOOL_FUNCTIONS : list (string * (kwargs → outcome pyval)) :=
  [("feeds_search", call_feeds_search);
   ("encoder_get_params", call_encoder_get_params);
   ("decoder_get_params", call_decoder_get_params)].

(** [execute_tool(tool_name, **kwargs)] called with the keyword arguments
    [args].  The parameters are bound before the body runs: an argument
    named like the positional parameter is a second value for it, and the
    call raises outside the [try] of the body. *)
Definition execute_tool (tool_name : string) (args : kwargs) : outcome pyval :=
  match dict_get "tool_name" args with
  | Some _ =>
      Raise (PyError "TypeError"
               "execute_tool() got multiple values for argument 'tool_name'")
  | None =>
      match dict_get tool_name TOOL_FUNCTIONS with
      | None => Return (error_result ("Unknown tool: " +:+ tool_name))
      | Some handler =>
          match handler args with
          | Return result => Return result
          | Raise e => Return (error_result ("Tool execution error: " +:+ str_exn e))
          end
      end
  end.

End dispatcher.

(** ** Orchestrator ([main.ask_question]) *)

Record QueryRequest : Type := mkQueryRequest {
  question : string;
  req_session_id : option string
}.

Record ToolCall : Type := mkToolCall {
  call_name : string;
  call_arguments : kwargs;
  call_result : kwargs
}.

Record QueryResponse : Type := mkQueryResponse {
  answer : string;
  made_tool_calls : list ToolCall;
  resp_session_id : string
}.

Section main.
Context `{Runtime}.

Definition get_openai_client : M string :=
  c ← gets client;
  match c with
  | Some c => mret c
  | None =>
      match OPENAI_API_KEY with
      | Some (String a k) =>
          modify (λ w, mkWorld (sessions w) (ticks w) (issued w) (Some (String a k)));;
          mret (String a k)
      | _ => raise (HTTPException 500 "OPENAI_API_KEY environment variable not set")
      end
  end.

Definition tool_call_for_session (tc : ToolCallObj) : pyval :=
  PDict [("id", PStr (tc_id tc));
         ("type", PStr (tc_type tc));
         ("function", PDict [("name", PStr (tc_name tc));
                             ("arguments", PStr (tc_arguments tc))])].

(** [type(v).__name__] of a decoded JSON value. *)
Definition pyval_type_name (v : pyval) : string :=
  match v with
  | PNone => "NoneType"
  | PBool _ => "bool"
  | PInt _ => "int"
  | PNaN => "float"
  | PStr _ => "str"
  | PList _ => "list"
  | PDict _ => "dict"
  end.

(** [execute_tool(function_name, **function_args)] on whatever the
    arguments string decoded to: unpacking with [**] raises when
    [function_args] is no mapping, naming the function with its module
    and the type found. *)
Definition call_execute_tool (function_name : string) (function_args : pyval)
    : outcome (kwargs * pyval) :=
  match function_args with
  | PDict args =>
      match execute_tool function_name args with
      | Return r => Return (args, r)
      | Raise e => Raise e
      end
  | _ =>
      Raise (PyError "TypeError"
               ("tools_runtime.execute_tool() argument after ** must be a mapping, not "
                +:+ pyval_type_name function_args))
  end.

(** [ToolCall(name=..., arguments=..., result=...)]: [result] must be a
    dictionary. *)
Definition make_ToolCall (name : string) (args : kwargs) (result : pyval)
    : outcome ToolCall :=
  match result with
  | PDict r => Return (mkToolCall name args r)
  | _ => Raise (PyError "ValidationError" "result: Input should be a valid dictionary")
  end.

(** The body of [for tool_call in assistant_message.tool_calls], threading
    the two lists it appends to. *)
Fixpoint execute_tool_calls (sid : string) (tcs : list ToolCallObj)
    (tool_calls_made : list ToolCall) (msgs : list pyval)
    : M (list ToolCall * list pyval) :=
  match tcs with
  | [] => mret (tool_calls_made, msgs)
  | tc :: tcs =>
      function_args ← lift (json_loads (tc_arguments tc));
      '(args, tool_result) ← lift (call_execute_tool (tc_name tc) function_args);
      made ← lift (make_ToolCall (tc_name tc) args tool_result);
      let msgs := msgs ++ [PDict [("role", PStr "tool");
                                  ("tool_call_id", PStr (tc_id tc));
                                  ("content", PStr (json_dumps tool_result))]] in
      add_message sid "tool" (Some (json_dumps tool_result)) None (Some (tc_id tc));;
      execute_tool_calls sid tcs (tool_calls_made ++ [made]) msgs
  end.

(** [session_id = request.session_id; if not session_id: ...]. *)
Definition resolve_session (request : QueryRequest) : M string :=
  match req_session_id request with
  | Some (String a s) => mret (String a s)
  | _ => create_session
  end.

(** The rest of the [try] block. *)
Definition answer_in_session (sid : string) (request : QueryRequest)
    : M QueryResponse :=
  session ← get_session sid;
  match session with
  | None => raise (HTTPException 404 "Session not found")
  | Some _ =>
      add_message sid "user" (Some (question request)) None None;;
      get_openai_client;;
      msgs ← get_conversation_history sid true;
      assistant_message ← lift (chat_completions_create msgs (Some TOOL_SCHEMAS));
      match am_tool_calls assistant_message with
      | _ :: _ =>
          let tool_calls_for_session :=
            map tool_call_for_session (am_tool_calls assistant_message) in
          add_message sid "assistant"
            (Some (default "" (am_content assistant_message)))
            (Some tool_calls_for_session) None;;
          let msgs := msgs ++
            [PDict [("role", PStr "assistant");
                    ("content", from_option PStr PNone (am_content assistant_message));
                    ("tool_calls", PList tool_calls_for_session)]] in
          '(tool_calls_made, msgs) ←
            execute_tool_calls sid (am_tool_calls assistant_message) [] msgs;
          final_response ← lift (chat_completions_create msgs None);
          let final_answer := am_content final_response in
          add_message sid "assistant" final_answer None None;;
          answer ← validate_str "answer" final_answer;
          mret (mkQueryResponse answer tool_calls_made sid)
      | [] =>
          let final_answer := am_content assistant_message in
          answer ← validate_str "answer" final_answer;
          mret (mkQueryResponse answer [] sid)
      end
  end.

Definition ask_question_body (request : QueryRequest) : M QueryResponse :=
  sid ← resolve_session request;
  answer_in_session sid request.

(** The two [except] clauses: every exception leaves as a 500. *)
Definition ask_question_handler (e : exn) : M QueryResponse :=
  match e with
  | OpenAIError msg => raise (HTTPException 500 ("OpenAI API error: " +:+ msg))
  | _ => raise (HTTPException 500 ("Internal server error: " +:+ str_exn e))
  end.

Definition ask_question (request : QueryRequest) : M QueryResponse :=
  try_except (ask_question_body request) ask_question_handler.

(** [DELETE /session/{session_id}/clear]: this sibling endpoint raises
    its 404 outside any [try]. *)
Definition clear_session_history (sid : string) : M unit :=
  success ← clear_session sid;
  if success : bool then mret tt
  else raise (HTTPException 404 "Session not found").

End main.

(** ** Record store and pandas ([data_loader.py], and the [pandas] calls of
       [tools_runtime.feeds_search])

    A cell is a string, an integer, a boolean or NaN (a missing value);
    floating-point cells other than NaN are outside the model.  A frame
    keeps its columns with their dtype and its rows in order. *)

Inductive scalar : Type :=
| SNone
| SBool (b : bool)
| SInt (z : Z)
| SNaN
| SStr (s : string).

#[export] Instance scalar_eq_dec : EqDecision scalar.
Proof. solve_decision. Defined.

Definition pv (x : scalar) : pyval :=
  match x with
  | SNone => PNone
  | SBool b => PBool b
  | SInt z => PInt z
  | SNaN => PNaN
  | SStr s => PStr s
  end.

Inductive dtype : Type := int64 | bool_ | object_.

Record DataFrame : Type := mkDataFrame {
  schema : list (string * dtype);
  rows : list (list scalar)
}.

Definition df_columns (df : DataFrame) : list string := map fst (schema df).

(** Position and dtype of a column; [None] is [column not in df.columns]. *)
Fixpoint find_column (c : string) (sch : list (string * dtype)) : option (nat * dtype) :=
  match sch with
  | [] => None
  | (c', dt) :: sch =>
      if String.eqb c c' then Some (O, dt)
      else match find_column c sch with
           | Some (i, dt) => Some (S i, dt)
           | None => None
           end
  end.

Definition get_cell (i : nat) (row : list scalar) : scalar := nth i row SNaN.

(** [df[column]] as the list of its values. *)
Definition column_values (i : nat) (df : DataFrame) : list scalar :=
  map (get_cell i) (rows df).

(** [df[mask]]: the rows whose mask entry is [True]. *)
Fixpoint select_rows {A} (mask : list bool) (rs : list A) : list A :=
  match mask, rs with
  | b :: mask, r :: rs => if b then r :: select_rows mask rs else select_rows mask rs
  | _, _ => []
  end.

Definition df_mask (df : DataFrame) (mask : list bool) : DataFrame :=
  mkDataFrame (schema df) (select_rows mask (rows df)).

#[export] Instance outcome_ret : MRet outcome := λ A a, Return a.
#[export] Instance outcome_bind : MBind outcome := λ A B k m,
  match m with
  | Return a => k a
  | Raise e => Raise e
  end.

Fixpoint traverse {A B} (f : A → outcome B) (xs : list A) : outcome (list B) :=
  match xs with
  | [] => Return []
  | x :: xs =>
      match f x with
      | Return y =>
          match traverse f xs with
          | Return ys => Return (y :: ys)
          | Raise e => Raise e
          end
      | Raise e => Raise e
      end
  end.

(** *** Comparisons of a column with a scalar *)

Inductive cmp_op : Type := Ge | Le | Gt | Lt.

Definition op_symbol (op : cmp_op) : string :=
  match op with Ge => ">=" | Le => "<=" | Gt => ">" | Lt => "<" end.

Definition type_name (x : scalar) : string :=
  match x with
  | SNone => "NoneType"
  | SBool _ => "bool"
  | SInt _ => "int"
  | SNaN => "float"
  | SStr _ => "str"
  end.

Definition dtype_name (dt : dtype) : string :=
  match dt with int64 => "int64" | bool_ => "bool" | object_ => "object" end.

Definition is_null (x : scalar) : bool :=
  match x with SNone | SNaN => true | _ => false end.

(** Python numbers: [bool] is a subclass of [int]. *)
Definition as_number (x : scalar) : option Z :=
  match x with
  | SInt z => Some z
  | SBool b => Some (if b then 1 else 0)%Z
  | _ => None
  end.

Definition cmp_Z (op : cmp_op) (a b : Z) : bool :=
  match op with
  | Ge => (b <=? a)%Z
  | Le => (a <=? b)%Z
  | Gt => (b <? a)%Z
  | Lt => (a <? b)%Z
  end.

Definition cmp_str (op : cmp_op) (a b : string) : bool :=
  match op with
  | Ge => String.leb b a
  | Le => String.leb a b
  | Gt => String.ltb b a
  | Lt => String.ltb a b
  end.

(** One element of an ordering comparison: a missing cell compares false,
    numbers and strings compare among themselves, anything else is
    Python's [TypeError]. *)
Definition scalar_compare (op : cmp_op) (x bound : scalar) : outcome bool :=
  if is_null x then Return false
  else
    match as_number x, as_number bound with
    | Some a, Some b => Return (cmp_Z op a b)
    | _, _ =>
        match x, bound with
        | SStr a, SStr b => Return (cmp_str op a b)
        | _, _ =>
            Raise (PyError "TypeError"
                     ("'" +:+ op_symbol op +:+ "' not supported between instances of '"
                      +:+ type_name x +:+ "' and '" +:+ type_name bound +:+ "'"))
        end
    end.

(** [df[column] >= bound] and its three siblings.  A null bound compares
    false everywhere; a numeric column against a string is rejected as a
    whole; otherwise the comparison is elementwise. *)
Definition series_compare (op : cmp_op) (dt : dtype) (xs : list scalar)
    (bound : scalar) : outcome (list bool) :=
  if is_null bound then Return (map (λ _, false) xs)
  else
    match dt, bound with
    | int64, SStr _ | bool_, SStr _ =>
        Raise (PyError "TypeError"
                 ("Invalid comparison between dtype=" +:+ dtype_name dt +:+ " and str"))
    | _, _ => traverse (λ x, scalar_compare op x bound) xs
    end.

(** One element of [df[column] == value]; never raises. *)
Definition py_eq (x v : scalar) : bool :=
  if is_null x || is_null v then false
  else
    match as_number x, as_number v with
    | Some a, Some b => (a =? b)%Z
    | _, _ =>
        match x, v with
        | SStr a, SStr b => String.eqb a b
        | _, _ => false
        end
    end.

(** One element of [df[column].isin(values)], pandas' hash-table
    membership: a cell is found when the list holds a value equal to it
    as [==] has it; a NaN cell is found by a NaN in the list and a [None]
    cell by a [None], but [None] does not find NaN, nor NaN [None]. *)
Definition isin (values : list scalar) (x : scalar) : bool :=
  existsb (λ v, match x, v with
                | SNaN, SNaN | SNone, SNone => true
                | _, _ => py_eq x v
                end) values.

(** [str(value)] of a scalar filter value. *)
Definition str_scalar (v : scalar) : string :=
  match v with
  | SNone => "None"
  | SBool true => "True"
  | SBool false => "False"
  | SInt z => str_Z z
  | SNaN => "nan"
  | SStr s => s
  end.

(** [df.head(n)], that is [df.iloc[:n]]: a negative [n] drops the last
    [-n] rows. *)
Definition head {A} (n : Z) (rs : list A) : list A :=
  if (0 <=? n)%Z then firstn (Z.to_nat n) rs
  else firstn (length rs - Z.to_nat (- n)) rs.

(** What [feeds_search] takes from pandas, numpy and [re]. *)
Class Pandas : Type := {
  (** [pd.api.types.is_string_dtype(df[column])], from the column's dtype
      and values *)
  is_string_dtype : dtype → list scalar → bool;
  (** [re.compile(pat, re.IGNORECASE)]: raises [re.error] on a malformed
      pattern, else gives [lambda x: compiled.search(x) is not None] *)
  re_compile_ignorecase : string → outcome (string → bool);
  (** [values.argsort(kind="quicksort")], the default kind of
      [sort_values], on the non-missing values of the sort column *)
  argsort : list scalar → list nat
}.

(** [data_loader]'s state after start-up; [None] before [load_all_data]. *)
Class DataLoader : Type := {
  feeds_df : option DataFrame;
  encoder_params : option pyval;
  decoder_params : option pyval
}.

(** [try: body / except Exception as e: handler e] for code without state. *)
Definition catch {A} (body : outcome A) (handler : exn → outcome A) : outcome A :=
  match body with
  | Return a => Return a
  | Raise e => handler e
  end.

(** *** [repr] of a list of strings, as an f-string prints it *)

Definition dquote : ascii := ascii_of_nat 34.
Definition squote : ascii := ascii_of_nat 39.
Definition backslash : ascii := ascii_of_nat 92.

Fixpoint mem_ascii (c : ascii) (s : string) : bool :=
  match s with
  | EmptyString => false
  | String c' s => Ascii.eqb c c' || mem_ascii c s
  end.

Fixpoint escape_str (q : ascii) (s : string) : string :=
  match s with
  | EmptyString => EmptyString
  | String c s =>
      if Ascii.eqb c backslash || Ascii.eqb c q
      then String backslash (String c (escape_str q s))
      else if Ascii.eqb c (ascii_of_nat 10) then String backslash (String "n" (escape_str q s))
      else if Ascii.eqb c (ascii_of_nat 13) then String backslash (String "r" (escape_str q s))
      else if Ascii.eqb c (ascii_of_nat 9) then String backslash (String "t" (escape_str q s))
      else String c (escape_str q s)
  end.

(** [repr(s)] on printable ASCII text: single quotes, unless the string
    holds a single quote and no double quote. *)
Definition repr_str (s : string) : string :=
  let q := if mem_ascii squote s && negb (mem_ascii dquote s) then dquote else squote in
  String q (escape_str q s +:+ String q EmptyString).

Fixpoint join (sep : string) (xs : list string) : string :=
  match xs with
  | [] => EmptyString
  | [x] => x
  | x :: xs => x +:+ sep +:+ join sep xs
  end.

Definition repr_list (xs : list string) : string :=
  "[" +:+ join ", " (map repr_str xs) +:+ "]".

(** ** Query engine ([tools_runtime.feeds_search]) *)

Inductive filter_value : Type :=
| FScalar (v : scalar)
| FIsin (values : list scalar)
| FRange (vmin vmax vgt vlt : option scalar).

Record QuerySpec : Type := mkQuerySpec {
  filters : option (list (string * filter_value));
  columns : option (list string);
  top_k : option Z;
  sort_by : option string;
  desc : bool
}.

Section tools_runtime.
Context `{Pandas} `{DataLoader}.

Definition get_feeds_dataframe : outcome DataFrame :=
  match feeds_df with
  | Some df => Return df
  | None => Raise (PyError "RuntimeError" "Feeds data not loaded. Call load_all_data() first.")
  end.

(** [df[column].str.contains(pat, case=False, na=False)]: the pattern is
    a regular expression ([regex=True] is the default); a cell that is
    no string counts as no match. *)
Definition str_contains (pat : string) (xs : list scalar) : outcome (list bool) :=
  matcher ← re_compile_ignorecase pat;
  mret (map (λ x, match x with SStr s => matcher s | _ => false end) xs).

Definition apply_bound (op : cmp_op) (bound : option scalar) (i : nat) (dt : dtype)
    (df : DataFrame) : outcome DataFrame :=
  match bound with
  | None => mret df
  | Some b =>
      mask ← series_compare op dt (column_values i df) b;
      mret (df_mask df mask)
  end.

(** The body of the loop over [filters.items()] for a known column. *)
Definition apply_filter (df : DataFrame) (i : nat) (dt : dtype) (value : filter_value)
    : outcome DataFrame :=
  match value with
  | FRange vmin vmax vgt vlt =>
      df ← apply_bound Ge vmin i dt df;
      df ← apply_bound Le vmax i dt df;
      df ← apply_bound Gt vgt i dt df;
      apply_bound Lt vlt i dt df
  | FIsin values =>
      mret (df_mask df (map (isin values) (column_values i df)))
  | FScalar v =>
      if is_string_dtype dt (column_values i df) then
        mask ← str_contains (str_scalar v) (column_values i df);
        mret (df_mask df mask)
      else
        mret (df_mask df (map (λ x, py_eq x v) (column_values i df)))
  end.

Definition unknown_result (msg : string) (df : DataFrame) : pyval :=
  PDict [("error", PStr msg);
         ("available_columns", PList (map PStr (df_columns df)))].

(** The filter loop; [inl] is the early [return] of an error result. *)
Fixpoint apply_filters (df : DataFrame) (fs : list (string * filter_value))
    : outcome (pyval + DataFrame) :=
  match fs with
  | [] => mret (inr df)
  | (column, value) :: fs =>
      match find_column column (schema df) with
      | None => mret (inl (unknown_result ("Unknown column: " +:+ column) df))
      | Some (i, dt) =>
          df ← apply_filter df i dt value;
          apply_filters df fs
      end
  end.

Definition take_rows {A} (d : A) (xs : list A) (indexer : list nat) : list A :=
  map (λ i, nth i xs d) indexer.

(** pandas' [nargsort] with [na_position="last"]: missing values go last
    in input order; the others are ordered by [argsort], and for a
    descending sort the values are reversed before and the result after. *)
Definition non_missing_positions (items : list scalar) (ascending : bool) : list nat :=
  let non_nan_idx :=
    List.filter (λ i, negb (is_null (nth i items SNaN))) (seq 0 (length items)) in
  if ascending then non_nan_idx else rev non_nan_idx.

Definition missing_positions (items : list scalar) : list nat :=
  List.filter (λ i, is_null (nth i items SNaN)) (seq 0 (length items)).

(** The values handed to [argsort]. *)
Definition argsort_input (items : list scalar) (ascending : bool) : list scalar :=
  take_rows SNaN items (non_missing_positions items ascending).

Definition nargsort (items : list scalar) (ascending : bool) : list nat :=
  let non_nan_idx := non_missing_positions items ascending in
  let indexer := take_rows O non_nan_idx (argsort (argsort_input items ascending)) in
  let indexer := if ascending then indexer else rev indexer in
  indexer ++ missing_positions items.

(** [df.sort_values(by=sort_by, ascending=...)] for the column at [i]. *)
Definition sort_values (df : DataFrame) (i : nat) (ascending : bool) : DataFrame :=
  mkDataFrame (schema df)
    (take_rows [] (rows df) (nargsort (column_values i df) ascending)).

(** [df[columns]], once every name is known to exist. *)
Definition project (df : DataFrame) (cols : list string) : DataFrame :=
  mkDataFrame
    (omap (λ c, (λ p : nat * dtype, (c, p.2)) <$> find_column c (schema df)) cols)
    (map (λ row,
            omap (λ c, (λ p : nat * dtype, get_cell p.1 row)
                         <$> find_column c (schema df)) cols)
         (rows df)).

(** [df.to_dict('records')]. *)
Definition to_dict_records (df : DataFrame) : list pyval :=
  map (λ row, PDict (imap (λ i c, (c, pv (get_cell i row))) (df_columns df)))
      (rows df).

(** The dictionary [feeds_search] returns on success. *)
Definition data_result (records : list pyval) (total : nat) : pyval :=
  PDict [("data", PList records);
         ("count", PInt (Z.of_nat (length records)));
         ("total_feeds", PInt (Z.of_nat total))].

Definition is_known (df : DataFrame) (c : string) : bool :=
  bool_decide (is_Some (find_column c (schema df))).

(** [if sort_by: ...]; [inl] is the early [return] of an error result. *)
Definition sort_stage (spec : QuerySpec) (df : DataFrame) : pyval + DataFrame :=
  match sort_by spec with
  | Some (String a s) =>
      match find_column (String a s) (schema df) with
      | None => inl (unknown_result ("Unknown sort column: " +:+ String a s) df)
      | Some (i, _) => inr (sort_values df i (negb (desc spec)))
      end
  | _ => inr df
  end.

(** [if top_k: df = df.head(top_k)]. *)
Definition limit_stage (spec : QuerySpec) (df : DataFrame) : DataFrame :=
  match top_k spec with
  | Some k => if (k =? 0)%Z then df else mkDataFrame (schema df) (head k (rows df))
  | None => df
  end.

(** [if columns: ...]. *)
Definition project_stage (spec : QuerySpec) (df : DataFrame) : pyval + DataFrame :=
  match columns spec with
  | Some (c :: cs) =>
      match List.filter (λ col, negb (is_known df col)) (c :: cs) with
      | [] => inr (project df (c :: cs))
      | invalid_columns =>
          inl (unknown_result ("Unknown columns: " +:+ repr_list invalid_columns) df)
      end
  | _ => inr df
  end.

(** The part of [feeds_search] after the sort. *)
Definition limit_project (spec : QuerySpec) (total : nat) (df : DataFrame) : pyval :=
  match project_stage spec (limit_stage spec df) with
  | inl early => early
  | inr df => data_result (to_dict_records df) total
  end.

(** The part of [feeds_search] after the filters. *)
Definition sort_limit_project (spec : QuerySpec) (total : nat) (df : DataFrame)
    : pyval :=
  match sort_stage spec df with
  | inl early => early
  | inr df => limit_project spec total df
  end.

(** [if filters: ...]. *)
Definition filter_stage (spec : QuerySpec) (df : DataFrame)
  : outcome (pyval + DataFrame) :=
  match filters spec with
  | Some (f :: fs) => apply_filters df (f :: fs)
  | _ => mret (inr df)
  end.

Definition feeds_search_body (spec : QuerySpec) : outcome pyval :=
  df ← get_feeds_dataframe;
  filtered ← filter_stage spec df;
  match filtered with
  | inl early => mret early
  | inr filtered => mret (sort_limit_project spec (length (rows df)) filtered)
  end.

Definition feeds_search (spec : QuerySpec) : outcome pyval :=
  catch (feeds_search_body spec)
    (λ e, Return (error_result ("Error in feeds_search: " +:+ str_exn e))).

Definition encoder_get_params : outcome pyval :=
  catch
    (match encoder_params with
     | Some params =>
         Return (PDict [("encoder_params", params);
                        ("description", PStr "Video encoder configuration parameters")])
     | None =>
         Raise (PyError "RuntimeError" "Encoder params not loaded. Call load_all_data() first.")
     end)
    (λ e, Return (error_result ("Error getting encoder params: " +:+ str_exn e))).

Definition decoder_get_params : outcome pyval :=
  catch
    (match decoder_params with
     | Some params =>
         Return (PDict [("decoder_params", params);
                        ("description", PStr "Video decoder configuration parameters")])
     | None =>
         Raise (PyError "RuntimeError" "Decoder params not loaded. Call load_all_data() first.")
     end)
    (λ e, Return (error_result ("Error getting decoder params: " +:+ str_exn e))).

(** *** Calling the handlers as [f( **kwargs )] *)

Definition unexpected_keyword (name k : string) : exn :=
  PyError "TypeError" (name +:+ "() got an unexpected keyword argument '" +:+ k +:+ "'").

(** A function without parameters accepts the empty argument set only. *)
Definition call_without_parameters (name : string) (f : outcome pyval) (args : kwargs)
    : outcome pyval :=
  match args with
  | [] => f
  | (k, _) :: _ => Raise (unexpected_keyword name k)
  end.

Definition to_scalar (v : pyval) : option scalar :=
  match v with
  | PNone => Some SNone
  | PBool b => Some (SBool b)
  | PInt z => Some (SInt z)
  | PNaN => Some SNaN
  | PStr s => Some (SStr s)
  | _ => None
  end.

Definition decode_bound (k : string) (d : kwargs) : option (option scalar) :=
  match dict_get k d with
  | None => Some None
  | Some v => Some <$> to_scalar v
  end.

Definition decode_filter_value (v : pyval) : option filter_value :=
  match v with
  | PDict d =>
      vmin ← decode_bound "min" d; vmax ← decode_bound "max" d;
      vgt ← decode_bound "gt" d; vlt ← decode_bound "lt" d;
      Some (FRange vmin vmax vgt vlt)
  | PList vs => FIsin <$> mapM to_scalar vs
  | _ => FScalar <$> to_scalar v
  end.

Definition decode_optional {A} (decode : pyval → option A) (k : string) (args : kwargs)
    : option (option A) :=
  match dict_get k args with
  | None | Some PNone => Some None
  | Some v => Some <$> decode v
  end.

(** The arguments of [feeds_search] when each has the type its annotation
    asks for; [None] otherwise. *)
Definition decode_query (args : kwargs) : option QuerySpec :=
  fs ← decode_optional
         (λ v, match v with
               | PDict d => mapM (λ kv, pair kv.1 <$> decode_filter_value kv.2) d
               | _ => None
               end) "filters" args;
  cols ← decode_optional
           (λ v, match v with
                 | PList cs => mapM (λ c, match c with PStr s => Some s | _ => None end) cs
                 | _ => None
                 end) "columns" args;
  k ← decode_optional (λ v, match v with PInt z => Some z | _ => None end) "top_k" args;
  sb ← decode_optional (λ v, match v with PStr s => Some s | _ => None end) "sort_by" args;
  d ← decode_optional (λ v, match v with PBool b => Some b | _ => None end) "desc" args;
  Some (mkQuerySpec fs cols k sb (default false d)).

(** [feeds_search( **kwargs )]: a keyword that is no parameter is a
    [TypeError]; well-typed arguments run [feeds_search]; what Python does
    with ill-typed ones is left to [ill_typed]. *)
Definition call_feeds_search_typed (ill_typed : kwargs → outcome pyval) (args : kwargs)
    : outcome pyval :=
  match List.find (λ kv : string * pyval,
                     negb (existsb (String.eqb kv.1)
                             ["filters"; "columns"; "top_k"; "sort_by"; "desc"])) args with
  | Some (k, _) => Raise (unexpected_keyword "feeds_search" k)
  | None =>
      match decode_query args with
      | Some spec => feeds_search spec
      | None => ill_typed args
      end
  end.

End tools_runtime.

(** ** Library behaviour used by the examples

    *** Case-insensitive text search *)

Definition lower_ascii (c : ascii) : ascii :=
  let n := nat_of_ascii c in
  if (65 <=? n)%nat && (n <=? 90)%nat then ascii_of_nat (n + 32) else c.

Definition eqb_ci (a b : ascii) : bool := Ascii.eqb (lower_ascii a) (lower_ascii b).

Fixpoint prefix_ci (p s : string) : bool :=
  match p, s with
  | EmptyString, _ => true
  | String a p, String b s => eqb_ci a b && prefix_ci p s
  | String _ _, EmptyString => false
  end.

(** [p] occurs in [s] as a literal substring, ignoring case. *)
Fixpoint icontains (p s : string) : bool :=
  prefix_ci p s ||
  match s with
  | EmptyString => false
  | String _ s => icontains p s
  end.

(** The characters with a special meaning in a regular expression. *)
Definition is_meta (c : ascii) : bool := mem_ascii c ".^$*+?{}[]\|()".

Fixpoint has_meta (s : string) : bool :=
  match s with
  | EmptyString => false
  | String c s => is_meta c || has_meta s
  end.

(** A pattern of ordinary characters and [.], which matches any character
    but a newline. *)
Fixpoint prefix_dot (p s : string) : bool :=
  match p, s with
  | EmptyString, _ => true
  | String a p, String b s =>
      (if Ascii.eqb a "." then negb (Ascii.eqb b (ascii_of_nat 10)) else eqb_ci a b)
      && prefix_dot p s
  | String _ _, EmptyString => false
  end.

Fixpoint search_dot (p s : string) : bool :=
  prefix_dot p s ||
  match s with
  | EmptyString => false
  | String _ s => search_dot p s
  end.

Fixpoint only_dot_meta (s : string) : bool :=
  match s with
  | EmptyString => true
  | String c s => (Ascii.eqb c "." || negb (is_meta c)) && only_dot_meta s
  end.

(** Python's [re] on the patterns the examples use: ordinary characters
    and [.].  Patterns with other metacharacters are outside this fragment
    and are answered with [re.error], which Python does for the malformed
    ones among them only. *)
Definition re_fragment (pat : string) : outcome (string → bool) :=
  if only_dot_meta pat then Return (search_dot pat)
  else Raise (PyError "re.error" "pattern outside the dot fragment").

(** *** numpy's quicksort argsort

    [npy_aquicksort] of numpy's [npysort/quicksort]: median-of-three
    partitioning on an explicit stack, insertion sort for partitions of at
    most [SMALL_QUICKSORT + 1] elements, heapsort once the depth limit is
    used up.  [v] is the array of values, [a] the array of indices being
    permuted; a pointer is its offset into [a]. *)

Definition scalar_lt (x y : scalar) : bool :=
  match scalar_compare Lt x y with
  | Return b => b
  | Raise _ => false
  end.

Section npysort.
Variable v : list scalar.

Definition SMALL_QUICKSORT : nat := 16.

Definition at_ (a : list nat) (p : nat) : nat := nth p a O.
Definition val (a : list nat) (p : nat) : scalar := nth (at_ a p) v SNaN.
Definition INTP_SWAP (a : list nat) (p q : nat) : list nat :=
  <[q := at_ a p]> (<[p := at_ a q]> a).

Fixpoint scan_up (fuel : nat) (a : list nat) (vp : scalar) (pi : nat) : nat :=
  match fuel with
  | O => pi
  | S fuel =>
      let pi := S pi in
      if scalar_lt (val a pi) vp then scan_up fuel a vp pi else pi
  end.

Fixpoint scan_down (fuel : nat) (a : list nat) (vp : scalar) (pj : nat) : nat :=
  match fuel with
  | O => pj
  | S fuel =>
      let pj := (pj - 1)%nat in
      if scalar_lt vp (val a pj) then scan_down fuel a vp pj else pj
  end.

Fixpoint partition_loop (fuel : nat) (a : list nat) (vp : scalar) (pi pj : nat)
    : list nat * nat :=
  match fuel with
  | O => (a, pi)
  | S fuel =>
      let pi := scan_up (length a) a vp pi in
      let pj := scan_down (length a) a vp pj in
      if (pj <=? pi)%nat then (a, pi)
      else partition_loop fuel (INTP_SWAP a pi pj) vp pi pj
  end.

Fixpoint insert_shift (fuel : nat) (a : list nat) (vp : scalar) (pl pj : nat)
    : list nat * nat :=
  match fuel with
  | O => (a, pj)
  | S fuel =>
      if (pl <? pj)%nat && scalar_lt vp (val a (pj - 1))
      then insert_shift fuel (<[pj := at_ a (pj - 1)]> a) vp pl (pj - 1)%nat
      else (a, pj)
  end.

Fixpoint insertion_loop (count : nat) (a : list nat) (pl pi : nat) : list nat :=
  match count with
  | O => a
  | S count =>
      let vi := at_ a pi in
      let '(a, pj) := insert_shift (length a) a (nth vi v SNaN) pl pi in
      insertion_loop count (<[pj := vi]> a) pl (S pi)
  end.

Definition insertion_sort (a : list nat) (pl pr : nat) : list nat :=
  insertion_loop (pr - pl) a pl (S pl).

(** [aheapsort] on the [n] entries from [pl]; the C code indexes them
    from 1. *)
Definition hat (pl : nat) (a : list nat) (k : nat) : nat := at_ a (pl + k - 1).
Definition hset (pl : nat) (a : list nat) (k x : nat) : list nat :=
  <[(pl + k - 1)%nat := x]> a.
Definition hval (pl : nat) (a : list nat) (k : nat) : scalar :=
  nth (hat pl a k) v SNaN.

Fixpoint sift (fuel : nat) (pl : nat) (a : list nat) (tmp i j n : nat) : list nat :=
  match fuel with
  | O => hset pl a i tmp
  | S fuel =>
      if (j <=? n)%nat then
        let j := if (j <? n)%nat && scalar_lt (hval pl a j) (hval pl a (j + 1))
                 then (j + 1)%nat else j in
        if scalar_lt (nth tmp v SNaN) (hval pl a j)
        then sift fuel pl (hset pl a i (hat pl a j)) tmp j (j + j)%nat n
        else hset pl a i tmp
      else hset pl a i tmp
  end.

Fixpoint heapify (l : nat) (pl : nat) (a : list nat) (n : nat) : list nat :=
  match l with
  | O => a
  | S l' => heapify l' pl (sift n pl a (hat pl a l) l (l + l)%nat n) n
  end.

Fixpoint heap_extract (fuel : nat) (pl : nat) (a : list nat) (n : nat) : list nat :=
  match fuel with
  | O => a
  | S fuel =>
      if (1 <? n)%nat then
        let tmp := hat pl a n in
        let a := hset pl a n (hat pl a 1) in
        let n := (n - 1)%nat in
        heap_extract fuel pl (sift (S n) pl a tmp 1 2 n) n
      else a
  end.

Definition aheapsort (a : list nat) (pl n : nat) : list nat :=
  heap_extract n pl (heapify (n / 2) pl a n) n.

(** The main loop.  [inner] tells whether control is inside the
    partitioning [while] (which does not re-check the depth) or at the
    top of the outer loop. *)
Fixpoint quicksort_loop (fuel : nat) (inner : bool) (a : list nat) (pl pr : nat)
    (cdepth : Z) (stack : list (nat * nat * Z)) : list nat :=
  match fuel with
  | O => a
  | S fuel =>
      let stack_pop a :=
        match stack with
        | [] => a
        | (pl, pr, cdepth) :: stack => quicksort_loop fuel false a pl pr cdepth stack
        end in
      if negb inner && (cdepth <? 0)%Z then stack_pop (aheapsort a pl (pr - pl + 1))
      else if (SMALL_QUICKSORT <? pr - pl)%nat then
        let pm := (pl + (pr - pl) / 2)%nat in
        let a := if scalar_lt (val a pm) (val a pl) then INTP_SWAP a pm pl else a in
        let a := if scalar_lt (val a pr) (val a pm) then INTP_SWAP a pr pm else a in
        let a := if scalar_lt (val a pm) (val a pl) then INTP_SWAP a pm pl else a in
        let vp := val a pm in
        let a := INTP_SWAP a pm (pr - 1) in
        let '(a, pi) := partition_loop (length a) a vp pl (pr - 1) in
        let a := INTP_SWAP a pi (pr - 1) in
        let cdepth := (cdepth - 1)%Z in
        if (pi - pl <? pr - pi)%nat
        then quicksort_loop fuel true a pl (pi - 1) cdepth ((S pi, pr, cdepth) :: stack)
        else quicksort_loop fuel true a (S pi) pr cdepth ((pl, (pi - 1)%nat, cdepth) :: stack)
      else stack_pop (insertion_sort a pl pr)
  end.

Definition npy_aquicksort : list nat :=
  let num := length v in
  quicksort_loop (4 * S num) false (seq 0 num) 0 (num - 1)
    (Z.log2 (Z.of_nat num) * 2) [].

End npysort.

(** ** The sweep of the session store ([SessionManager.cleanup_expired_sessions],
       [SessionManager.get_session_count]) *)

Section session_sweep.
Context `{Runtime}.

(** The ids are collected first and deleted afterwards; the order in which
    the dictionary is walked does not matter for either loop. *)
Definition cleanup_expired_sessions : M unit :=
  now ← datetime_now;
  ss ← gets sessions;
  let expired_sessions :=
    map fst
      (List.filter
         (λ kv : string * ChatSession, (session_timeout <? now - last_updated kv.2)%Z)
         (map_to_list ss)) in
  modify (set_sessions (λ m, foldl (λ m sid, delete sid m) m expired_sessions)).

Definition get_session_count : M nat :=
  cleanup_expired_sessions;;
  gets (λ w, size (sessions w)).

End session_sweep.

(** ** The other endpoints of [main.py] *)

Section endpoints.
Context `{Runtime}.
(** [datetime.isoformat()]. *)
Variable isoformat : Z → string.

(** [POST /session/new]. *)
Definition create_new_session : M string := create_session.

(** One stored message as [GET /session/{session_id}/history] shows it. *)
Definition display_message (msg : ChatMessage) : pyval :=
  PDict ([("role", PStr (role msg));
          ("content", PStr (content msg));
          ("timestamp", PStr (isoformat (timestamp msg)))]
         ++ match tool_calls msg with
            | Some (tc :: tcs) => [("tool_calls", PList (tc :: tcs))]
            | _ => []
            end).

(** [GET /session/{session_id}/history]: the session id and the messages
    of the [ChatHistoryResponse]. *)
Definition get_session_history (sid : string) : M (string * list pyval) :=
  session ← get_session sid;
  match session with
  | None => raise (HTTPException 404 "Session not found")
  | Some session => mret (sid, map display_message (messages session))
  end.

End endpoints.

Section health.
Context `{DataLoader}.

Definition get_encoder_params : outcome pyval :=
  match encoder_params with
  | Some params => Return params
  | None =>
      Raise (PyError "RuntimeError" "Encoder params not loaded. Call load_all_data() first.")
  end.

Definition get_decoder_params : outcome pyval :=
  match decoder_params with
  | Some params => Return params
  | None =>
      Raise (PyError "RuntimeError" "Decoder params not loaded. Call load_all_data() first.")
  end.

(** [GET /health]. *)
Definition health_check : outcome pyval :=
  catch
    (df ← match feeds_df with
          | Some df => Return df
          | None =>
              Raise (PyError "RuntimeError"
                       "Feeds data not loaded. Call load_all_data() first.")
          end;
     _ ← get_encoder_params;
     _ ← get_decoder_params;
     mret (PDict [("status", PStr "healthy");
                  ("data", PDict [("feeds_loaded", PInt (Z.of_nat (length (rows df))));
                                  ("encoder_loaded", PBool true);
                                  ("decoder_loaded", PBool true)])]))
    (λ e, Return (PDict [("status", PStr "unhealthy"); ("error", PStr (str_exn e))])).

End health.

(** ** Loading the data ([data_loader.py])

    The loader's three attributes are its state; the files are read
    through the environment.  [print] is not modelled.  An attribute that
    holds [None] counts as not loaded, also when a file held JSON
    [null]. *)

Class FileSystem : Type := {
  (** [str(Path(dir) / name)]: pathlib's join as it prints; it
      normalises the directory ([Path(".") / name] prints as [name]) *)
  path_join : string → string → string;
  (** [Path.exists()] *)
  path_exists : string → bool;
  (** [pd.read_csv(path)] *)
  read_csv : string → outcome DataFrame;
  (** [json.load(open(path))] *)
  json_load : string → outcome pyval;
  (** [jsonschema.validate(instance, schema)]; a failed validation raises
      the class [ValidationError] *)
  jsonschema_validate : pyval → pyval → outcome unit
}.

Record Loader : Type := mkLoader {
  data_dir : string;
  loader_feeds_df : option DataFrame;
  loader_encoder_params : option pyval;
  loader_decoder_params : option pyval
}.

(** [DataLoader(data_dir)]. *)
Definition new_loader (dir : string) : Loader := mkLoader dir None None None.

(** What [data_loader] shows to the tools. *)
Definition loader_view (l : Loader) : DataLoader := {|
  feeds_df := loader_feeds_df l;
  encoder_params := loader_encoder_params l;
  decoder_params := loader_decoder_params l
|}.

(** Assigning a parsed JSON value to an attribute. *)
Definition attribute_of (v : pyval) : option pyval :=
  match v with
  | PNone => None
  | _ => Some v
  end.

Section data_loader.
Context `{FileSystem}.

Definition file_not_found (what path : string) : exn :=
  PyError "FileNotFoundError" (what +:+ " not found: " +:+ path).

Definition load_feeds_data (l : Loader) : outcome DataFrame * Loader :=
  let feeds_path := path_join (data_dir l) "Table_feeds_v2.csv" in
  if path_exists feeds_path then
    match read_csv feeds_path with
    | Return df =>
        (Return df,
         mkLoader (data_dir l) (Some df) (loader_encoder_params l) (loader_decoder_params l))
    | Raise e => (Raise e, l)
    end
  else (Raise (file_not_found "Feeds CSV" feeds_path), l).

(** The parsed parameters are stored before they are validated. *)
Definition load_encoder_params (l : Loader) : outcome pyval * Loader :=
  let params_path := path_join (data_dir l) "encoder_params.json" in
  let schema_path := path_join (data_dir l) "encoder_schema.json" in
  if negb (path_exists params_path) then
    (Raise (file_not_found "Encoder params" params_path), l)
  else if negb (path_exists schema_path) then
    (Raise (file_not_found "Encoder schema" schema_path), l)
  else
    match json_load params_path with
    | Raise e => (Raise e, l)
    | Return params =>
        let l := mkLoader (data_dir l) (loader_feeds_df l) (attribute_of params)
                   (loader_decoder_params l) in
        match json_load schema_path with
        | Raise e => (Raise e, l)
        | Return schema =>
            match jsonschema_validate params schema with
            | Return _ => (Return params, l)
            | Raise (PyError "ValidationError" msg) =>
                (Raise (PyError "ValueError"
                          ("Encoder parameters validation failed: " +:+ msg)), l)
            | Raise e => (Raise e, l)
            end
        end
    end.

Definition load_decoder_params (l : Loader) : outcome pyval * Loader :=
  let params_path := path_join (data_dir l) "decoder_params.json" in
  let schema_path := path_join (data_dir l) "decoder_schema.json" in
  if negb (path_exists params_path) then
    (Raise (file_not_found "Decoder params" params_path), l)
  else if negb (path_exists schema_path) then
    (Raise (file_not_found "Decoder schema" schema_path), l)
  else
    match json_load params_path with
    | Raise e => (Raise e, l)
    | Return params =>
        let l := mkLoader (data_dir l) (loader_feeds_df l) (loader_encoder_params l)
                   (attribute_of params) in
        match json_load schema_path with
        | Raise e => (Raise e, l)
        | Return schema =>
            match jsonschema_validate params schema with
            | Return _ => (Return params, l)
            | Raise (PyError "ValidationError" msg) =>
                (Raise (PyError "ValueError"
                          ("Decoder parameters validation failed: " +:+ msg)), l)
            | Raise e => (Raise e, l)
            end
        end
    end.

Definition load_all_data (l : Loader) : outcome unit * Loader :=
  match load_feeds_data l with
  | (Raise e, l) => (Raise e, l)
  | (Return _, l) =>
      match load_encoder_params l with
      | (Raise e, l) => (Raise e, l)
      | (Return _, l) =>
          match load_decoder_params l with
          | (Raise e, l) => (Raise e, l)
          | (Return _, l) => (Return tt, l)
          end
      end
  end.

End data_loader.

(** ** Vocabulary of the properties, and data for the examples *)

(** A message as [add_message] receives it. *)
Record NewMessage : Type := mkNewMessage {
  new_role : string;
  new_content : string;
  new_tool_calls : option (list pyval);
  new_tool_call_id : option string
}.

(** The entry the specification asks [history] to produce for a message:
    a tool-result entry with its reference id for a [tool] message, an
    entry exposing the invocations for an [assistant] message that has
    some, a plain role/content pair otherwise. *)
Definition spec_entry (m : NewMessage) : pyval :=
  if String.eqb (new_role m) "tool" then
    PDict [("role", PStr "tool"); ("content", PStr (new_content m));
           ("tool_call_id", from_option PStr PNone (new_tool_call_id m))]
  else if String.eqb (new_role m) "assistant"
          && match new_tool_calls m with Some (_ :: _) => true | _ => false end
  then
    PDict [("role", PStr "assistant"); ("content", PStr (new_content m));
           ("tool_calls", PList (default [] (new_tool_calls m)))]
  else
    PDict [("role", PStr (new_role m)); ("content", PStr (new_content m))].

Section append_all.
Context `{Runtime}.

(** Appending a sequence of messages, stopping at the first failure. *)
Fixpoint append_all (sid : string) (ms : list NewMessage) : M bool :=
  match ms with
  | [] => mret true
  | m :: ms =>
      ok ← add_message sid (new_role m) (Some (new_content m))
             (new_tool_calls m) (new_tool_call_id m);
      if ok : bool then append_all sid ms else mret false
  end.
End append_all.

(** One reading per second, and one reading per thirteen hours. *)
Definition seconds_clock (n : nat) : Z := Z.of_nat n * 1000000.
Definition slow_clock (n : nat) : Z := Z.of_nat n * 13 * 3600 * 1000000.

Definition plain_reply : AssistantMessage :=
  mkAssistantMessage (Some "There are three feeds.") [].

Definition empty_world : world := mkWorld ∅ 0 0 None.

(** A store with one session, last active at time 0. *)
Definition one_session_world : world :=
  mkWorld {[ "s1" := mkChatSession "s1" [] 0 0 ]} 2 1 None.

(** pandas 2's [is_string_dtype]: an object column all of whose values are
    strings. *)
Definition all_strings_dtype (dt : dtype) (xs : list scalar) : bool :=
  match dt with
  | object_ => forallb (λ x, match x with SStr _ => true | _ => false end) xs
  | _ => false
  end.

Definition demo_pandas : Pandas := {|
  is_string_dtype := all_strings_dtype;
  re_compile_ignorecase := re_fragment;
  argsort := npy_aquicksort
|}.

Definition loaded (df : DataFrame) : DataLoader := {|
  feeds_df := Some df;
  encoder_params := Some (PDict []);
  decoder_params := Some (PDict [])
|}.

(** The two records of the specification's end-to-end scenarios. *)
Definition scenario_df : DataFrame :=
  mkDataFrame [("FEED_ID", int64); ("THEATER", object_); ("RES_W", int64)]
    [ [SInt 1; SStr "PAC"; SInt 1920];
      [SInt 2; SStr "EUR"; SInt 1280] ].

(** A run-time environment over the scenario records: the clock is [clk],
    the model answers [first] when it is offered tools and [final] when it
    is not, every arguments string decodes to the empty dictionary, and
    the three handlers are the ones of [tools_runtime]. *)
Definition demo_runtime_with (clk : nat → Z) (first final : AssistantMessage) : Runtime := {|
  clock := clk;
  uuid4 := λ n, "session-" +:+ str_Z (Z.of_nat n);
  session_timeout_hours := 24;
  OPENAI_API_KEY := Some "sk-demo";
  SYSTEM_PROMPT := "You are a cautious data assistant.";
  TOOL_SCHEMAS := PList [];
  chat_completions_create := λ _ tools,
    Return (match tools with Some _ => first | None => final end);
  json_loads := λ _, Return (PDict []);
  json_dumps := λ _, "{}";
  call_feeds_search :=
    @call_feeds_search_typed demo_pandas (loaded scenario_df)
      (λ _, Raise (PyError "TypeError" "argument of another type than annotated"));
  call_encoder_get_params :=
    call_without_parameters "encoder_get_params" (@encoder_get_params (loaded scenario_df));
  call_decoder_get_params :=
    call_without_parameters "decoder_get_params" (@decoder_get_params (loaded scenario_df))
|}.

Definition demo_runtime (clk : nat → Z) (reply : AssistantMessage) : Runtime :=
  demo_runtime_with clk reply reply.

(** A first answer that asks for two tools. *)
Definition two_tools_reply : AssistantMessage :=
  mkAssistantMessage None
    [mkToolCallObj "call_1" "function" "feeds_search" "{}";
     mkToolCallObj "call_2" "function" "encoder_get_params" "{}"].

(** Eighteen feeds of one theater. *)
Definition pacific_df : DataFrame :=
  mkDataFrame [("FEED_ID", int64); ("THEATER", object_)]
    (map (λ n, [SInt (Z.of_nat n); SStr "PAC"]) (seq 1 18)).

Definition no_query : QuerySpec := mkQuerySpec None None None None false.

Definition with_top_k (spec : QuerySpec) (k : option Z) : QuerySpec :=
  mkQuerySpec (filters spec) (columns spec) k (sort_by spec) (desc spec).

(** A query with one scalar filter and nothing else. *)
Definition scalar_query (c : string) (v : scalar) : QuerySpec :=
  mkQuerySpec (Some [(c, FScalar v)]) None None None false.

(** The successful answer that keeps the rows whose cell in column [i]
    satisfies [keep]. *)
Definition answer_keeping (df : DataFrame) (i : nat) (keep : scalar → bool) : pyval :=
  data_result
    (to_dict_records
       (mkDataFrame (schema df) (List.filter (λ row, keep (get_cell i row)) (rows df))))
    (length (rows df)).

(** The query names, in a parameter the code looks at, a column the frame
    does not have. *)
Definition names_absent_column (df : DataFrame) (spec : QuerySpec) : Prop :=
  (∃ f fs c v, filters spec = Some (f :: fs) ∧ In (c, v) (f :: fs)
               ∧ find_column c (schema df) = None)
  ∨ (∃ a s, sort_by spec = Some (String a s)
            ∧ find_column (String a s) (schema df) = None)
  ∨ (∃ c cs col, columns spec = Some (c :: cs) ∧ In col (c :: cs)
                 ∧ find_column col (schema df) = None).

(** Stability of an index permutation [ix] of the values [items]: for every
    key value, the positions holding it appear in [ix] in increasing
    order. *)
Definition same_key (items : list scalar) (v : scalar) (i : nat) : bool :=
  bool_decide (nth i items SNaN = v).

Definition ties_in_order (items : list scalar) (ix : list nat) : Prop :=
  ∀ v, StronglySorted lt (List.filter (same_key items v) ix).

Definition stable_argsort_on (items : list scalar) (ix : list nat) : Prop :=
  ix ≡ₚ seq 0 (length items) ∧ ties_in_order items ix.

(** The rows whose cell in column [i] is [v], in the order of the frame. *)
Definition rows_with_key (i : nat) (v : scalar) (rs : list (list scalar))
    : list (list scalar) :=
  List.filter (λ row, bool_decide (get_cell i row = v)) rs.

(** Three feeds, two of them of the same theater. *)
Definition tied_df : DataFrame :=
  mkDataFrame [("FEED_ID", int64); ("THEATER", object_)]
    [ [SInt 1; SStr "PAC"]; [SInt 2; SStr "EUR"]; [SInt 3; SStr "PAC"] ].

(** A query that only sorts. *)
Definition sort_query (c : string) (descending : bool) : QuerySpec :=
  mkQuerySpec None None None (Some c) descending.

Definition pacific_record (feed_id : Z) : pyval :=
  PDict [("FEED_ID", PInt feed_id); ("THEATER", PStr "PAC")].

(** Lower case, character by character. *)
Fixpoint lower (s : string) : string :=
  match s with
  | EmptyString => EmptyString
  | String c s => String (lower_ascii c) (lower s)
  end.

(** What a present [top_k] keeps of the rows: nothing is cut for [0]. *)
Definition limit {A} (k : Z) (rs : list A) : list A :=
  if (k =? 0)%Z then rs else head k rs.

Definition demo_messages : list NewMessage :=
  [ mkNewMessage "user" "How many feeds are in the Pacific theater?" None None;
    mkNewMessage "assistant" ""
      (Some [PDict [("id", PStr "call_1"); ("type", PStr "function")]]) None;
    mkNewMessage "tool" "{}" None (Some "call_1");
    mkNewMessage "assistant" "There are three feeds." None None ].

(** What one request may do to the store when it works in session [sid]:
    it leaves every other session as it is, it does not bring [sid] into
    the store, and where [sid] is stored before and after, its id and
    creation time are the same and the old messages are a prefix of the
    new ones. *)
Definition session_step (sid : string) (w w' : world) : Prop :=
  (∀ k, k ≠ sid → sessions w' !! k = sessions w !! k)
  ∧ (sessions w !! sid = None → sessions w' !! sid = None)
  ∧ (∀ s s', sessions w !! sid = Some s → sessions w' !! sid = Some s' →
             session_id s' = session_id s ∧ created_at s' = created_at s
             ∧ messages s `prefix_of` messages s').

Definition runs_within (sid : string) {A} (m : M A) : Prop :=
  ∀ w, session_step sid w (m w).2.

(** Every session is stored under its own id. *)
Definition keys_match (w : world) : Prop :=
  ∀ k s, sessions w !! k = Some s → session_id s = k.

(** The session a request works in: the one it names, or the one created
    for it. *)
Definition session_of `{Runtime} (request : QueryRequest) (w : world) : string :=
  match req_session_id request with
  | Some (String a s) => String a s
  | _ => uuid4 (issued w)
  end.

(** The session of a request can be worked in: the one it names is
    stored and within its timeout at the first reading of the clock, or,
    when it names none, the clock does not jump past the timeout between
    creating the session and looking it up. *)
Definition session_resolves_live `{Runtime} (request : QueryRequest) (w : world) : Prop :=
  match req_session_id request with
  | Some (String a sid) =>
      ∃ s, sessions w !! String a sid = Some s
           ∧ (clock (ticks w) - last_updated s ≤ session_timeout)%Z
  | _ => (clock (S (ticks w)) - clock (ticks w) ≤ session_timeout)%Z
  end.

(** The user message of a request, as stored at time [stamp]. *)
Definition user_message (request : QueryRequest) (stamp : Z) : ChatMessage :=
  mkChatMessage "user" (question request) stamp None None.

(** The conversation entry that reports the result of one invocation. *)
Definition tool_entry (tc : ToolCallObj) (dumped : string) : pyval :=
  PDict [("role", PStr "tool"); ("tool_call_id", PStr (tc_id tc));
         ("content", PStr dumped)].

(** A trace entry reports an invocation: it carries the invocation's name,
    the dictionary its arguments string decodes to, and the dictionary the
    dispatcher returns for them. *)
Definition reports `{Runtime} (tc : ToolCallObj) (c : ToolCall) : Prop :=
  call_name c = tc_name tc
  ∧ json_loads (tc_arguments tc) = Return (PDict (call_arguments c))
  ∧ dict_get "tool_name" (call_arguments c) = None
  ∧ execute_tool (tc_name tc) (call_arguments c) = Return (PDict (call_result c)).

(** The serialized result of a trace entry. *)
Definition dumped_result `{Runtime} (c : ToolCall) : string :=
  json_dumps (PDict (call_result c)).

(** The conversation entry of the assistant message that asks for tools. *)
Definition assistant_entry (am : AssistantMessage) : pyval :=
  PDict [("role", PStr "assistant");
         ("content", from_option PStr PNone (am_content am));
         ("tool_calls", PList (map tool_call_for_session (am_tool_calls am)))].

(** The five files of a data directory hold a frame, and encoder and
    decoder parameters that their schemas accept. *)
Definition files_hold `{FileSystem} (dir : string) (df : DataFrame)
    (enc dec : pyval) : Prop :=
  path_exists (path_join dir "Table_feeds_v2.csv") = true
  ∧ path_exists (path_join dir "encoder_params.json") = true
  ∧ path_exists (path_join dir "encoder_schema.json") = true
  ∧ path_exists (path_join dir "decoder_params.json") = true
  ∧ path_exists (path_join dir "decoder_schema.json") = true
  ∧ read_csv (path_join dir "Table_feeds_v2.csv") = Return df
  ∧ json_load (path_join dir "encoder_params.json") = Return enc
  ∧ json_load (path_join dir "decoder_params.json") = Return dec
  ∧ (∃ schema, json_load (path_join dir "encoder_schema.json") = Return schema
               ∧ jsonschema_validate enc schema = Return tt)
  ∧ (∃ schema, json_load (path_join dir "decoder_schema.json") = Return schema
               ∧ jsonschema_validate dec schema = Return tt).

(** pathlib's join on POSIX, for the examples: the directory is cut at its
    slashes, empty and [.] components are dropped, exactly two leading
    slashes are kept and any other number of them is one. *)
Fixpoint split_slash (s cur : string) : list string :=
  match s with
  | EmptyString => [cur]
  | String c s =>
      if Ascii.eqb c "/" then cur :: split_slash s EmptyString
      else split_slash s (cur +:+ String c EmptyString)
  end.

Fixpoint leading_slashes (s : string) : nat :=
  match s with
  | String c s => if Ascii.eqb c "/" then S (leading_slashes s) else O
  | EmptyString => O
  end.

Definition posix_join (dir name : string) : string :=
  let root := match leading_slashes dir with
              | O => EmptyString
              | 2 => "//"
              | _ => "/"
              end in
  let parts :=
    List.filter (λ part, negb (String.eqb part EmptyString || String.eqb part "."))
      (split_slash dir EmptyString) in
  root +:+ join "/" (parts ++ [name]).

(** A data directory for the examples: the scenario records, parameters
    with one entry each, and schemas that [accept] them or not. *)
Definition demo_encoder : pyval := PDict [("codec", PStr "h264")].
Definition demo_decoder : pyval := PDict [("threads", PInt 4)].

Definition demo_files (present : list string) (accept : bool) : FileSystem := {|
  path_join := posix_join;
  path_exists := λ path, bool_decide (path ∈ present);
  read_csv := λ _, Return scenario_df;
  json_load := λ path,
    if String.eqb path "Data/encoder_params.json" then Return demo_encoder
    else if String.eqb path "Data/decoder_params.json" then Return demo_decoder
    else Return (PDict []);
  jsonschema_validate := λ _ _,
    if accept then Return tt
    else Raise (PyError "ValidationError" "'bitrate' is a required property")
|}.

Definition all_files : list string :=
  ["Data/Table_feeds_v2.csv"; "Data/encoder_params.json"; "Data/encoder_schema.json";
   "Data/decoder_params.json"; "Data/decoder_schema.json"].

(** [datetime.isoformat()] is not interpreted in the examples. *)
Definition demo_isoformat (t : Z) : string := str_Z t.

(** What the filters of a query keep, row by row.  A bound of a range
    holds for a cell when both are numbers and compare so; a missing cell
    misses every bound. *)
Definition within (op : cmp_op) (bound : option scalar) (x : scalar) : bool :=
  match bound with
  | None => true
  | Some b =>
      match as_number x, as_number b with
      | Some a, Some c => cmp_Z op a c
      | _, _ => false
      end
  end.

Definition passes (df : DataFrame) (f : string * filter_value) (row : list scalar) : bool :=
  match find_column f.1 (schema df) with
  | None => false
  | Some (i, _) =>
      match f.2 with
      | FScalar v => py_eq (get_cell i row) v
      | FIsin values => isin values (get_cell i row)
      | FRange vmin vmax vgt vlt =>
          within Ge vmin (get_cell i row) && within Le vmax (get_cell i row)
          && within Gt vgt (get_cell i row) && within Lt vlt (get_cell i row)
      end
  end.

Definition not_text (x : scalar) : Prop :=
  match x with SStr _ => False | _ => True end.

Definition int_bound (b : option scalar) : Prop :=
  match b with
  | None | Some (SInt _) => True
  | Some _ => False
  end.

(** A filter that compares values and cannot raise: on a known column, a
    list of values, a scalar on a column that is never taken for text, or
    integer bounds on a column without strings. *)
Definition plain_filter `{Pandas} (df : DataFrame) (f : string * filter_value) : Prop :=
  ∃ i dt, find_column f.1 (schema df) = Some (i, dt)
          ∧ match f.2 with
            | FScalar _ => ∀ xs, is_string_dtype dt xs = false
            | FIsin _ => True
            | FRange vmin vmax vgt vlt =>
                int_bound vmin ∧ int_bound vmax ∧ int_bound vgt ∧ int_bound vlt
                ∧ Forall (λ row, not_text (get_cell i row)) (rows df)
            end.

(** The cell of a row under a column name, and the record of a row
    restricted to some columns, in their order. *)
Definition cell_of (df : DataFrame) (c : string) (row : list scalar) : scalar :=
  match find_column c (schema df) with
  | Some (i, _) => get_cell i row
  | None => SNaN
  end.

Definition record_of (df : DataFrame) (cols : list string) (row : list scalar) : pyval :=
  PDict (map (λ c, (c, pv (cell_of df c row))) cols).

(** A query with its empty arguments taken away. *)
Definition without_empty (spec : QuerySpec) : QuerySpec :=
  mkQuerySpec
    (match filters spec with Some [] => None | fs => fs end)
    (match columns spec with Some [] => None | cs => cs end)
    (match top_k spec with Some 0%Z => None | k => k end)
    (match sort_by spec with Some EmptyString => None | c => c end)
    (desc spec).

(** Run-time environments for the examples of the further properties: the
    scenario environment with a plain answer, and variants of it with
    another API key, model or argument decoder. *)
Definition chat_runtime : Runtime := demo_runtime seconds_clock plain_reply.

Definition custom_runtime (key : option string)
    (model : list pyval → option pyval → outcome AssistantMessage)
    (loads : string → outcome pyval) : Runtime := {|
  clock := seconds_clock;
  uuid4 := λ n, "session-" +:+ str_Z (Z.of_nat n);
  session_timeout_hours := 24;
  OPENAI_API_KEY := key;
  SYSTEM_PROMPT := "You are a cautious data assistant.";
  TOOL_SCHEMAS := PList [];
  chat_completions_create := model;
  json_loads := loads;
  json_dumps := λ _, "{}";
  call_feeds_search :=
    @call_feeds_search_typed demo_pandas (loaded scenario_df)
      (λ _, Raise (PyError "TypeError" "argument of another type than annotated"));
  call_encoder_get_params :=
    call_without_parameters "encoder_get_params" (@encoder_get_params (loaded scenario_df));
  call_decoder_get_params :=
    call_without_parameters "decoder_get_params" (@decoder_get_params (loaded scenario_df))
|}.

Definition keyless_runtime : Runtime :=
  custom_runtime None (λ _ _, Return plain_reply) (λ _, Return (PDict [])).

Definition failing_runtime : Runtime :=
  custom_runtime (Some "sk-demo") (λ _ _, Raise (OpenAIError "Connection error."))
    (λ _, Return (PDict [])).

(** Every arguments string decodes to a JSON list, or to an object with
    the key [tool_name]. *)
Definition list_arguments_runtime : Runtime :=
  custom_runtime (Some "sk-demo") (λ _ _, Return plain_reply) (λ _, Return (PList [])).

Definition named_arguments_runtime : Runtime :=
  custom_runtime (Some "sk-demo") (λ _ _, Return plain_reply)
    (λ _, Return (PDict [("tool_name", PStr "feeds_search")])).

(** A first answer that asks for the encoder parameters and for a tool
    that does not exist, and the entries that report the two. *)
Definition encoder_call : ToolCallObj :=
  mkToolCallObj "call_1" "function" "encoder_get_params" "{}".
Definition stray_call : ToolCallObj :=
  mkToolCallObj "call_2" "function" "feeds_delete" "{}".
Definition encoder_tool_reply : AssistantMessage :=
  mkAssistantMessage None [encoder_call; stray_call].
Definition tools_runtime : Runtime :=
  demo_runtime_with seconds_clock encoder_tool_reply plain_reply.

Definition encoder_trace : ToolCall :=
  mkToolCall "encoder_get_params" []
    [("encoder_params", PDict []);
     ("description", PStr "Video encoder configuration parameters")].
Definition stray_trace : ToolCall :=
  mkToolCall "feeds_delete" [] [("error", PStr "Unknown tool: feeds_delete")].

(** Queries for the examples. *)
Definition wide_feeds : list (string * filter_value) :=
  [("RES_W", FRange (Some (SInt 1500)) None None None);
   ("FEED_ID", FIsin [SInt 1; SInt 2])].

(** Two feeds, the second without a theater. *)
Definition gappy_df : DataFrame :=
  mkDataFrame [("FEED_ID", int64); ("THEATER", object_)]
    [ [SInt 1; SStr "PAC"]; [SInt 2; SNaN] ].

Definition filter_query (fs : list (string * filter_value)) : QuerySpec :=
  mkQuerySpec (Some fs) None None None false.

Definition columns_query (cols : list string) : QuerySpec :=
  mkQuerySpec None (Some cols) None None false.

(** * Properties *)

(** ** Session store *)

Ltac unfold_M :=
  unfold mbind, M_bind, mret, M_ret, gets, modify, raise, lift, try_except,
    datetime_now, uuid4_str, set_sessions in *.

Section session_manager_facts.
Context `{Runtime}.
Implicit Types (w : world) (sid : string) (s : ChatSession).

Lemma get_session_unknown w sid :
  sessions w !! sid = None → get_session sid w = (Return None, w).
Proof. intros E. unfold get_session. unfold_M. by rewrite E. Qed.

Lemma get_session_expired w sid s :
  sessions w !! sid = Some s → expired_at w s →
  get_session sid w
  = (Return None,
     mkWorld (delete sid (sessions w)) (S (ticks w)) (issued w) (client w)).
Proof.
  intros E X. unfold get_session. unfold_M. rewrite E. simpl.
  apply Z.ltb_lt in X. by rewrite X.
Qed.

Lemma get_session_live w sid s :
  sessions w !! sid = Some s → ¬ expired_at w s →
  get_session sid w = (Return (Some s), tick w).
Proof.
  intros E X. unfold get_session. unfold_M. rewrite E. simpl.
  apply Z.ltb_nlt in X. by rewrite X.
Qed.

(** Whatever [get_session] returns is what the store held, and the store
    afterwards holds it still, or has lost exactly this id. *)
Lemma get_session_cases w sid :
  (sessions w !! sid = None ∧ get_session sid w = (Return None, w))
  ∨ (∃ s, sessions w !! sid = Some s ∧ expired_at w s ∧
          get_session sid w
          = (Return None,
             mkWorld (delete sid (sessions w)) (S (ticks w)) (issued w) (client w)))
  ∨ (∃ s, sessions w !! sid = Some s ∧ ¬ expired_at w s ∧
          get_session sid w = (Return (Some s), tick w)).
Proof.
  destruct (sessions w !! sid) as [s|] eqn:E.
  - destruct (decide (expired_at w s)) as [X|X].
    + right; left. exists s. eauto using get_session_expired.
    + right; right. exists s. eauto using get_session_live.
  - left. eauto using get_session_unknown.
Qed.

Lemma history_live w sid s include_system :
  sessions w !! sid = Some s → ¬ expired_at w s →
  get_conversation_history sid include_system w
  = (Return ((if include_system then [system_message] else [])
             ++ map openai_format (messages s)), tick w).
Proof.
  intros E X. unfold get_conversation_history.
  unfold mbind at 1, M_bind at 1. by rewrite (get_session_live _ _ _ E X).
Qed.

Lemma history_absent w sid include_system :
  sessions w !! sid = None ∨ (∃ s, sessions w !! sid = Some s ∧ expired_at w s) →
  ∃ w', get_conversation_history sid include_system w = (Return [], w')
        ∧ sessions w' !! sid = None.
Proof.
  intros [E|(s & E & X)]; unfold get_conversation_history;
    unfold mbind at 1, M_bind at 1.
  - rewrite (get_session_unknown _ _ E). by exists w.
  - rewrite (get_session_expired _ _ _ E X). eexists; split; [done|].
    simpl. apply lookup_delete_eq.
Qed.

(** One successful [add_message]: the message is the new last one, with
    the fields given, and the activity time is refreshed. *)
Lemma add_message_live w sid s rl cnt tcs tcid :
  sessions w !! sid = Some s → ¬ expired_at w s →
  add_message sid rl (Some cnt) tcs tcid w
  = (Return true,
     mkWorld (<[sid := mkChatSession (session_id s)
                         (messages s ++ [mkChatMessage rl cnt (clock (S (ticks w))) tcs tcid])
                         (created_at s) (clock (S (S (ticks w))))]> (sessions w))
             (S (S (S (ticks w)))) (issued w) (client w)).
Proof.
  intros E X. unfold add_message.
  unfold mbind at 1, M_bind at 1. rewrite (get_session_live _ _ _ E X).
  reflexivity.
Qed.

Lemma add_message_absent w sid rl cnt tcs tcid :
  sessions w !! sid = None ∨ (∃ s, sessions w !! sid = Some s ∧ expired_at w s) →
  ∃ w', add_message sid rl cnt tcs tcid w = (Return false, w')
        ∧ sessions w' !! sid = None.
Proof.
  intros [E|(s & E & X)]; unfold add_message; unfold mbind at 1, M_bind at 1.
  - rewrite (get_session_unknown _ _ E). by exists w.
  - rewrite (get_session_expired _ _ _ E X). eexists; split; [done|].
    simpl. apply lookup_delete_eq.
Qed.

Lemma openai_format_spec_entry rl cnt stamp tcs tcid :
  openai_format (mkChatMessage rl cnt stamp tcs tcid)
  = spec_entry (mkNewMessage rl cnt tcs tcid).
Proof.
  unfold openai_format, spec_entry; simpl.
  destruct (String.eqb rl "tool"); [done|].
  destruct tcs as [[|tc tcs]|]; simpl; rewrite ?andb_false_r; try done.
  by destruct (String.eqb rl "assistant").
Qed.

(** A run of appends that all succeed leaves the session in the store
    with the new messages after the old ones, in order. *)
Lemma append_all_messages ms : ∀ w sid s w1,
  sessions w !! sid = Some s →
  append_all sid ms w = (Return true, w1) →
  ∃ s1, sessions w1 !! sid = Some s1 ∧
        map openai_format (messages s1)
        = map openai_format (messages s) ++ map spec_entry ms.
Proof.
  induction ms as [|m ms IH]; intros w sid s w1 E R.
  - injection R as <-. exists s. by rewrite app_nil_r.
  - simpl in R. unfold mbind at 1, M_bind at 1 in R.
    destruct (decide (expired_at w s)) as [X|X].
    + destruct (add_message_absent w sid (new_role m) (Some (new_content m))
                  (new_tool_calls m) (new_tool_call_id m)) as (w' & Ea & _);
        [eauto|]. rewrite Ea in R. discriminate R.
    + rewrite (add_message_live _ _ _ _ _ _ _ E X) in R.
      eapply IH in R as (s1 & E1 & F1); [|simpl; apply lookup_insert_eq].
      exists s1. split; [done|]. rewrite F1. simpl.
      rewrite map_app, <- app_assoc. simpl.
      rewrite openai_format_spec_entry. by destruct m.
Qed.

End session_manager_facts.

Section session_manager_properties.
Context `{Runtime}.
Implicit Types (w : world) (sid : string) (s : ChatSession).

(** C7.  Lazy expiry of [get_session]: when the time since the session's
    last activity exceeds the timeout at the moment of the lookup, the
    lookup answers [None] and removes the session from the store, whatever
    happened (or did not happen) to the session before; a session within
    the timeout is returned as stored and stays in the store. *)
Theorem get_session_lazy_expiry w sid s :
  sessions w !! sid = Some s →
  ((session_timeout < clock (ticks w) - last_updated s)%Z →
     get_session sid w
     = (Return None,
        mkWorld (delete sid (sessions w)) (S (ticks w)) (issued w) (client w))
     ∧ delete sid (sessions w) !! sid = None)
  ∧ ((clock (ticks w) - last_updated s ≤ session_timeout)%Z →
     get_session sid w
     = (Return (Some s), mkWorld (sessions w) (S (ticks w)) (issued w) (client w))).
Proof.
  intros E. split; intros X.
  - split; [by apply (get_session_expired _ _ s)|apply lookup_delete_eq].
  - apply get_session_live; [done|]. unfold expired_at. lia.
Qed.

(** C10.  For an unknown or expired session id [get_conversation_history]
    returns the empty list, without raising, whether or not the system
    preamble was requested; for a live session with the preamble requested
    the list starts with the system message, so the two are told apart by
    the preamble. *)
Theorem history_of_absent_session w sid :
  (sessions w !! sid = None
   ∨ (∃ s, sessions w !! sid = Some s
           ∧ (session_timeout < clock (ticks w) - last_updated s)%Z) →
   ∀ include_system,
     (get_conversation_history sid include_system w).1 = Return [])
  ∧ (∀ s, sessions w !! sid = Some s →
          (clock (ticks w) - last_updated s ≤ session_timeout)%Z →
          (get_conversation_history sid true w).1
          = Return (system_message :: map openai_format (messages s))).
Proof.
  split.
  - intros A include_system.
    by destruct (history_absent w sid include_system A) as (w' & -> & _).
  - intros s E X.
    rewrite (history_live w sid s true E); [done|]. unfold expired_at. lia.
Qed.

(** C8.  Appending messages to a live session and then asking for the
    history gives, after the optional system preamble and the entries of
    the messages already stored, one entry per appended message in append
    order: a tool-result entry with the reference id for a [tool] message,
    an entry with the invocation list for an [assistant] message that has
    invocations, a plain role/content pair otherwise.  The list is a
    function of the stored messages only: two lookups that find the same
    stored session give the same list. *)
Theorem history_reconstructs_appends w sid s ms w1 include_system :
  sessions w !! sid = Some s →
  append_all sid ms w = (Return true, w1) →
  is_Some (sessions (get_conversation_history sid include_system w1).2 !! sid) →
  (get_conversation_history sid include_system w1).1
  = Return ((if include_system then [system_message] else [])
            ++ map openai_format (messages s) ++ map spec_entry ms)
  ∧ (∀ wa wb sa,
       sessions wa !! sid = Some sa → sessions wb !! sid = Some sa →
       is_Some (sessions (get_conversation_history sid include_system wa).2 !! sid) →
       is_Some (sessions (get_conversation_history sid include_system wb).2 !! sid) →
       (get_conversation_history sid include_system wa).1
       = (get_conversation_history sid include_system wb).1).
Proof.
  assert (G : ∀ wa sa,
    sessions wa !! sid = Some sa →
    is_Some (sessions (get_conversation_history sid include_system wa).2 !! sid) →
    (get_conversation_history sid include_system wa).1
    = Return ((if include_system then [system_message] else [])
              ++ map openai_format (messages sa))).
  { intros wa sa E L.
    destruct (decide (expired_at wa sa)) as [X|X].
    - destruct (history_absent wa sid include_system) as (w' & R' & N); [eauto|].
      rewrite R' in L. simpl in L. rewrite N in L. by destruct L.
    - by rewrite (history_live _ _ _ _ E X). }
  intros E A L. split.
  - destruct (append_all_messages ms w sid s w1 E A) as (s1 & E1 & F).
    rewrite (G _ _ E1 L). by rewrite F.
  - intros wa wb sa Ea Eb La Lb.
    by rewrite (G _ _ Ea La), (G _ _ Eb Lb).
Qed.

End session_manager_properties.

(** ** Examples for the session store *)

Lemma get_session_lazy_expiry_witness :
  (@get_session (demo_runtime slow_clock plain_reply) "s1" one_session_world
   = (Return None, mkWorld (delete "s1" (sessions one_session_world)) 3 1 None)
   ∧ delete "s1" (sessions one_session_world) !! "s1" = None)
  ∧ @get_session (demo_runtime seconds_clock plain_reply) "s1" one_session_world
    = (Return (Some (mkChatSession "s1" [] 0 0)),
       mkWorld (sessions one_session_world) 3 1 None).
Proof.
  split.
  - apply (@get_session_lazy_expiry (demo_runtime slow_clock plain_reply)
             one_session_world "s1" (mkChatSession "s1" [] 0 0));
      [reflexivity | vm_compute; reflexivity].
  - apply (@get_session_lazy_expiry (demo_runtime seconds_clock plain_reply)
             one_session_world "s1" (mkChatSession "s1" [] 0 0));
      [reflexivity | vm_compute; discriminate].
Defined.

Lemma history_of_absent_session_witness :
  (@get_conversation_history (demo_runtime seconds_clock plain_reply)
     "no-such-session" true one_session_world).1 = Return []
  ∧ (@get_conversation_history (demo_runtime slow_clock plain_reply)
       "s1" true one_session_world).1 = Return []
  ∧ (@get_conversation_history (demo_runtime seconds_clock plain_reply)
       "s1" true one_session_world).1
    = Return [@system_message (demo_runtime seconds_clock plain_reply)].
Proof.
  split; [|split].
  - apply (@history_of_absent_session (demo_runtime seconds_clock plain_reply)
             one_session_world "no-such-session").
    left. reflexivity.
  - apply (@history_of_absent_session (demo_runtime slow_clock plain_reply)
             one_session_world "s1").
    right. exists (mkChatSession "s1" [] 0 0).
    split; [reflexivity | vm_compute; reflexivity].
  - apply (@history_of_absent_session (demo_runtime seconds_clock plain_reply)
             one_session_world "s1" ) with (s := mkChatSession "s1" [] 0 0);
      [reflexivity | vm_compute; discriminate].
Defined.

Lemma history_reconstructs_appends_witness :
  (@get_conversation_history (demo_runtime seconds_clock plain_reply) "s1" true
     (@append_all (demo_runtime seconds_clock plain_reply) "s1" demo_messages
        one_session_world).2).1
  = Return ([@system_message (demo_runtime seconds_clock plain_reply)]
            ++ map (@openai_format) (messages (mkChatSession "s1" [] 0 0))
            ++ map spec_entry demo_messages).
Proof.
  apply (@history_reconstructs_appends (demo_runtime seconds_clock plain_reply)
           one_session_world "s1" (mkChatSession "s1" [] 0 0) demo_messages
           (@append_all (demo_runtime seconds_clock plain_reply) "s1" demo_messages
              one_session_world).2 true).
  - reflexivity.
  - vm_compute. reflexivity.
  - vm_compute. eexists. reflexivity.
Defined.

(** ** Tool dispatcher *)

Section dispatcher_properties.
Context `{Runtime}.

Lemma dict_get_TOOL_FUNCTIONS_unknown tool_name :
  tool_name ≠ "feeds_search" → tool_name ≠ "encoder_get_params" →
  tool_name ≠ "decoder_get_params" →
  dict_get tool_name TOOL_FUNCTIONS = None.
Proof.
  intros N1 N2 N3. unfold TOOL_FUNCTIONS. simpl.
  apply String.eqb_neq in N1, N2, N3. by rewrite N1, N2, N3.
Qed.

Lemma dict_get_TOOL_FUNCTIONS_known tool_name handler :
  dict_get tool_name TOOL_FUNCTIONS = Some handler →
  tool_name = "feeds_search" ∨ tool_name = "encoder_get_params"
  ∨ tool_name = "decoder_get_params".
Proof.
  unfold TOOL_FUNCTIONS. simpl.
  destruct (String.eqb_spec tool_name "feeds_search"); [auto|].
  destruct (String.eqb_spec tool_name "encoder_get_params"); [auto|].
  destruct (String.eqb_spec tool_name "decoder_get_params"); [auto|].
  discriminate.
Qed.

(** C6.  [execute_tool] returns for every tool name and every argument
    set that does not name an argument [tool_name].  A name outside the
    registry gives [{error: "Unknown tool: <name>"}]; for a registered
    name the handler's result is passed on, and an exception the handler
    raises becomes [{error: "Tool execution error: <message>"}]. *)
Theorem execute_tool_never_raises (tool_name : string) (args : kwargs) :
  dict_get "tool_name" args = None →
  (∃ result, execute_tool tool_name args = Return result)
  ∧ (tool_name ≠ "feeds_search" → tool_name ≠ "encoder_get_params" →
     tool_name ≠ "decoder_get_params" →
     execute_tool tool_name args
     = Return (PDict [("error", PStr ("Unknown tool: " +:+ tool_name))]))
  ∧ (∀ handler e,
       dict_get tool_name TOOL_FUNCTIONS = Some handler →
       handler args = Raise e →
       execute_tool tool_name args
       = Return (PDict [("error", PStr ("Tool execution error: " +:+ str_exn e))]))
  ∧ (∀ handler result,
       dict_get tool_name TOOL_FUNCTIONS = Some handler →
       handler args = Return result →
       execute_tool tool_name args = Return result).
Proof.
  intros K. unfold execute_tool. rewrite K. repeat split.
  - destruct (dict_get tool_name TOOL_FUNCTIONS) as [h|]; [|eauto].
    destruct (h args); eauto.
  - intros N1 N2 N3. by rewrite dict_get_TOOL_FUNCTIONS_unknown.
  - intros h e E R. by rewrite E, R.
  - intros h r E R. by rewrite E, R.
Qed.

End dispatcher_properties.

Lemma execute_tool_never_raises_witness :
  @execute_tool (demo_runtime seconds_clock plain_reply) "feeds_delete" []
  = Return (PDict [("error", PStr "Unknown tool: feeds_delete")])
  ∧ @execute_tool (demo_runtime seconds_clock plain_reply) "encoder_get_params"
      [("verbose", PBool true)]
    = Return (PDict [("error",
        PStr ("Tool execution error: "
              +:+ str_exn (unexpected_keyword "encoder_get_params" "verbose")))])
  ∧ @execute_tool (demo_runtime seconds_clock plain_reply) "decoder_get_params" []
    = Return (PDict [("decoder_params", PDict []);
                     ("description", PStr "Video decoder configuration parameters")]).
Proof.
  split; [|split].
  - apply (@execute_tool_never_raises (demo_runtime seconds_clock plain_reply)
             "feeds_delete" []); [reflexivity|discriminate..].
  - destruct (@execute_tool_never_raises (demo_runtime seconds_clock plain_reply)
                "encoder_get_params" [("verbose", PBool true)]) as (_ & _ & E & _);
      [reflexivity|].
    apply (E (@call_encoder_get_params (demo_runtime seconds_clock plain_reply)));
      reflexivity.
  - destruct (@execute_tool_never_raises (demo_runtime seconds_clock plain_reply)
                "decoder_get_params" []) as (_ & _ & _ & R); [reflexivity|].
    apply (R (@call_decoder_get_params (demo_runtime seconds_clock plain_reply)));
      reflexivity.
Defined.

(** C6 as stated fails: an argument set that names an argument
    [tool_name] gives the positional parameter a second value, and the
    call raises [TypeError] while the parameters are bound, before the
    [try] of the body is entered; this holds for a registered and for an
    unknown tool name alike. *)
Lemma execute_tool_raises_on_tool_name_key :
  @execute_tool (demo_runtime seconds_clock plain_reply) "feeds_search"
    [("tool_name", PStr "decoder_get_params")]
  = Raise (PyError "TypeError"
             "execute_tool() got multiple values for argument 'tool_name'")
  ∧ @execute_tool (demo_runtime seconds_clock plain_reply) "feeds_delete"
      [("top_k", PInt 1); ("tool_name", PStr "feeds_search")]
    = Raise (PyError "TypeError"
               "execute_tool() got multiple values for argument 'tool_name'").
Proof. split; reflexivity. Qed.

(** ** Orchestrator *)

Section main_facts.
Context `{Runtime}.
Implicit Types (w : world) (sid : string) (s : ChatSession).

(** A request naming a session that the store does not hold, or holds past
    its timeout, ends in the generic handler: the 404 raised inside the
    [try] leaves as a 500, and no session is created. *)
Lemma ask_question_unknown_session w a sid' q :
  sessions w !! String a sid' = None
  ∨ (∃ s, sessions w !! String a sid' = Some s ∧ expired_at w s) →
  ∃ w', ask_question (mkQueryRequest q (Some (String a sid'))) w
        = (Raise (HTTPException 500 "Internal server error: 404: Session not found"), w')
        ∧ sessions w' = delete (String a sid') (sessions w).
Proof.
  intros A. unfold ask_question, try_except, ask_question_body, resolve_session.
  simpl. unfold mbind at 1, M_bind at 1. unfold mret at 1, M_ret at 1.
  unfold answer_in_session. unfold mbind at 1, M_bind at 1.
  destruct A as [E|(s & E & X)].
  - rewrite (get_session_unknown _ _ E). simpl. eexists. split; [done|].
    by rewrite delete_id.
  - rewrite (get_session_expired _ _ _ E X). simpl. eexists. split; done.
Qed.

(** The same lookup failure on the sibling endpoint reaches the caller as
    a 404. *)
Lemma clear_session_history_unknown w sid :
  sessions w !! sid = None →
  clear_session_history sid w = (Raise (HTTPException 404 "Session not found"), w).
Proof.
  intros E. unfold clear_session_history, clear_session.
  unfold mbind at 1 2, M_bind at 1 2. by rewrite (get_session_unknown _ _ E).
Qed.

End main_facts.

(** A request answered without tool invocations and without failure:
    the session afterwards holds, after what it held before, the user
    message and nothing else. *)

Section answers_without_tools.
Context `{Runtime}.
Implicit Types (w : world) (sid : string) (s : ChatSession).

Lemma add_message_cases w sid rl cnt tcs tcid :
  (∃ s w2, sessions w !! sid = Some s
           ∧ add_message sid rl (Some cnt) tcs tcid w = (Return true, w2)
           ∧ ∃ s' stamp, sessions w2 = <[sid := s']> (sessions w)
                         ∧ messages s' = messages s ++ [mkChatMessage rl cnt stamp tcs tcid])
  ∨ (∃ w2, add_message sid rl (Some cnt) tcs tcid w = (Return false, w2)
           ∧ sessions w2 !! sid = None).
Proof.
  destruct (sessions w !! sid) as [s|] eqn:E.
  - destruct (decide (expired_at w s)) as [X|X].
    + right. apply add_message_absent. eauto.
    + left. exists s. eexists. split; [done|].
      rewrite (add_message_live _ _ _ _ _ _ _ E X). split; [done|].
      eexists _, _. split; [done|]. done.
  - right. apply add_message_absent. eauto.
Qed.

Lemma get_openai_client_sessions w r w2 :
  get_openai_client w = (r, w2) → sessions w2 = sessions w.
Proof.
  unfold get_openai_client. unfold_M. simpl.
  destruct (client w); [by intros [= _ <-]|].
  destruct OPENAI_API_KEY as [[|a k]|]; by intros [= _ <-].
Qed.

Lemma history_sessions w sid b :
  ∃ h w2, get_conversation_history sid b w = (Return h, w2)
          ∧ (sessions w2 = sessions w ∨ sessions w2 !! sid = None).
Proof.
  unfold get_conversation_history. unfold mbind at 1, M_bind at 1.
  destruct (get_session_cases w sid) as [(E & ->)|[(s & E & X & ->)|(s & E & X & ->)]].
  - eexists _, _. split; [done|]. by left.
  - eexists _, _. split; [done|]. right. simpl. apply lookup_delete_eq.
  - eexists _, _. split; [done|]. by left.
Qed.

Lemma answer_in_session_without_tools sid request w resp w' :
  (∀ msgs am, chat_completions_create msgs (Some TOOL_SCHEMAS) = Return am →
              am_tool_calls am = []) →
  answer_in_session sid request w = (Return resp, w') →
  made_tool_calls resp = [] ∧ resp_session_id resp = sid
  ∧ ∃ s, sessions w !! sid = Some s
         ∧ (sessions w' !! sid = None
            ∨ ∃ s' stamp, sessions w' !! sid = Some s'
                ∧ messages s' = messages s
                    ++ [mkChatMessage "user" (question request) stamp None None]).
Proof.
  intros NT. unfold answer_in_session. unfold mbind at 1, M_bind at 1.
  destruct (get_session_cases w sid) as [(E & ->)|[(s & E & X & ->)|(s & E & X & ->)]];
    [done|done|].
  set (Inv := λ ws : gmap string ChatSession,
         ws !! sid = None
         ∨ ∃ s' stamp, ws !! sid = Some s'
             ∧ messages s' = messages s
                 ++ [mkChatMessage "user" (question request) stamp None None]).
  assert (A : ∃ b w2,
    add_message sid "user" (Some (question request)) None None (tick w) = (Return b, w2)
    ∧ Inv (sessions w2)).
  { destruct (add_message_cases (tick w) sid "user" (question request) None None)
      as [(s0 & w2 & E0 & -> & s' & stamp & Es & Em)|(w2 & -> & N)].
    - exists true, w2. split; [done|]. right. exists s', stamp. rewrite Es.
      split; [apply lookup_insert_eq|]. simpl in E0. rewrite E in E0.
      by injection E0 as <-.
    - exists false, w2. split; [done|]. by left. }
  unfold mbind at 1, M_bind at 1.
  destruct A as (b & w2 & -> & I2).
  unfold mbind at 1, M_bind at 1.
  destruct (get_openai_client w2) as [[c|e] w3] eqn:C; [|done].
  apply get_openai_client_sessions in C.
  unfold mbind at 1, M_bind at 1.
  destruct (history_sessions w3 sid true) as (h & w4 & -> & I4).
  assert (Inv (sessions w4)) as I.
  { destruct I4 as [->|N]; [by rewrite C|by left]. }
  unfold mbind at 1, M_bind at 1. unfold lift.
  destruct (chat_completions_create h (Some TOOL_SCHEMAS)) as [am|e] eqn:Q; [|done].
  rewrite (NT _ _ Q).
  unfold mbind at 1, M_bind at 1.
  destruct (am_content am) as [ans|]; simpl; [|done].
  intros [= <- <-]. simpl. eauto.
Qed.
End answers_without_tools.

(** C1.  A first question whose answer carries no tool invocation: the
    response carries the model's content and an empty tool-call list, but
    the session afterwards holds the user message only.  No assistant
    message is stored, although the comment in [ask_question] says it
    already was. *)
Theorem ask_question_without_tools_stores_no_answer :
  (@ask_question (demo_runtime seconds_clock plain_reply)
     (mkQueryRequest "How many feeds are there?" None) empty_world).1
  = Return (mkQueryResponse "There are three feeds." [] "session-0")
  ∧ messages <$>
      sessions (@ask_question (demo_runtime seconds_clock plain_reply)
                  (mkQueryRequest "How many feeds are there?" None) empty_world).2
        !! "session-0"
    = Some [mkChatMessage "user" "How many feeds are there?" 3000000 None None].
Proof. split; vm_compute; reflexivity. Qed.

(** C9.  A request that names a session the store does not hold: no
    session is created, but the caller receives status 500, not 404; the
    404 raised after the lookup is caught by the [except Exception] clause
    of the same function.  The sibling endpoint [clear_session_history]
    answers the same lookup failure with 404. *)
Theorem ask_question_unknown_session_is_500 :
  (@ask_question (demo_runtime seconds_clock plain_reply)
     (mkQueryRequest "How many feeds are there?" (Some "no-such-session"))
     one_session_world).1
  = Raise (HTTPException 500 "Internal server error: 404: Session not found")
  ∧ sessions (@ask_question (demo_runtime seconds_clock plain_reply)
                (mkQueryRequest "How many feeds are there?" (Some "no-such-session"))
                one_session_world).2
    = sessions one_session_world
  ∧ (@clear_session_history (demo_runtime seconds_clock plain_reply)
       "no-such-session" one_session_world).1
    = Raise (HTTPException 404 "Session not found").
Proof. repeat split; vm_compute; reflexivity. Qed.

(** ** Query engine *)

Lemma select_rows_map {A} (f : A → bool) (rs : list A) :
  select_rows (map f rs) rs = List.filter f rs.
Proof. induction rs as [|r rs IH]; simpl; [done|]. by rewrite IH. Qed.

Lemma select_rows_column (f : scalar → bool) (i : nat) (df : DataFrame) :
  df_mask df (map f (column_values i df))
  = mkDataFrame (schema df) (List.filter (λ row, f (get_cell i row)) (rows df)).
Proof.
  unfold df_mask, column_values. f_equal. rewrite map_map.
  apply (select_rows_map (λ row, f (get_cell i row))).
Qed.

(** *** Literal search *)

Lemma lower_app (a b : string) : lower (a +:+ b) = lower a +:+ lower b.
Proof. induction a as [|c a IH]; simpl; [done|]. by rewrite IH. Qed.

Lemma prefix_ci_spec (p s : string) :
  prefix_ci p s = true ↔ ∃ post, lower s = lower p +:+ post.
Proof.
  revert s. induction p as [|a p IH]; intros s; simpl.
  - split; [intros _; by exists (lower s)|done].
  - destruct s as [|b s]; simpl.
    + split; [done|intros [post E]; discriminate E].
    + rewrite andb_true_iff, IH. unfold eqb_ci. rewrite Ascii.eqb_eq. split.
      * intros [E [post F]]. exists post. by rewrite E, F.
      * intros [post F]. injection F as E F. eauto.
Qed.

(** [icontains p s] holds exactly when [p] occurs in [s] as a substring
    once both are put in lower case. *)
Lemma icontains_spec (p s : string) :
  icontains p s = true ↔ ∃ pre post, lower s = pre +:+ lower p +:+ post.
Proof.
  induction s as [|b s IH]; simpl.
  - rewrite orb_false_r, prefix_ci_spec. split.
    + intros [post E]. by exists EmptyString, post.
    + intros (pre & post & E). destruct pre; [by exists post|discriminate E].
  - rewrite orb_true_iff, prefix_ci_spec, IH. split.
    + intros [[post E]|(pre & post & E)].
      * by exists EmptyString, post.
      * exists (String (lower_ascii b) pre), post. simpl. by rewrite E.
    + intros (pre & post & E). destruct pre as [|c pre]; simpl in E.
      * left. by exists post.
      * right. injection E as _ E. by exists pre, post.
Qed.

Lemma prefix_dot_literal (p s : string) :
  has_meta p = false → prefix_dot p s = prefix_ci p s.
Proof.
  revert s. induction p as [|a p IH]; intros s M; simpl; [done|].
  simpl in M. apply orb_false_iff in M as [Ma M].
  destruct s as [|b s]; [done|]. rewrite (IH s M).
  destruct (Ascii.eqb_spec a ".") as [->|]; [discriminate Ma|done].
Qed.

Lemma search_dot_literal (p s : string) :
  has_meta p = false → search_dot p s = icontains p s.
Proof.
  intros M. induction s as [|b s IH]; simpl.
  - by rewrite prefix_dot_literal.
  - by rewrite prefix_dot_literal, IH.
Qed.

Lemma only_dot_meta_literal (p : string) : has_meta p = false → only_dot_meta p = true.
Proof.
  induction p as [|a p IH]; simpl; [done|]. intros M.
  apply orb_false_iff in M as [Ma M]. rewrite Ma, (IH M). simpl.
  by rewrite orb_true_r.
Qed.

(** The fragment treats a pattern without metacharacters as literal text. *)
Lemma re_fragment_literal (p : string) :
  has_meta p = false →
  ∃ matcher, re_fragment p = Return matcher ∧ ∀ s, matcher s = icontains p s.
Proof.
  intros M. exists (search_dot p). unfold re_fragment.
  rewrite (only_dot_meta_literal p M). split; [done|].
  intros s. by apply search_dot_literal.
Qed.

Section scalar_filter.
Context `{Pandas} `{DataLoader}.

Lemma feeds_search_scalar_text df c i dt v :
  feeds_df = Some df → find_column c (schema df) = Some (i, dt) →
  is_string_dtype dt (column_values i df) = true →
  feeds_search (scalar_query c v)
  = match re_compile_ignorecase (str_scalar v) with
    | Return matcher =>
        Return (answer_keeping df i
                  (λ x, match x with SStr s => matcher s | _ => false end))
    | Raise e => Return (error_result ("Error in feeds_search: " +:+ str_exn e))
    end.
Proof.
  intros D F T. unfold feeds_search, feeds_search_body, get_feeds_dataframe.
  rewrite D. unfold filter_stage. simpl. rewrite F. unfold apply_filter. rewrite T.
  unfold str_contains. destruct (re_compile_ignorecase (str_scalar v)); simpl; [|done].
  by rewrite select_rows_column.
Qed.

Lemma feeds_search_scalar_other df c i dt v :
  feeds_df = Some df → find_column c (schema df) = Some (i, dt) →
  is_string_dtype dt (column_values i df) = false →
  feeds_search (scalar_query c v)
  = Return (answer_keeping df i (λ x, py_eq x v)).
Proof.
  intros D F T. unfold feeds_search, feeds_search_body, get_feeds_dataframe.
  rewrite D. unfold filter_stage. simpl. rewrite F. unfold apply_filter. rewrite T. simpl.
  by rewrite select_rows_column.
Qed.

(** What a scalar filter does, for every frame and value (the general
    form of the behaviour behind C3).  A scalar filter value against a
    column that pandas takes for text keeps the rows whose cell is a
    string in which the regular expression [str(value)] is found,
    ignoring case; a
    malformed expression gives an error result.  When [str(value)] holds
    no metacharacter (and the expression library treats such a pattern as
    literal text) these are the rows whose cell contains the value as a
    literal substring, ignoring case.  Against any other column the rows
    kept are those whose cell equals the value. *)
Theorem scalar_filter_predicate df c i dt v :
  feeds_df = Some df → find_column c (schema df) = Some (i, dt) →
  (is_string_dtype dt (column_values i df) = true →
     (∀ matcher, re_compile_ignorecase (str_scalar v) = Return matcher →
        feeds_search (scalar_query c v)
        = Return (answer_keeping df i
                    (λ x, match x with SStr s => matcher s | _ => false end)))
     ∧ (∀ e, re_compile_ignorecase (str_scalar v) = Raise e →
          feeds_search (scalar_query c v)
          = Return (PDict [("error", PStr ("Error in feeds_search: " +:+ str_exn e))]))
     ∧ ((∀ p, has_meta p = false →
           ∃ matcher, re_compile_ignorecase p = Return matcher
                      ∧ ∀ s, matcher s = icontains p s) →
        has_meta (str_scalar v) = false →
        feeds_search (scalar_query c v)
        = Return (answer_keeping df i
                    (λ x, match x with
                          | SStr s => icontains (str_scalar v) s
                          | _ => false
                          end))))
  ∧ (is_string_dtype dt (column_values i df) = false →
     feeds_search (scalar_query c v)
     = Return (answer_keeping df i (λ x, py_eq x v))).
Proof.
  intros D F. split; [|by apply feeds_search_scalar_other].
  intros T. rewrite (feeds_search_scalar_text df c i dt v D F T).
  repeat split.
  - by intros m ->.
  - by intros e ->.
  - intros L M. destruct (L _ M) as (m & -> & E).
    unfold answer_keeping. do 4 f_equal.
    apply List.filter_ext. intros row. destruct (get_cell i row); auto.
Qed.

End scalar_filter.

Lemma scalar_filter_predicate_witness :
  @feeds_search demo_pandas (loaded scenario_df) (scalar_query "THEATER" (SStr "pac"))
  = Return (answer_keeping scenario_df 1
              (λ x, match x with SStr s => icontains "pac" s | _ => false end))
  ∧ @feeds_search demo_pandas (loaded scenario_df) (scalar_query "RES_W" (SInt 1280))
    = Return (answer_keeping scenario_df 2 (λ x, py_eq x (SInt 1280))).
Proof.
  split.
  - apply (@scalar_filter_predicate demo_pandas (loaded scenario_df)
             scenario_df "THEATER" 1%nat object_ (SStr "pac"));
      [reflexivity | reflexivity | reflexivity | apply re_fragment_literal | reflexivity].
  - apply (@scalar_filter_predicate demo_pandas (loaded scenario_df)
             scenario_df "RES_W" 2%nat int64 (SInt 1280));
      reflexivity.
Defined.

(** C3.  The value [P.C] is no substring of [PAC], in any case, yet the
    filter [{THEATER: "P.C"}] returns the record of theater [PAC]: the
    branch commented "Exact match" and "Case-insensitive string matching"
    hands [str(value)] to [str.contains] without [regex=False], so the
    value is read as a regular expression and its dot matches any
    character.  The sibling branches ([==], [isin]) compare literally. *)
Theorem scalar_filter_is_not_literal :
  @feeds_search demo_pandas (loaded scenario_df) (scalar_query "THEATER" (SStr "P.C"))
  = Return (data_result
              [PDict [("FEED_ID", PInt 1); ("THEATER", PStr "PAC"); ("RES_W", PInt 1920)]]
              2)
  ∧ icontains "P.C" "PAC" = false.
Proof. split; vm_compute; reflexivity. Qed.

(** *** Limiting *)

Lemma head_map {A B} (f : A → B) (k : Z) (rs : list A) :
  head k (map f rs) = map f (head k rs).
Proof. unfold head. rewrite length_map. destruct (0 <=? k)%Z; apply firstn_map. Qed.

Lemma head_prefix {A} (k : Z) (rs : list A) : ∃ rest, rs = head k rs ++ rest.
Proof.
  unfold head. destruct (0 <=? k)%Z; eexists; symmetry; apply firstn_skipn.
Qed.

Section limiting.
Context `{Pandas} `{DataLoader}.

Lemma feeds_search_unfold spec :
  feeds_search spec
  = match get_feeds_dataframe with
    | Raise e => Return (error_result ("Error in feeds_search: " +:+ str_exn e))
    | Return df =>
        match filter_stage spec df with
        | Raise e => Return (error_result ("Error in feeds_search: " +:+ str_exn e))
        | Return (inl early) => Return early
        | Return (inr filtered) =>
            Return (sort_limit_project spec (length (rows df)) filtered)
        end
    end.
Proof.
  unfold feeds_search, feeds_search_body.
  destruct get_feeds_dataframe as [df|e]; [|done].
  unfold mbind at 1, outcome_bind at 1.
  unfold mbind at 1, outcome_bind at 1.
  by destruct (filter_stage spec df) as [[early|fdf]|e].
Qed.

Lemma apply_filters_early df fs early :
  apply_filters df fs = Return (inl early) →
  ∃ msg rest, early = PDict (("error", PStr msg) :: rest).
Proof.
  revert df. induction fs as [|[c v] fs IH]; intros df; simpl; [done|].
  destruct (find_column c (schema df)) as [[i dt]|].
  - destruct (apply_filter df i dt v) as [df'|e]; simpl; [apply IH|done].
  - intros [= <-]. unfold unknown_result. eauto.
Qed.

Lemma project_stage_limit spec k df :
  match project_stage (with_top_k spec None) df with
  | inl early =>
      project_stage (with_top_k spec (Some k))
        (limit_stage (with_top_k spec (Some k)) df) = inl early
  | inr pdf =>
      ∃ pdf', project_stage (with_top_k spec (Some k))
                (limit_stage (with_top_k spec (Some k)) df) = inr pdf'
              ∧ to_dict_records pdf' = limit k (to_dict_records pdf)
  end.
Proof.
  unfold project_stage, limit_stage, limit.
  cbn [with_top_k columns top_k].
  destruct (k =? 0)%Z.
  { destruct (columns spec) as [[|c cs]|]; eauto.
    destruct (List.filter (λ col, negb (is_known df col)) (c :: cs)); eauto. }
  destruct (columns spec) as [[|c cs]|].
  - eexists. split; [done|]. unfold to_dict_records. cbn [rows df_columns schema].
    by rewrite head_map.
  - change (List.filter (λ col, negb (is_known (mkDataFrame (schema df) (head k (rows df))) col)) (c :: cs))
      with (List.filter (λ col, negb (is_known df col)) (c :: cs)).
    destruct (List.filter (λ col, negb (is_known df col)) (c :: cs)); [|done].
    eexists. split; [done|]. unfold to_dict_records, project.
    cbn [rows df_columns schema]. by rewrite !head_map.
  - eexists. split; [done|]. unfold to_dict_records. cbn [rows df_columns schema].
    by rewrite head_map.
Qed.

Lemma sort_limit_project_top_k spec k total df :
  (∃ records,
      sort_limit_project (with_top_k spec None) total df = data_result records total
      ∧ sort_limit_project (with_top_k spec (Some k)) total df
        = data_result (limit k records) total)
  ∨ (∃ msg rest,
      sort_limit_project (with_top_k spec None) total df
      = PDict (("error", PStr msg) :: rest)
      ∧ sort_limit_project (with_top_k spec (Some k)) total df
        = sort_limit_project (with_top_k spec None) total df).
Proof.
  unfold sort_limit_project, limit_project.
  replace (sort_stage (with_top_k spec (Some k)) df)
    with (sort_stage (with_top_k spec None) df) by done.
  destruct (sort_stage (with_top_k spec None) df) as [early|sdf] eqn:S.
  { right. unfold sort_stage in S. simpl in S.
    destruct (sort_by spec) as [[|a s]|]; try done.
    destruct (find_column _ _) as [[i dt]|]; [done|].
    injection S as <-. unfold unknown_result. eauto. }
  replace (limit_stage (with_top_k spec None) sdf) with sdf by done.
  pose proof (project_stage_limit spec k sdf) as P.
  destruct (project_stage (with_top_k spec None) sdf) as [early|pdf] eqn:Q.
  - right. rewrite P. unfold project_stage in Q. cbn [with_top_k columns] in Q.
    destruct (columns spec) as [[|c cs]|]; try done.
    destruct (List.filter (λ col, negb (is_known sdf col)) (c :: cs)); [done|].
    injection Q as <-. unfold unknown_result. eauto.
  - left. destruct P as (pdf' & -> & E). rewrite E. eauto.
Qed.

(** C4, as the code has it.  With a [top_k] the answer is the answer
    without it, cut after filtering, sorting and projection: an error
    result is unchanged, and of the rows a prefix is kept.  For [top_k ≥ 1]
    the prefix is the first [top_k] rows; [top_k = 0] is treated as absent
    and keeps every row; a negative [top_k] drops that many rows from the
    end. *)
Theorem top_k_keeps_prefix spec k :
  (∃ records total,
      feeds_search (with_top_k spec None) = Return (data_result records total)
      ∧ feeds_search (with_top_k spec (Some k))
        = Return (data_result (limit k records) total)
      ∧ (∃ rest, records = limit k records ++ rest)
      ∧ ((1 ≤ k)%Z → limit k records = firstn (Z.to_nat k) records)
      ∧ (k = 0%Z → limit k records = records)
      ∧ ((k < 0)%Z →
         limit k records = firstn (length records - Z.to_nat (- k)) records))
  ∨ (∃ msg rest,
      feeds_search (with_top_k spec None) = Return (PDict (("error", PStr msg) :: rest))
      ∧ feeds_search (with_top_k spec (Some k)) = feeds_search (with_top_k spec None)).
Proof.
  assert (L : ∀ records : list pyval,
    (∃ rest, records = limit k records ++ rest)
    ∧ ((1 ≤ k)%Z → limit k records = firstn (Z.to_nat k) records)
    ∧ (k = 0%Z → limit k records = records)
    ∧ ((k < 0)%Z → limit k records = firstn (length records - Z.to_nat (- k)) records)).
  { intros records. unfold limit, head. repeat split.
    - destruct (k =? 0)%Z; [by exists []; rewrite app_nil_r|apply head_prefix].
    - intros K. destruct (Z.eqb_spec k 0); [lia|].
      destruct (Z.leb_spec 0 k); [done|lia].
    - by intros ->.
    - intros K. destruct (Z.eqb_spec k 0); [lia|].
      destruct (Z.leb_spec 0 k); [lia|done]. }
  rewrite !feeds_search_unfold.
  destruct get_feeds_dataframe as [df|e]; [|right; unfold error_result; eauto].
  change (filter_stage (with_top_k spec (Some k)) df)
    with (filter_stage (with_top_k spec None) df).
  destruct (filter_stage (with_top_k spec None) df) as [[early|fdf]|e] eqn:F.
  - right. unfold filter_stage in F. cbn [with_top_k filters] in F.
    destruct (filters spec) as [[|f fs]|]; try done.
    destruct (apply_filters_early _ _ _ F) as (msg & rest & ->). eauto.
  - destruct (sort_limit_project_top_k spec k (length (rows df)) fdf)
      as [(records & -> & ->)|(msg & rest & E & ->)].
    + left. exists records, (length (rows df)). repeat split; try done; apply L.
    + right. rewrite E. eauto.
  - right. unfold error_result. eauto.
Qed.

End limiting.

Lemma top_k_keeps_prefix_witness :
  @feeds_search demo_pandas (loaded scenario_df)
    (with_top_k (mkQuerySpec None None None (Some "RES_W") false) (Some 1%Z))
  = Return (data_result
              (firstn (Z.to_nat 1)
                 [PDict [("FEED_ID", PInt 2); ("THEATER", PStr "EUR"); ("RES_W", PInt 1280)];
                  PDict [("FEED_ID", PInt 1); ("THEATER", PStr "PAC"); ("RES_W", PInt 1920)]])
              2).
Proof.
  destruct (@top_k_keeps_prefix demo_pandas (loaded scenario_df)
              (mkQuerySpec None None None (Some "RES_W") false) 1)
    as [(records & total & E0 & E1 & _ & K & _)|(msg & rest & E0 & _)].
  - rewrite E1, K by lia.
    assert (E : @feeds_search demo_pandas (loaded scenario_df)
                  (with_top_k (mkQuerySpec None None None (Some "RES_W") false) None)
                = Return (data_result
                    [PDict [("FEED_ID", PInt 2); ("THEATER", PStr "EUR"); ("RES_W", PInt 1280)];
                     PDict [("FEED_ID", PInt 1); ("THEATER", PStr "PAC"); ("RES_W", PInt 1920)]]
                    2)) by (vm_compute; reflexivity).
    rewrite E in E0. unfold data_result in E0. injection E0 as <- _ E0.
    apply (Nat2Z.inj 2 total) in E0. by rewrite <- E0.
  - vm_compute in E0. discriminate E0.
Defined.

(** C4 as stated fails for [top_k = 0]: the value is present, and every
    row is returned, not the first zero rows. *)
Lemma top_k_zero_keeps_every_row :
  @feeds_search demo_pandas (loaded scenario_df) (with_top_k no_query (Some 0%Z))
  = Return (data_result
              [PDict [("FEED_ID", PInt 1); ("THEATER", PStr "PAC"); ("RES_W", PInt 1920)];
               PDict [("FEED_ID", PInt 2); ("THEATER", PStr "EUR"); ("RES_W", PInt 1280)]]
              2)
  ∧ @feeds_search demo_pandas (loaded scenario_df) (with_top_k no_query (Some 0%Z))
    ≠ Return (data_result
                (firstn (Z.to_nat 0)
                   [PDict [("FEED_ID", PInt 1); ("THEATER", PStr "PAC"); ("RES_W", PInt 1920)];
                    PDict [("FEED_ID", PInt 2); ("THEATER", PStr "EUR"); ("RES_W", PInt 1280)]])
                2).
Proof. split; [vm_compute; reflexivity|vm_compute; discriminate]. Qed.

(** *** Unknown columns *)

Section unknown_columns.
Context `{Pandas} `{DataLoader}.

Lemma apply_bound_schema op bound i dt df df' :
  apply_bound op bound i dt df = Return df' → schema df' = schema df.
Proof.
  unfold apply_bound. destruct bound as [b|]; [|by intros [= <-]].
  destruct (series_compare op dt (column_values i df) b); simpl; [|done].
  by intros [= <-].
Qed.

Lemma apply_filter_schema df i dt value df' :
  apply_filter df i dt value = Return df' → schema df' = schema df.
Proof.
  destruct value as [v|values|vmin vmax vgt vlt]; simpl.
  - destruct (is_string_dtype dt (column_values i df)); [|by intros [= <-]].
    unfold str_contains.
    destruct (re_compile_ignorecase (str_scalar v)); simpl; [|done].
    by intros [= <-].
  - by intros [= <-].
  - destruct (apply_bound Ge vmin i dt df) as [d1|] eqn:E1; simpl; [|done].
    destruct (apply_bound Le vmax i dt d1) as [d2|] eqn:E2; simpl; [|done].
    destruct (apply_bound Gt vgt i dt d2) as [d3|] eqn:E3; simpl; [|done].
    intros E4.
    apply apply_bound_schema in E1, E2, E3, E4. congruence.
Qed.

Lemma apply_filters_schema fs : ∀ df df',
  apply_filters df fs = Return (inr df') → schema df' = schema df.
Proof.
  induction fs as [|[c v] fs IH]; intros df df'; simpl; [by intros [= <-]|].
  destruct (find_column c (schema df)) as [[i dt]|]; [|done].
  destruct (apply_filter df i dt v) as [d1|] eqn:E; simpl; [|done].
  intros R. apply IH in R. apply apply_filter_schema in E. congruence.
Qed.

Lemma apply_filters_app pre : ∀ df rest,
  apply_filters df (pre ++ rest)
  = match apply_filters df pre with
    | Return (inr df1) => apply_filters df1 rest
    | other => other
    end.
Proof.
  induction pre as [|[c v] pre IH]; intros df rest; simpl; [done|].
  destruct (find_column c (schema df)) as [[i dt]|]; [|done].
  destruct (apply_filter df i dt v) as [d1|]; simpl; [apply IH|done].
Qed.

Lemma apply_filters_known fs : ∀ df df' c v,
  apply_filters df fs = Return (inr df') → In (c, v) fs →
  is_Some (find_column c (schema df)).
Proof.
  induction fs as [|[c0 v0] fs IH]; intros df df' c v; simpl; [done|].
  destruct (find_column c0 (schema df)) as [[i dt]|] eqn:F; [|done].
  destruct (apply_filter df i dt v0) as [d1|] eqn:E; simpl; [|done].
  intros R [[= <- <-]|I]; [by rewrite F|].
  rewrite <- (apply_filter_schema _ _ _ _ _ E). by eapply IH.
Qed.

Lemma unknown_result_schema msg df df' :
  schema df' = schema df → unknown_result msg df' = unknown_result msg df.
Proof. unfold unknown_result, df_columns. by intros ->. Qed.

Lemma sort_stage_schema spec df df' :
  sort_stage spec df = inr df' → schema df' = schema df.
Proof.
  unfold sort_stage. destruct (sort_by spec) as [[|a s]|]; try by intros [= <-].
  destruct (find_column _ _) as [[i dt]|]; [|done]. by intros [= <-].
Qed.

Lemma limit_stage_schema spec df : schema (limit_stage spec df) = schema df.
Proof.
  unfold limit_stage. destruct (top_k spec) as [k|]; [|done].
  by destruct (k =? 0)%Z.
Qed.

Lemma is_known_schema df df' col :
  schema df' = schema df → is_known df' col = is_known df col.
Proof. unfold is_known. by intros ->. Qed.

(** C5, as the code has it.  [feeds_search] never raises.  A query that
    names an absent column (in non-empty filters, as a non-empty sort
    column, or in a non-empty projection list) gets an error result.  The
    error names the column whenever the check is reached: the first unknown
    filter column if the filters before it run without raising; the sort
    column if all filters run; the invalid part of the projection list, in
    the order given, if filters and sort column are in order. *)
Theorem unknown_column_is_reported df spec :
  feeds_df = Some df →
  (∃ result, feeds_search spec = Return result)
  ∧ (names_absent_column df spec →
     ∃ msg rest, feeds_search spec = Return (PDict (("error", PStr msg) :: rest)))
  ∧ (∀ pre c v post df1,
       filters spec = Some (pre ++ (c, v) :: post) →
       apply_filters df pre = Return (inr df1) →
       find_column c (schema df) = None →
       feeds_search spec
       = Return (PDict [("error", PStr ("Unknown column: " +:+ c));
                        ("available_columns", PList (map PStr (df_columns df)))]))
  ∧ (∀ a s filtered,
       filter_stage spec df = Return (inr filtered) →
       sort_by spec = Some (String a s) →
       find_column (String a s) (schema df) = None →
       feeds_search spec
       = Return (PDict [("error", PStr ("Unknown sort column: " +:+ String a s));
                        ("available_columns", PList (map PStr (df_columns df)))]))
  ∧ (∀ c cs filtered sorted bad bads,
       filter_stage spec df = Return (inr filtered) →
       sort_stage spec filtered = inr sorted →
       columns spec = Some (c :: cs) →
       List.filter (λ col, negb (is_known df col)) (c :: cs) = bad :: bads →
       feeds_search spec
       = Return (PDict [("error", PStr ("Unknown columns: " +:+ repr_list (bad :: bads)));
                        ("available_columns", PList (map PStr (df_columns df)))])).
Proof.
  intros D.
  assert (FS : ∀ filtered, filter_stage spec df = Return (inr filtered) →
                           schema filtered = schema df).
  { unfold filter_stage. intros filtered.
    destruct (filters spec) as [[|f fs]|]; try by intros [= <-].
    apply apply_filters_schema. }
  assert (U : feeds_search spec
    = match filter_stage spec df with
      | Raise e => Return (error_result ("Error in feeds_search: " +:+ str_exn e))
      | Return (inl early) => Return early
      | Return (inr filtered) =>
          Return (sort_limit_project spec (length (rows df)) filtered)
      end).
  { rewrite feeds_search_unfold. unfold get_feeds_dataframe. by rewrite D. }
  split; [|split; [|split; [|split]]].
  - rewrite U. destruct (filter_stage spec df) as [[early|filtered]|e]; eauto.
  - intros N. rewrite U.
    destruct (filter_stage spec df) as [[early|filtered]|e] eqn:F;
      [| |unfold error_result; eauto].
    { unfold filter_stage in F. destruct (filters spec) as [[|f fs]|]; try done.
      destruct (apply_filters_early _ _ _ F) as (msg & rest & ->). eauto. }
    pose proof (FS _ eq_refl) as S.
    assert (NF : ¬ ∃ f fs c v, filters spec = Some (f :: fs) ∧ In (c, v) (f :: fs)
                               ∧ find_column c (schema df) = None).
    { intros (f & fs & c & v & Ef & I & A). unfold filter_stage in F.
      rewrite Ef in F. apply (apply_filters_known _ _ _ c v) in F; [|done].
      rewrite A in F. by destruct F. }
    unfold sort_limit_project, limit_project.
    destruct (sort_stage spec filtered) as [early|sorted] eqn:So.
    { unfold sort_stage in So. destruct (sort_by spec) as [[|a s]|]; try done.
      destruct (find_column _ _) as [[i dt]|]; [done|].
      injection So as <-. unfold unknown_result. eauto. }
    assert (NS : ¬ ∃ a s, sort_by spec = Some (String a s)
                          ∧ find_column (String a s) (schema df) = None).
    { intros (a & s & Es & A). unfold sort_stage in So. rewrite Es, S, A in So.
      discriminate So. }
    destruct N as [N|[N|(c & cs & col & Ec & I & A)]]; [done|done|].
    unfold project_stage. rewrite Ec.
    destruct (List.filter _ (c :: cs)) as [|bad bads] eqn:B;
      [|unfold unknown_result; eauto].
    exfalso.
    assert (In col (List.filter
              (λ col, negb (is_known (limit_stage spec sorted) col)) (c :: cs))) as I'.
    { apply filter_In. split; [done|]. unfold is_known.
      rewrite limit_stage_schema, (sort_stage_schema _ _ _ So), S, A.
      apply negb_true_iff, bool_decide_eq_false. by intros []. }
    rewrite B in I'. destruct I'.
  - intros pre c v post df1 Ef P A. rewrite U. unfold filter_stage. rewrite Ef.
    destruct (pre ++ (c, v) :: post) as [|f fs] eqn:L; [by destruct pre|].
    rewrite <- L, apply_filters_app, P. simpl.
    rewrite (apply_filters_schema _ _ _ P), A.
    by rewrite (unknown_result_schema _ df df1 (apply_filters_schema _ _ _ P)).
  - intros a s filtered F Es A. rewrite U, F. unfold sort_limit_project, sort_stage.
    rewrite Es, (FS _ F), A. by rewrite (unknown_result_schema _ df filtered (FS _ F)).
  - intros c cs filtered sorted bad bads F So Ec B. rewrite U, F.
    unfold sort_limit_project, limit_project. rewrite So. unfold project_stage. rewrite Ec.
    assert (S : schema (limit_stage spec sorted) = schema df).
    { by rewrite limit_stage_schema, (sort_stage_schema _ _ _ So), (FS _ F). }
    rewrite (List.filter_ext _ (λ col, negb (is_known df col))) by
      (intros col; by rewrite (is_known_schema df _ col S)).
    rewrite B. by rewrite (unknown_result_schema _ df _ S).
Qed.

End unknown_columns.

Lemma unknown_column_is_reported_witness :
  @feeds_search demo_pandas (loaded scenario_df)
    (mkQuerySpec (Some [("THEATER", FScalar (SStr "PAC")); ("BOGUS", FScalar (SInt 1))])
       None None None false)
  = Return (PDict [("error", PStr "Unknown column: BOGUS");
                   ("available_columns", PList [PStr "FEED_ID"; PStr "THEATER"; PStr "RES_W"])])
  ∧ @feeds_search demo_pandas (loaded scenario_df)
      (mkQuerySpec None None None (Some "BOGUS") true)
    = Return (PDict [("error", PStr "Unknown sort column: BOGUS");
                     ("available_columns", PList [PStr "FEED_ID"; PStr "THEATER"; PStr "RES_W"])])
  ∧ @feeds_search demo_pandas (loaded scenario_df)
      (mkQuerySpec None (Some ["FEED_ID"; "X"; "RES_W"; "Y"]) None None false)
    = Return (PDict [("error", PStr ("Unknown columns: " +:+ repr_list ["X"; "Y"]));
                     ("available_columns", PList [PStr "FEED_ID"; PStr "THEATER"; PStr "RES_W"])]).
Proof.
  split; [|split].
  - apply (@unknown_column_is_reported demo_pandas (loaded scenario_df) scenario_df
             (mkQuerySpec
                (Some [("THEATER", FScalar (SStr "PAC")); ("BOGUS", FScalar (SInt 1))])
                None None None false) eq_refl)
      with (pre := [("THEATER", FScalar (SStr "PAC"))]) (v := FScalar (SInt 1)) (post := [])
           (df1 := mkDataFrame (schema scenario_df) [[SInt 1; SStr "PAC"; SInt 1920]]);
      reflexivity.
  - destruct (@unknown_column_is_reported demo_pandas (loaded scenario_df) scenario_df
                (mkQuerySpec None None None (Some "BOGUS") true) eq_refl)
      as (_ & _ & _ & S & _).
    apply (S "B"%char "OGUS" scenario_df); reflexivity.
  - destruct (@unknown_column_is_reported demo_pandas (loaded scenario_df) scenario_df
                (mkQuerySpec None (Some ["FEED_ID"; "X"; "RES_W"; "Y"]) None None false)
                eq_refl)
      as (_ & _ & _ & _ & P).
    apply (P "FEED_ID" ["X"; "RES_W"; "Y"] scenario_df scenario_df "X" ["Y"]);
      reflexivity.
Defined.

(** C5 as stated fails: the query names the absent column [BOGUS], but the
    filter before it compares a text column with a number, and the error
    result carries that failure's message, which does not name [BOGUS]. *)
Lemma earlier_failure_hides_unknown_column :
  @feeds_search demo_pandas (loaded scenario_df)
    (mkQuerySpec
       (Some [("THEATER", FRange (Some (SInt 1)) None None None);
              ("BOGUS", FScalar (SInt 1))])
       None None None false)
  = Return (PDict [("error",
      PStr "Error in feeds_search: '>=' not supported between instances of 'str' and 'int'")])
  ∧ icontains "BOGUS"
      "Error in feeds_search: '>=' not supported between instances of 'str' and 'int'"
    = false.
Proof. split; vm_compute; reflexivity. Qed.

(** *** Sorting *)

Lemma Permutation_filter_bool {A} (f : A → bool) (l l' : list A) :
  l ≡ₚ l' → List.filter f l ≡ₚ List.filter f l'.
Proof.
  induction 1 as [|x l l' _ IH|x y l|l l' l'' _ IH1 _ IH2]; simpl.
  - done.
  - destruct (f x); [by constructor|done].
  - destruct (f x), (f y); try done. apply perm_swap.
  - by etrans.
Qed.

Lemma filter_partition_perm {A} (f : A → bool) (l : list A) :
  List.filter (λ x, negb (f x)) l ++ List.filter f l ≡ₚ l.
Proof.
  induction l as [|x l IH]; simpl; [done|].
  destruct (f x); simpl.
  - rewrite <- Permutation_middle. by constructor.
  - by constructor.
Qed.

Lemma filter_none {A} (f : A → bool) (l : list A) :
  (∀ x, In x l → f x = false) → List.filter f l = [].
Proof.
  induction l as [|x l IH]; intros N; simpl; [done|].
  rewrite (N x) by (by left). apply IH. intros y I. apply N. by right.
Qed.

Lemma map_nth_seq {A} (l : list A) (d : A) :
  map (λ j, nth j l d) (seq 0 (length l)) = l.
Proof.
  induction l as [|x l IH]; simpl; [done|].
  f_equal. rewrite <- seq_shift, map_map. apply IH.
Qed.

Lemma StronglySorted_filter_bool {A} (R : relation A) (f : A → bool) (l : list A) :
  StronglySorted R l → StronglySorted R (List.filter f l).
Proof.
  induction 1 as [|x l _ IH F]; simpl; [constructor|].
  destruct (f x); [|done]. constructor; [done|].
  apply List.Forall_forall. intros y I. apply filter_In in I as [I _].
  by apply (proj1 (List.Forall_forall _ _) F).
Qed.

Lemma StronglySorted_rev_flip {A} (R : relation A) (l : list A) :
  StronglySorted R l → StronglySorted (flip R) (rev l).
Proof.
  induction 1 as [|x l _ IH F]; simpl; [constructor|].
  apply StronglySorted_app_2; [|done|repeat constructor].
  intros x1 x2 I1 I2. apply list_elem_of_In in I1. apply in_rev in I1.
  apply list_elem_of_singleton in I2 as ->.
  by apply (proj1 (List.Forall_forall _ _) F).
Qed.

Lemma StronglySorted_map_in {A B} (R1 : relation A) (R2 : relation B)
    (f : A → B) (l : list A) :
  (∀ x y, In x l → In y l → R1 x y → R2 (f x) (f y)) →
  StronglySorted R1 l → StronglySorted R2 (map f l).
Proof.
  intros M S. induction S as [|x l _ IH F]; simpl; [constructor|].
  constructor.
  - apply IH. intros a b Ia Ib. apply M; by right.
  - apply List.Forall_forall. intros y I. apply in_map_iff in I as (a & <- & Ia).
    apply M; [by left|by right|]. by apply (proj1 (List.Forall_forall _ _) F).
Qed.

Lemma StronglySorted_seq (a n : nat) : StronglySorted lt (seq a n).
Proof.
  revert a. induction n as [|n IH]; intros a; simpl; constructor; [apply IH|].
  apply List.Forall_forall. intros y I. apply in_seq in I. lia.
Qed.

Lemma StronglySorted_nth {A} (R : relation A) (l : list A) (d : A) :
  StronglySorted R l →
  ∀ j1 j2, (j1 < j2 < length l)%nat → R (nth j1 l d) (nth j2 l d).
Proof.
  induction 1 as [|x l _ IH F]; intros j1 j2 [L1 L2]; simpl in *; [lia|].
  destruct j2 as [|j2]; [lia|]. destruct j1 as [|j1].
  - apply (proj1 (List.Forall_forall _ _) F). apply nth_In. lia.
  - apply IH. lia.
Qed.

Section sorting.
Context `{Pandas}.

(** The positions [argsort] returns, mapped back through the strictly
    ordered list [L] of positions it was given the values of. *)
Lemma take_rows_argsort (items : list scalar) (L : list nat) (R : relation nat) :
  StronglySorted R L →
  stable_argsort_on (take_rows SNaN items L) (argsort (take_rows SNaN items L)) →
  take_rows O L (argsort (take_rows SNaN items L)) ≡ₚ L
  ∧ ∀ v, StronglySorted R
           (List.filter (same_key items v)
              (take_rows O L (argsort (take_rows SNaN items L)))).
Proof.
  intros SL [PJ TJ].
  set (vals := take_rows SNaN items L) in *. set (J := argsort vals) in *.
  assert (LV : length vals = length L) by apply length_map.
  assert (BJ : ∀ j, In j J → (j < length L)%nat).
  { intros j I. apply (Permutation_in _ PJ), in_seq in I. lia. }
  split.
  - unfold take_rows. rewrite (Permutation_map _ PJ), LV. by rewrite map_nth_seq.
  - intros v. unfold take_rows. rewrite filter_map_swap.
    rewrite (filter_ext_in _ (same_key vals v)).
    + apply (StronglySorted_map_in lt R); [|apply TJ].
      intros x y Ix Iy L'. apply filter_In in Ix as [Ix _], Iy as [Iy _].
      apply (StronglySorted_nth R L O SL). split; [done|by apply BJ].
    + intros j I. unfold same_key, vals, take_rows.
      by rewrite (nth_nth_nth_map items SNaN L (dn := O)) by (left; by apply BJ).
Qed.

Lemma non_missing_sorted (items : list scalar) (ascending : bool) :
  StronglySorted (if ascending then lt else flip lt)
    (non_missing_positions items ascending).
Proof.
  unfold non_missing_positions. destruct ascending.
  - apply StronglySorted_filter_bool, StronglySorted_seq.
  - apply StronglySorted_rev_flip, StronglySorted_filter_bool, StronglySorted_seq.
Qed.

Lemma non_missing_In (items : list scalar) (ascending : bool) (i : nat) :
  In i (non_missing_positions items ascending) →
  is_null (nth i items SNaN) = false.
Proof.
  unfold non_missing_positions. intros I.
  assert (In i (List.filter (λ i, negb (is_null (nth i items SNaN)))
                  (seq 0 (length items)))) as I'.
  { destruct ascending; [done|by apply in_rev]. }
  apply filter_In in I' as [_ N]. by apply negb_true_iff.
Qed.

(** pandas' wrapper keeps a stable [argsort] stable, ascending and
    descending. *)
Lemma nargsort_stable (items : list scalar) (ascending : bool) :
  stable_argsort_on (argsort_input items ascending)
    (argsort (argsort_input items ascending)) →
  stable_argsort_on items (nargsort items ascending).
Proof.
  intros St. unfold nargsort, argsort_input in *.
  destruct (take_rows_argsort items (non_missing_positions items ascending) _
              (non_missing_sorted items ascending) St) as [P T].
  set (indexer := take_rows O (non_missing_positions items ascending) _) in *.
  assert (PI : (if ascending then indexer else rev indexer)
               ≡ₚ List.filter (λ i, negb (is_null (nth i items SNaN)))
                    (seq 0 (length items))).
  { unfold non_missing_positions in P. destruct ascending; [done|].
    by rewrite <- !Permutation_rev in *. }
  split.
  - rewrite PI. apply filter_partition_perm.
  - intros v. rewrite List.filter_app.
    destruct (is_null v) eqn:Nv.
    + rewrite (filter_none (same_key items v) (if ascending then indexer else rev indexer)).
      { apply StronglySorted_filter_bool, StronglySorted_filter_bool, StronglySorted_seq. }
      intros i I. apply (Permutation_in _ PI), filter_In in I as [_ N].
      apply bool_decide_eq_false. intros E. rewrite E, Nv in N. discriminate N.
    + rewrite (filter_none (same_key items v) (missing_positions items)), app_nil_r.
      * destruct ascending; [apply T|].
        rewrite filter_rev. apply (StronglySorted_rev_flip _ _ (T v)).
      * intros i I. apply filter_In in I as [_ N].
        apply bool_decide_eq_false. intros E. rewrite E, Nv in N. discriminate N.
Qed.

(** Taking the rows of a frame by a stable index permutation keeps, for
    every key, the rows with that key in their order. *)
Lemma take_rows_stable (i : nat) (rs : list (list scalar)) (ix : list nat) :
  stable_argsort_on (map (get_cell i) rs) ix →
  take_rows [] rs ix ≡ₚ rs
  ∧ ∀ v, rows_with_key i v (take_rows [] rs ix) = rows_with_key i v rs.
Proof.
  intros [P T]. rewrite length_map in P. split.
  - unfold take_rows. rewrite (Permutation_map _ P). by rewrite map_nth_seq.
  - intros v. unfold rows_with_key, take_rows.
    trans (List.filter (λ row, bool_decide (get_cell i row = v))
             (map (λ j, nth j rs []) (seq 0 (length rs))));
      [|by rewrite map_nth_seq].
    rewrite !filter_map_swap.
    assert (K : ∀ k, bool_decide (get_cell i (nth k rs []) = v)
                     = same_key (map (get_cell i) rs) v k).
    { intros k. unfold same_key.
      rewrite <- (map_nth (get_cell i) rs [] k). by destruct i. }
    rewrite !(filter_ext _ _ K). f_equal.
    apply (StronglySorted_unique_strong lt).
    + intros; lia.
    + apply T.
    + apply StronglySorted_filter_bool, StronglySorted_seq.
    + by apply Permutation_filter_bool.
Qed.

End sorting.

Section sort_stability.
Context `{Pandas} `{DataLoader}.

(** C2, as the code has it.  [sort_values] is called with its default
    sort kind, so the order of rows with equal keys is the one numpy's
    [argsort] produces.  Whenever that [argsort] keeps equal keys in input
    order on the values of the sort column, so does [feeds_search],
    ascending and descending: the rows returned are a permutation of the
    filtered rows, and for every key value the rows with that key come in
    the same order as before the sort. *)
Theorem sort_keeps_ties_when_argsort_does df spec filtered a s i dt :
  feeds_df = Some df →
  filter_stage spec df = Return (inr filtered) →
  sort_by spec = Some (String a s) →
  find_column (String a s) (schema df) = Some (i, dt) →
  stable_argsort_on
    (argsort_input (column_values i filtered) (negb (desc spec)))
    (argsort (argsort_input (column_values i filtered) (negb (desc spec)))) →
  ∃ sorted_rows,
    feeds_search spec
    = Return (limit_project spec (length (rows df))
                (mkDataFrame (schema df) sorted_rows))
    ∧ sorted_rows ≡ₚ rows filtered
    ∧ (∀ v, rows_with_key i v sorted_rows = rows_with_key i v (rows filtered))
    ∧ (top_k spec = None → columns spec = None →
       feeds_search spec
       = Return (data_result
                   (to_dict_records (mkDataFrame (schema df) sorted_rows))
                   (length (rows df)))).
Proof.
  intros D F So C St.
  assert (S : schema filtered = schema df).
  { unfold filter_stage in F. destruct (filters spec) as [[|f fs]|];
      try by injection F as <-. by apply apply_filters_schema in F. }
  exists (take_rows [] (rows filtered)
            (nargsort (column_values i filtered) (negb (desc spec)))).
  assert (E : feeds_search spec
    = Return (limit_project spec (length (rows df))
                (mkDataFrame (schema df)
                   (take_rows [] (rows filtered)
                      (nargsort (column_values i filtered) (negb (desc spec))))))).
  { rewrite feeds_search_unfold. unfold get_feeds_dataframe. rewrite D, F.
    unfold sort_limit_project, sort_stage. rewrite So, S, C.
    unfold sort_values. by rewrite S. }
  destruct (take_rows_stable i (rows filtered)
              (nargsort (column_values i filtered) (negb (desc spec)))) as [P K];
    [by apply nargsort_stable|].
  repeat split; try done.
  intros T Pc. rewrite E. unfold limit_project, limit_stage, project_stage.
  by rewrite T, Pc.
Qed.

End sort_stability.

Lemma sort_keeps_ties_when_argsort_does_witness :
  ∃ sorted_rows,
    @feeds_search demo_pandas (loaded tied_df) (sort_query "THEATER" true)
    = Return (limit_project (sort_query "THEATER" true) (length (rows tied_df))
                (mkDataFrame (schema tied_df) sorted_rows))
    ∧ sorted_rows ≡ₚ rows tied_df
    ∧ (∀ v, rows_with_key 1 v sorted_rows = rows_with_key 1 v (rows tied_df))
    ∧ (top_k (sort_query "THEATER" true) = None →
       columns (sort_query "THEATER" true) = None →
       @feeds_search demo_pandas (loaded tied_df) (sort_query "THEATER" true)
       = Return (data_result
                   (to_dict_records (mkDataFrame (schema tied_df) sorted_rows))
                   (length (rows tied_df)))).
Proof.
  apply (@sort_keeps_ties_when_argsort_does demo_pandas (loaded tied_df)
           tied_df (sort_query "THEATER" true) tied_df "T"%char "HEATER" 1%nat object_);
    try reflexivity.
  split.
  - vm_compute. apply perm_swap.
  - intros v. unfold same_key.
    change (argsort_input (column_values 1 tied_df) (negb (desc (sort_query "THEATER" true))))
      with [SStr "PAC"; SStr "EUR"; SStr "PAC"].
    change (argsort [SStr "PAC"; SStr "EUR"; SStr "PAC"]) with [1; 0; 2]%nat.
    simpl. repeat case_bool_decide; repeat constructor; try lia; congruence.
Defined.

(** C2 as stated fails.  Eighteen feeds of one theater, sorted by theater:
    every record has the same key, and numpy's quicksort returns them in
    another order than the frame has them. *)
Lemma default_sort_reorders_equal_keys :
  @feeds_search demo_pandas (loaded pacific_df) no_query
  = Return (data_result
              (map pacific_record [1; 2; 3; 4; 5; 6; 7; 8; 9; 10; 11; 12; 13; 14; 15; 16; 17; 18]%Z)
              18)
  ∧ @feeds_search demo_pandas (loaded pacific_df) (sort_query "THEATER" false)
    = Return (data_result
                (map pacific_record [1; 16; 15; 14; 13; 12; 11; 10; 9; 8; 7; 6; 5; 4; 3; 2; 17; 18]%Z)
                18)
  ∧ @feeds_search demo_pandas (loaded pacific_df) (sort_query "THEATER" false)
    ≠ @feeds_search demo_pandas (loaded pacific_df) no_query.
Proof. repeat split; [vm_compute; reflexivity..|vm_compute; discriminate]. Qed.

(** ** The end-to-end scenarios of the specification *)

Example scenario_theater_filter :
  @feeds_search demo_pandas (loaded scenario_df) (scalar_query "THEATER" (SStr "PAC"))
  = Return (data_result
              [PDict [("FEED_ID", PInt 1); ("THEATER", PStr "PAC"); ("RES_W", PInt 1920)]]
              2).
Proof. vm_compute. reflexivity. Qed.

Example scenario_range_filter :
  @feeds_search demo_pandas (loaded scenario_df)
    (mkQuerySpec (Some [("RES_W", FRange (Some (SInt 1500)) None None None)])
       None None None false)
  = Return (data_result
              [PDict [("FEED_ID", PInt 1); ("THEATER", PStr "PAC"); ("RES_W", PInt 1920)]]
              2).
Proof. vm_compute. reflexivity. Qed.

Example scenario_two_tool_calls :
  match (@ask_question (demo_runtime_with seconds_clock two_tools_reply plain_reply)
           (mkQueryRequest "How are the feeds encoded?" None) empty_world).1 with
  | Return response => map call_name (made_tool_calls response)
  | Raise _ => []
  end
  = ["feeds_search"; "encoder_get_params"]
  ∧ (map role ∘ messages) <$>
      sessions (@ask_question (demo_runtime_with seconds_clock two_tools_reply plain_reply)
                  (mkQueryRequest "How are the feeds encoded?" None) empty_world).2
        !! "session-0"
    = Some ["user"; "assistant"; "tool"; "tool"; "assistant"].
Proof. split; vm_compute; reflexivity. Qed.

(** * Further properties of the code *)

(** ** Session store *)

Section session_store_operations.
Context `{Runtime}.
Implicit Types (w : world) (sid : string) (s : ChatSession).

(** X1.  A session just created is in the store under the id returned, with an
    empty history and both times set to the creation time; no other id is
    touched; and unless the clock jumps past the timeout before the next
    reading, its history is the system preamble alone. *)
Theorem created_session_is_usable w :
  (clock (S (ticks w)) - clock (ticks w) ≤ session_timeout)%Z →
  ∃ w1, create_session w = (Return (uuid4 (issued w)), w1)
        ∧ sessions w1 !! uuid4 (issued w)
          = Some (mkChatSession (uuid4 (issued w)) [] (clock (ticks w)) (clock (ticks w)))
        ∧ (∀ k, k ≠ uuid4 (issued w) → sessions w1 !! k = sessions w !! k)
        ∧ (get_conversation_history (uuid4 (issued w)) true w1).1
          = Return [system_message].
Proof.
  intros L. eexists. split; [reflexivity|]. simpl.
  split; [apply lookup_insert_eq|]. split.
  - intros k N. by apply lookup_insert_ne.
  - rewrite (history_live _ _
               (mkChatSession (uuid4 (issued w)) [] (clock (ticks w)) (clock (ticks w)))
               true); [done|apply lookup_insert_eq|].
    unfold expired_at. simpl. lia.
Qed.

(** X2.  [add_message] on an id the store does not hold, or holds past its
    timeout, returns [False] without raising, whatever the content, and
    appends nothing; an expired session is removed by the attempt. *)
Theorem add_message_to_absent_session w sid rl cnt tcs tcid :
  sessions w !! sid = None
  ∨ (∃ s, sessions w !! sid = Some s
          ∧ (session_timeout < clock (ticks w) - last_updated s)%Z) →
  (add_message sid rl cnt tcs tcid w).1 = Return false
  ∧ sessions (add_message sid rl cnt tcs tcid w).2 = delete sid (sessions w).
Proof.
  intros [E|(s & E & X)].
  - assert (R : add_message sid rl cnt tcs tcid w = (Return false, w)).
    { unfold add_message. unfold mbind at 1, M_bind at 1.
      by rewrite (get_session_unknown _ _ E). }
    rewrite R. simpl. by rewrite delete_id.
  - assert (R : add_message sid rl cnt tcs tcid w
                = (Return false,
                   mkWorld (delete sid (sessions w)) (S (ticks w)) (issued w) (client w))).
    { unfold add_message. unfold mbind at 1, M_bind at 1.
      by rewrite (get_session_expired _ _ _ E X). }
    by rewrite R.
Qed.

(** X3.  [add_message] on a live session appends exactly one message, after the
    ones stored, with the fields given; id and creation time stay, the
    activity time is refreshed, and no other session is touched.  A
    content of [None] is rejected by the message model with the store
    unchanged. *)
Theorem add_message_appends_one w sid s rl tcs tcid :
  sessions w !! sid = Some s →
  (clock (ticks w) - last_updated s ≤ session_timeout)%Z →
  (∀ cnt,
     (add_message sid rl (Some cnt) tcs tcid w).1 = Return true
     ∧ sessions (add_message sid rl (Some cnt) tcs tcid w).2 !! sid
       = Some (mkChatSession (session_id s)
                 (messages s ++ [mkChatMessage rl cnt (clock (S (ticks w))) tcs tcid])
                 (created_at s) (clock (S (S (ticks w)))))
     ∧ ∀ k, k ≠ sid →
            sessions (add_message sid rl (Some cnt) tcs tcid w).2 !! k = sessions w !! k)
  ∧ (∃ msg, (add_message sid rl None tcs tcid w).1 = Raise (PyError "ValidationError" msg))
  ∧ sessions (add_message sid rl None tcs tcid w).2 = sessions w.
Proof.
  intros E L. assert (X : ¬ expired_at w s) by (unfold expired_at; lia).
  split; [|split].
  - intros cnt. rewrite (add_message_live _ _ _ _ _ _ _ E X). simpl.
    split; [done|]. split; [apply lookup_insert_eq|].
    intros k N. by apply lookup_insert_ne.
  - unfold add_message. unfold mbind at 1, M_bind at 1.
    rewrite (get_session_live _ _ _ E X). simpl. eauto.
  - unfold add_message. unfold mbind at 1, M_bind at 1.
    by rewrite (get_session_live _ _ _ E X).
Qed.

(** X4.  [clear_session] on a live session empties the history, keeps id and
    creation time, refreshes the activity time and returns [True]; the
    history asked for next (within the timeout) is the system preamble
    alone.  On an absent or expired session it returns [False]. *)
Theorem clear_session_empties_history w sid :
  (∀ s, sessions w !! sid = Some s →
        (clock (ticks w) - last_updated s ≤ session_timeout)%Z →
        (clear_session sid w).1 = Return true
        ∧ sessions (clear_session sid w).2 !! sid
          = Some (mkChatSession (session_id s) [] (created_at s) (clock (S (ticks w))))
        ∧ (∀ k, k ≠ sid → sessions (clear_session sid w).2 !! k = sessions w !! k)
        ∧ ((clock (S (S (ticks w))) - clock (S (ticks w)) ≤ session_timeout)%Z →
           (get_conversation_history sid true (clear_session sid w).2).1
           = Return [system_message]))
  ∧ (sessions w !! sid = None
     ∨ (∃ s, sessions w !! sid = Some s
             ∧ (session_timeout < clock (ticks w) - last_updated s)%Z) →
     (clear_session sid w).1 = Return false
     ∧ sessions (clear_session sid w).2 = delete sid (sessions w)).
Proof.
  split.
  - intros s E L. assert (X : ¬ expired_at w s) by (unfold expired_at; lia).
    assert (R : clear_session sid w
                = (Return true,
                   mkWorld (<[sid := mkChatSession (session_id s) [] (created_at s)
                                       (clock (S (ticks w)))]> (sessions w))
                     (S (S (ticks w))) (issued w) (client w))).
    { unfold clear_session. unfold mbind at 1, M_bind at 1.
      by rewrite (get_session_live _ _ _ E X). }
    rewrite R. simpl.
    split; [done|]. split; [apply lookup_insert_eq|]. split.
    + intros k N. by apply lookup_insert_ne.
    + intros L'.
      rewrite (history_live _ _
                 (mkChatSession (session_id s) [] (created_at s) (clock (S (ticks w))))
                 true); [done|apply lookup_insert_eq|].
      unfold expired_at. simpl. lia.
  - intros [E|(s & E & X)].
    + assert (R : clear_session sid w = (Return false, w)).
      { unfold clear_session. unfold mbind at 1, M_bind at 1.
        by rewrite (get_session_unknown _ _ E). }
      rewrite R. simpl. by rewrite delete_id.
    + assert (R : clear_session sid w
                  = (Return false,
                     mkWorld (delete sid (sessions w)) (S (ticks w)) (issued w) (client w))).
      { unfold clear_session. unfold mbind at 1, M_bind at 1.
        by rewrite (get_session_expired _ _ _ E X). }
      by rewrite R.
Qed.

Lemma delete_session_store w sid :
  sessions (delete_session sid w).2 = delete sid (sessions w).
Proof.
  unfold delete_session. unfold_M.
  destruct (sessions w !! sid) as [s|] eqn:E; simpl; [done|by rewrite delete_id].
Qed.

(** X5.  [delete_session] returns [True] exactly when the store held the id,
    expired or not, and reads no clock; afterwards the id is absent, a
    second deletion returns [False], and no other session is touched. *)
Theorem delete_session_removes_the_id w sid :
  (delete_session sid w).1 = Return (bool_decide (is_Some (sessions w !! sid)))
  ∧ sessions (delete_session sid w).2 = delete sid (sessions w)
  ∧ ticks (delete_session sid w).2 = ticks w
  ∧ (delete_session sid (delete_session sid w).2).1 = Return false
  ∧ (get_session sid (delete_session sid w).2).1 = Return None.
Proof.
  assert (D : (delete_session sid w).1 = Return (bool_decide (is_Some (sessions w !! sid)))
              ∧ sessions (delete_session sid w).2 = delete sid (sessions w)
              ∧ ticks (delete_session sid w).2 = ticks w).
  { unfold delete_session. unfold_M.
    destruct (sessions w !! sid) as [s|] eqn:E; simpl.
    - done.
    - by rewrite delete_id. }
  destruct D as (D1 & D2 & D3). repeat split; try done.
  - unfold delete_session at 1. unfold_M. rewrite D2, lookup_delete_eq. done.
  - rewrite get_session_unknown; [done|]. rewrite D2. apply lookup_delete_eq.
Qed.

End session_store_operations.

Lemma foldl_delete_lookup (ks : list string) : ∀ (m : gmap string ChatSession) k,
  foldl (λ m sid, delete sid m) m ks !! k = if decide (k ∈ ks) then None else m !! k.
Proof.
  induction ks as [|k0 ks IH]; intros m k; simpl.
  - destruct (decide (k ∈ [])) as [I|_]; [by apply elem_of_nil in I|done].
  - rewrite IH. destruct (decide (k ∈ ks)) as [I|N].
    + rewrite decide_True; [done|by right].
    + destruct (decide (k = k0)) as [->|Nk].
      * rewrite lookup_delete_eq. rewrite decide_True; [done|by left].
      * rewrite lookup_delete_ne by done. rewrite decide_False; [done|].
        intros I. apply elem_of_cons in I as [?|?]; done.
Qed.

Section session_sweep_properties.
Context `{Runtime}.

Lemma cleanup_expired_sessions_store (w : world) :
  sessions (cleanup_expired_sessions w).2
  = filter (λ kv : string * ChatSession,
              (clock (ticks w) - last_updated kv.2 ≤ session_timeout)%Z) (sessions w).
Proof.
  unfold cleanup_expired_sessions. unfold_M. simpl.
    apply map_eq. intros k. rewrite foldl_delete_lookup.
    destruct (sessions w !! k) as [s|] eqn:E.
    - destruct (decide (clock (ticks w) - last_updated s ≤ session_timeout)%Z) as [L|L].
      + rewrite (proj2 (map_lookup_filter_Some _ _ k s)) by done.
        rewrite decide_False; [done|]. intros I.
        apply list_elem_of_fmap in I as ([k' s'] & -> & I). simpl in *.
        apply list_elem_of_In, filter_In in I as [I X].
        apply list_elem_of_In, elem_of_map_to_list in I. simpl in X.
        rewrite E in I. injection I as <-. apply Z.ltb_lt in X. lia.
      + rewrite (proj2 (map_lookup_filter_None _ _ k))
          by (right; intros s' E'; rewrite E in E'; by injection E' as <-).
        rewrite decide_True; [done|].
        apply list_elem_of_fmap. exists (k, s). split; [done|].
        apply list_elem_of_In, filter_In. split.
        * by apply list_elem_of_In, elem_of_map_to_list.
        * simpl. apply Z.ltb_lt. lia.
    - rewrite (proj2 (map_lookup_filter_None _ _ k)) by (by left).
      by destruct (decide _).
Qed.

(** X6.  The sweep keeps exactly the sessions that are within the timeout at
    its one reading of the clock, each as it was stored, and
    [get_session_count] returns their number. *)
Theorem get_session_count_counts_live (w : world) :
  sessions (cleanup_expired_sessions w).2
  = filter (λ kv : string * ChatSession,
              (clock (ticks w) - last_updated kv.2 ≤ session_timeout)%Z) (sessions w)
  ∧ (get_session_count w).1
    = Return (size (filter (λ kv : string * ChatSession,
                              (clock (ticks w) - last_updated kv.2 ≤ session_timeout)%Z)
                      (sessions w)))
  ∧ sessions (get_session_count w).2 = sessions (cleanup_expired_sessions w).2
  ∧ ticks (get_session_count w).2 = S (ticks w).
Proof.
  pose proof (cleanup_expired_sessions_store w) as C.
  split; [done|].
  unfold get_session_count. unfold mbind at 1 2 3, M_bind at 1 2 3.
  destruct (cleanup_expired_sessions w) as [[[]|e] w1] eqn:R; simpl in *.
  - rewrite C. repeat split.
    unfold cleanup_expired_sessions in R. unfold_M. simpl in R. by injection R as <-.
  - unfold cleanup_expired_sessions in R. unfold_M. simpl in R. discriminate R.
Qed.

End session_sweep_properties.

(** ** What a request does to the store *)

Lemma session_step_refl sid w : session_step sid w w.
Proof.
  split; [done|]. split; [done|].
  intros s s' E E'. rewrite E in E'. by injection E' as <-.
Qed.

Lemma session_step_trans sid w1 w2 w3 :
  session_step sid w1 w2 → session_step sid w2 w3 → session_step sid w1 w3.
Proof.
  intros (O1 & N1 & G1) (O2 & N2 & G2). split; [|split].
  - intros k Nk. by rewrite O2, O1.
  - auto.
  - intros s s' E1 E3.
    destruct (sessions w2 !! sid) as [s2|] eqn:E2; [|by rewrite N2 in E3].
    destruct (G1 _ _ E1 eq_refl) as (I1 & C1 & P1), (G2 _ _ eq_refl E3) as (I2 & C2 & P2).
    split; [congruence|]. split; [congruence|]. by etrans.
Qed.

Section request_steps.
Context `{Runtime}.
Implicit Types (w : world) (sid : string) (s : ChatSession).

Lemma runs_within_ret sid {A} (a : A) : runs_within sid (mret a).
Proof. intros w. apply session_step_refl. Qed.

Lemma runs_within_raise sid {A} (e : exn) : runs_within sid (@raise A e).
Proof. intros w. apply session_step_refl. Qed.

Lemma runs_within_lift sid {A} (o : outcome A) : runs_within sid (lift o).
Proof. intros w. apply session_step_refl. Qed.

Lemma runs_within_bind sid {A B} (m : M A) (k : A → M B) :
  runs_within sid m → (∀ a, runs_within sid (k a)) → runs_within sid (m ≫= k).
Proof.
  intros Hm Hk w. unfold mbind, M_bind. specialize (Hm w).
  destruct (m w) as [[a|e] w1]; simpl in *; [|done].
  eapply session_step_trans; [done|apply Hk].
Qed.

Lemma session_step_tick sid w : session_step sid w (tick w).
Proof.
  split; [done|]. split; [done|].
  intros s s' E E'. simpl in E'. rewrite E in E'. by injection E' as <-.
Qed.

Lemma session_step_evict sid w :
  session_step sid w
    (mkWorld (delete sid (sessions w)) (S (ticks w)) (issued w) (client w)).
Proof.
  split; [|split]; simpl.
  - intros k N. by apply lookup_delete_ne.
  - intros _. apply lookup_delete_eq.
  - intros s s' _ E'. by rewrite lookup_delete_eq in E'.
Qed.

Lemma runs_within_get_session sid : runs_within sid (get_session sid).
Proof.
  intros w.
  destruct (get_session_cases w sid) as [(E & ->)|[(s & E & X & ->)|(s & E & X & ->)]].
  - apply session_step_refl.
  - apply session_step_evict.
  - apply session_step_tick.
Qed.

Lemma runs_within_add_message sid rl cnt tcs tcid :
  runs_within sid (add_message sid rl cnt tcs tcid).
Proof.
  intros w. unfold add_message. unfold mbind at 1, M_bind at 1.
  destruct (get_session_cases w sid) as [(E & ->)|[(s & E & X & ->)|(s & E & X & ->)]].
  - apply session_step_refl.
  - apply session_step_evict.
  - destruct cnt as [cnt|]; simpl.
    + split; [|split]; simpl.
      * intros k N. by apply lookup_insert_ne.
      * intros N. by rewrite E in N.
      * intros s0 s' E0 E'. rewrite lookup_insert_eq in E'. injection E' as <-.
        rewrite E in E0. injection E0 as <-. simpl.
        split; [done|]. split; [done|]. by apply prefix_app_r.
    + split; [done|]. split; [done|].
      intros s0 s' E0 E'. simpl in E'. rewrite E0 in E'. by injection E' as <-.
Qed.

Lemma runs_within_history sid b : runs_within sid (get_conversation_history sid b).
Proof.
  unfold get_conversation_history. apply runs_within_bind.
  - apply runs_within_get_session.
  - intros [s|]; apply runs_within_ret.
Qed.

Lemma runs_within_get_openai_client sid : runs_within sid get_openai_client.
Proof.
  intros w. destruct (get_openai_client w) as [r w2] eqn:C.
  apply get_openai_client_sessions in C. simpl.
  unfold session_step. rewrite C. apply session_step_refl.
Qed.

Lemma runs_within_validate_str sid field v : runs_within sid (validate_str field v).
Proof. destruct v; [apply runs_within_ret|apply runs_within_raise]. Qed.

Lemma runs_within_execute_tool_calls sid tcs : ∀ made msgs,
  runs_within sid (execute_tool_calls sid tcs made msgs).
Proof.
  induction tcs as [|tc tcs IH]; intros made msgs; simpl; [apply runs_within_ret|].
  apply runs_within_bind; [apply runs_within_lift|]. intros function_args.
  apply runs_within_bind; [apply runs_within_lift|]. intros [args tool_result].
  apply runs_within_bind; [apply runs_within_lift|]. intros made1.
  apply runs_within_bind; [apply runs_within_add_message|]. intros _. apply IH.
Qed.

Lemma runs_within_answer_in_session sid request :
  runs_within sid (answer_in_session sid request).
Proof.
  unfold answer_in_session.
  apply runs_within_bind; [apply runs_within_get_session|].
  intros [s|]; [|apply runs_within_raise].
  apply runs_within_bind; [apply runs_within_add_message|]. intros _.
  apply runs_within_bind; [apply runs_within_get_openai_client|]. intros _.
  apply runs_within_bind; [apply runs_within_history|]. intros msgs.
  apply runs_within_bind; [apply runs_within_lift|]. intros am.
  destruct (am_tool_calls am) as [|tc tcs].
  - apply runs_within_bind; [apply runs_within_validate_str|]. intros a.
    apply runs_within_ret.
  - apply runs_within_bind; [apply runs_within_add_message|]. intros _.
    apply runs_within_bind; [apply runs_within_execute_tool_calls|].
    intros [made msgs'].
    apply runs_within_bind; [apply runs_within_lift|]. intros final.
    apply runs_within_bind; [apply runs_within_add_message|]. intros _.
    apply runs_within_bind; [apply runs_within_validate_str|]. intros a.
    apply runs_within_ret.
Qed.

End request_steps.

Lemma keys_match_session_step sid w w' :
  session_step sid w w' → keys_match w → keys_match w'.
Proof.
  intros (O & N & G) K k s' E'. destruct (decide (k = sid)) as [->|Nk].
  - destruct (sessions w !! sid) as [s|] eqn:E; [|by rewrite N in E'].
    destruct (G _ _ eq_refl E') as (I & _ & _). rewrite I. by apply K.
  - rewrite O in E' by done. by apply K.
Qed.

Lemma keys_match_subseteq w w' :
  sessions w' ⊆ sessions w → keys_match w → keys_match w'.
Proof. intros S K k s E. apply K. by eapply lookup_weaken. Qed.

Section request_properties.
Context `{Runtime}.
Implicit Types (w : world) (sid : string) (s : ChatSession).

Lemma ask_question_state request w :
  (ask_question request w).2 = (ask_question_body request w).2.
Proof.
  unfold ask_question, try_except.
  destruct (ask_question_body request w) as [[r|e] w1]; [done|]. by destruct e.
Qed.

(** X7.  A request touches one session only: the one it names or the one it
    creates.  When it names one, that session is never created by the
    request, and if it is stored before and after, it has the same id and
    creation time and its old messages are a prefix of the new ones:
    history is appended to, never rewritten. *)
Theorem ask_question_touches_one_session request w :
  (∀ k, k ≠ session_of request w →
        sessions (ask_question request w).2 !! k = sessions w !! k)
  ∧ (∀ a sid', req_session_id request = Some (String a sid') →
       (sessions w !! String a sid' = None →
        sessions (ask_question request w).2 !! String a sid' = None)
       ∧ ∀ s s', sessions w !! String a sid' = Some s →
                 sessions (ask_question request w).2 !! String a sid' = Some s' →
                 session_id s' = session_id s ∧ created_at s' = created_at s
                 ∧ messages s `prefix_of` messages s').
Proof.
  rewrite ask_question_state. unfold ask_question_body, session_of, resolve_session.
  split.
  - intros k N. destruct (req_session_id request) as [[|a sid']|].
    + unfold mbind, M_bind. simpl.
      destruct (runs_within_answer_in_session (uuid4 (issued w)) request
                  (mkWorld (<[uuid4 (issued w) :=
                               mkChatSession (uuid4 (issued w)) [] (clock (ticks w))
                                 (clock (ticks w))]> (sessions w))
                     (S (ticks w)) (S (issued w)) (client w))) as (O & _ & _).
      rewrite O by done. simpl. by apply lookup_insert_ne.
    + unfold mbind, M_bind, mret, M_ret.
      by destruct (runs_within_answer_in_session (String a sid') request w) as (O & _ & _);
        apply O.
    + unfold mbind, M_bind. simpl.
      destruct (runs_within_answer_in_session (uuid4 (issued w)) request
                  (mkWorld (<[uuid4 (issued w) :=
                               mkChatSession (uuid4 (issued w)) [] (clock (ticks w))
                                 (clock (ticks w))]> (sessions w))
                     (S (ticks w)) (S (issued w)) (client w))) as (O & _ & _).
      rewrite O by done. simpl. by apply lookup_insert_ne.
  - intros a sid' ->. unfold mbind, M_bind, mret, M_ret.
    destruct (runs_within_answer_in_session (String a sid') request w) as (_ & N & G).
    by split.
Qed.

(** X8.  Every session is stored under its own id: each operation of the
    store, and a whole request, keeps it so. *)
Theorem stored_sessions_keep_their_key w :
  keys_match w →
  keys_match (create_session w).2
  ∧ (∀ sid rl cnt tcs tcid, keys_match (add_message sid rl cnt tcs tcid w).2)
  ∧ (∀ sid, keys_match (clear_session sid w).2)
  ∧ (∀ sid, keys_match (delete_session sid w).2)
  ∧ keys_match (cleanup_expired_sessions w).2
  ∧ (∀ request, keys_match (ask_question request w).2).
Proof.
  intros K.
  assert (C : ∀ w0, keys_match w0 → keys_match (create_session w0).2).
  { intros w0 K0 k s E. simpl in E.
    destruct (decide (k = uuid4 (issued w0))) as [->|N].
    - rewrite lookup_insert_eq in E. by injection E as <-.
    - rewrite lookup_insert_ne in E by done. by apply K0. }
  split; [by apply C|]. split; [|split; [|split; [|split]]].
  - intros sid rl cnt tcs tcid.
    eapply keys_match_session_step; [apply runs_within_add_message|done].
  - intros sid k s. unfold clear_session. unfold mbind at 1, M_bind at 1.
    destruct (get_session_cases w sid) as [(E & ->)|[(s0 & E & X & ->)|(s0 & E & X & ->)]];
      simpl.
    + apply K.
    + intros E'. apply K. destruct (decide (k = sid)) as [->|N].
      * by rewrite lookup_delete_eq in E'.
      * by rewrite lookup_delete_ne in E'.
    + intros E'. destruct (decide (k = sid)) as [->|N].
      * rewrite lookup_insert_eq in E'. injection E' as <-. simpl. by apply K.
      * rewrite lookup_insert_ne in E' by done. by apply K.
  - intros sid. apply (keys_match_subseteq w); [|done].
    rewrite delete_session_store. apply delete_subseteq.
  - apply (keys_match_subseteq w); [|done].
    rewrite cleanup_expired_sessions_store. apply map_filter_subseteq.
  - intros request. rewrite ask_question_state.
    unfold ask_question_body, resolve_session, mbind, M_bind.
    destruct (req_session_id request) as [[|a sid']|]; simpl.
    + eapply keys_match_session_step; [apply runs_within_answer_in_session|].
      by apply (C w).
    + eapply keys_match_session_step; [apply runs_within_answer_in_session|done].
    + eapply keys_match_session_step; [apply runs_within_answer_in_session|].
      by apply (C w).
Qed.

End request_properties.

(** ** What a request records, and how it fails *)

Ltac solve_runs_within :=
  repeat match goal with
  | |- ∀ _, _ => intro
  | |- runs_within _ (mbind _ _) => apply runs_within_bind
  | |- runs_within _ (match ?x with _ => _ end) => destruct x
  | |- runs_within _ (mret _) => apply runs_within_ret
  | |- runs_within _ (raise _) => apply runs_within_raise
  | |- runs_within _ (lift _) => apply runs_within_lift
  | |- runs_within _ (get_session _) => apply runs_within_get_session
  | |- runs_within _ (add_message _ _ _ _ _) => apply runs_within_add_message
  | |- runs_within _ (get_conversation_history _ _) => apply runs_within_history
  | |- runs_within _ get_openai_client => apply runs_within_get_openai_client
  | |- runs_within _ (validate_str _ _) => apply runs_within_validate_str
  | |- runs_within _ (execute_tool_calls _ _ _ _) => apply runs_within_execute_tool_calls
  end.

Section request_outcomes.
Context `{Runtime}.
Implicit Types (w : world) (sid : string) (s : ChatSession).

Lemma bind_after sid {A B} (m : M A) (k : A → M B) w :
  (∀ a, runs_within sid (k a)) → session_step sid (m w).2 ((m ≫= k) w).2.
Proof.
  intros Hk. unfold mbind, M_bind.
  destruct (m w) as [[a|e] w1]; simpl; [apply Hk|apply session_step_refl].
Qed.

Lemma add_message_client w sid rl cnt tcs tcid :
  ∃ b, (add_message sid rl (Some cnt) tcs tcid w).1 = Return b
       ∧ client (add_message sid rl (Some cnt) tcs tcid w).2 = client w.
Proof.
  destruct (add_message sid rl (Some cnt) tcs tcid w) as [r w2] eqn:A.
  unfold add_message in A. unfold mbind at 1, M_bind at 1 in A.
  destruct (get_session_cases w sid) as [(E & R)|[(s & E & X & R)|(s & E & X & R)]];
    rewrite R in A; simpl in A; injection A as <- <-; simpl; eauto.
Qed.

(** A request whose session resolves reaches [answer_in_session] with that
    session stored and live. *)
Lemma body_resolves request w :
  session_resolves_live request w →
  ∃ w1 s, ask_question_body request w = answer_in_session (session_of request w) request w1
          ∧ sessions w1 !! session_of request w = Some s
          ∧ ¬ expired_at w1 s ∧ client w1 = client w
          ∧ match req_session_id request with
            | Some (String _ _) => w1 = w
            | _ => ticks w1 = S (ticks w)
                   ∧ s = mkChatSession (uuid4 (issued w)) [] (clock (ticks w))
                           (clock (ticks w))
            end.
Proof.
  unfold session_resolves_live, ask_question_body, resolve_session, session_of.
  assert (N : (clock (S (ticks w)) - clock (ticks w) ≤ session_timeout)%Z →
    ∃ w1 s, (create_session ≫= λ sid, answer_in_session sid request) w
            = answer_in_session (uuid4 (issued w)) request w1
            ∧ sessions w1 !! uuid4 (issued w) = Some s
            ∧ ¬ expired_at w1 s ∧ client w1 = client w
            ∧ ticks w1 = S (ticks w)
              ∧ s = mkChatSession (uuid4 (issued w)) [] (clock (ticks w))
                      (clock (ticks w))).
  { intros L. eexists _, _. split; [reflexivity|]. simpl.
    split; [apply lookup_insert_eq|]. split; [|done].
    unfold expired_at. simpl. lia. }
  destruct (req_session_id request) as [[|a sid']|]; [done| |done].
  intros (s & E & L). exists w, s. split; [done|]. split; [done|].
  split; [|done]. unfold expired_at. lia.
Qed.

Lemma ask_question_of_body request w e :
  (ask_question_body request w).1 = Raise e →
  (ask_question request w).1
  = Raise (match e with
           | OpenAIError msg => HTTPException 500 ("OpenAI API error: " +:+ msg)
           | _ => HTTPException 500 ("Internal server error: " +:+ str_exn e)
           end).
Proof.
  unfold ask_question, try_except.
  destruct (ask_question_body request w) as [[r|e0] w1]; simpl; [done|].
  intros [= ->]. by destruct e.
Qed.

Lemma ask_question_returns request w resp :
  (ask_question request w).1 = Return resp →
  ask_question_body request w = (Return resp, (ask_question request w).2).
Proof.
  unfold ask_question, try_except.
  destruct (ask_question_body request w) as [[r|e0] w1]; simpl.
  - by intros [= ->].
  - by destruct e0.
Qed.

Lemma answer_in_session_records sid request w s :
  sessions w !! sid = Some s → ¬ expired_at w s →
  sessions (answer_in_session sid request w).2 !! sid = None
  ∨ ∃ s', sessions (answer_in_session sid request w).2 !! sid = Some s'
          ∧ session_id s' = session_id s ∧ created_at s' = created_at s
          ∧ (messages s ++ [user_message request (clock (S (S (ticks w))))])
              `prefix_of` messages s'.
Proof.
  intros E X.
  assert (S1 : session_step sid
                 (add_message sid "user" (Some (question request)) None None (tick w)).2
                 (answer_in_session sid request w).2).
  { unfold answer_in_session. unfold mbind at 1, M_bind at 1.
    rewrite (get_session_live _ _ _ E X). apply bind_after. solve_runs_within. }
  destruct S1 as (_ & N & G).
  destruct (decide (expired_at (tick w) s)) as [X1|X1].
  - left. apply N.
    destruct (add_message_absent (tick w) sid "user" (Some (question request)) None None)
      as (w2 & -> & N2); [right; eauto|done].
  - rewrite (add_message_live (tick w) sid s) in G by done. simpl in G.
    destruct (sessions (answer_in_session sid request w).2 !! sid) as [s'|] eqn:E';
      [right|by left].
    exists s'. split; [done|].
    by destruct (G _ s' (lookup_insert_eq _ _ _) eq_refl) as (I & C & P).
Qed.

(** X9.  The question is stored before anything can fail, and no failure takes
    it back: whatever a request returns or raises, its session, unless it
    has expired meanwhile, holds the messages it held before, then the
    user message, then whatever else the request appended. *)
Theorem ask_question_records_the_question request w :
  session_resolves_live request w →
  (∀ a sid' s,
     req_session_id request = Some (String a sid') →
     sessions w !! String a sid' = Some s →
     sessions (ask_question request w).2 !! String a sid' = None
     ∨ ∃ s', sessions (ask_question request w).2 !! String a sid' = Some s'
             ∧ (messages s ++ [user_message request (clock (S (S (ticks w))))])
                 `prefix_of` messages s')
  ∧ (req_session_id request = None ∨ req_session_id request = Some "" →
     sessions (ask_question request w).2 !! uuid4 (issued w) = None
     ∨ ∃ s', sessions (ask_question request w).2 !! uuid4 (issued w) = Some s'
             ∧ session_id s' = uuid4 (issued w) ∧ created_at s' = clock (ticks w)
             ∧ [user_message request (clock (S (S (S (ticks w)))))]
                 `prefix_of` messages s').
Proof.
  intros L. rewrite ask_question_state.
  destruct (body_resolves request w L) as (w1 & s1 & -> & E1 & X1 & _ & K).
  pose proof (answer_in_session_records _ request _ _ E1 X1) as R.
  unfold session_of in *. split.
  - intros a sid' s Q E. rewrite Q in *. subst w1. rewrite E in E1. injection E1 as <-.
    destruct R as [N|(s' & E' & _ & _ & P)]; [by left|right; eauto].
  - intros Q.
    assert (K' : ticks w1 = S (ticks w)
                 ∧ s1 = mkChatSession (uuid4 (issued w)) [] (clock (ticks w))
                          (clock (ticks w))).
    { by destruct Q as [Q|Q]; rewrite Q in K. }
    assert (R' : sessions (answer_in_session (uuid4 (issued w)) request w1).2
                   !! uuid4 (issued w) = None
                 ∨ ∃ s', sessions (answer_in_session (uuid4 (issued w)) request w1).2
                           !! uuid4 (issued w) = Some s'
                         ∧ session_id s' = session_id s1 ∧ created_at s' = created_at s1
                         ∧ (messages s1 ++ [user_message request (clock (S (S (ticks w1))))])
                             `prefix_of` messages s').
    { by destruct Q as [Q|Q]; rewrite Q in R. }
    destruct K' as [T ->]. rewrite T in R'. simpl in R'.
    destruct Q as [Q|Q]; rewrite Q; done.
Qed.

End request_outcomes.

Section request_failures.
Context `{Runtime}.
Implicit Types (w : world) (sid : string) (s : ChatSession).

Lemma answer_in_session_missing_key sid request w s :
  sessions w !! sid = Some s → ¬ expired_at w s →
  client w = None → OPENAI_API_KEY = None ∨ OPENAI_API_KEY = Some "" →
  (answer_in_session sid request w).1
  = Raise (HTTPException 500 "OPENAI_API_KEY environment variable not set").
Proof.
  intros E X C K. unfold answer_in_session. unfold mbind at 1, M_bind at 1.
  rewrite (get_session_live _ _ _ E X). unfold mbind at 1, M_bind at 1.
  destruct (add_message_client (tick w) sid "user" (question request) None None)
    as (b & A1 & A2).
  destruct (add_message sid "user" (Some (question request)) None None (tick w))
    as [r w2]. simpl in A1, A2. subst r.
  unfold mbind at 1, M_bind at 1. unfold get_openai_client. unfold_M.
  rewrite A2. simpl. rewrite C. by destruct K as [->| ->].
Qed.

Lemma answer_in_session_model_failure sid request w s msg :
  sessions w !! sid = Some s → ¬ expired_at w s →
  is_Some (client w) ∨ (∃ a k, OPENAI_API_KEY = Some (String a k)) →
  (∀ msgs, chat_completions_create msgs (Some TOOL_SCHEMAS) = Raise (OpenAIError msg)) →
  (answer_in_session sid request w).1 = Raise (OpenAIError msg).
Proof.
  intros E X K F. unfold answer_in_session. unfold mbind at 1, M_bind at 1.
  rewrite (get_session_live _ _ _ E X). unfold mbind at 1, M_bind at 1.
  destruct (add_message_client (tick w) sid "user" (question request) None None)
    as (b & A1 & A2).
  destruct (add_message sid "user" (Some (question request)) None None (tick w))
    as [r w2]. simpl in A1, A2. subst r.
  unfold mbind at 1, M_bind at 1.
  assert (C : ∃ c w3, get_openai_client w2 = (Return c, w3)).
  { unfold get_openai_client. unfold_M. rewrite A2. simpl.
    destruct (client w) as [c|]; [eauto|].
    destruct K as [[c K]|(a & k & ->)]; [done|eauto]. }
  destruct C as (c & w3 & ->).
  unfold mbind at 1, M_bind at 1.
  destruct (history_sessions w3 sid true) as (h & w4 & -> & _).
  unfold mbind at 1, M_bind at 1. unfold lift. by rewrite F.
Qed.

(** X10.  Every failure of [ask_question] reaches the caller with status 500.
    With no API key configured the detail is the missing-key message
    behind the generic prefix and the status of the inner exception; an
    error of the model API is reported with its own prefix. *)
Theorem ask_question_fails_with_500 request w :
  (∀ e, (ask_question request w).1 = Raise e → ∃ detail, e = HTTPException 500 detail)
  ∧ (session_resolves_live request w →
     client w = None → OPENAI_API_KEY = None ∨ OPENAI_API_KEY = Some "" →
     (ask_question request w).1
     = Raise (HTTPException 500
                "Internal server error: 500: OPENAI_API_KEY environment variable not set"))
  ∧ (∀ msg,
       session_resolves_live request w →
       is_Some (client w) ∨ (∃ a k, OPENAI_API_KEY = Some (String a k)) →
       (∀ msgs, chat_completions_create msgs (Some TOOL_SCHEMAS)
                = Raise (OpenAIError msg)) →
       (ask_question request w).1
       = Raise (HTTPException 500 ("OpenAI API error: " +:+ msg))).
Proof.
  split; [|split].
  - intros e. unfold ask_question, try_except.
    destruct (ask_question_body request w) as [[r|e0] w1]; [done|].
    destruct e0; simpl; intros [= <-]; eauto.
  - intros L C K.
    destruct (body_resolves request w L) as (w1 & s1 & B & E1 & X1 & C1 & _).
    rewrite (ask_question_of_body request w
               (HTTPException 500 "OPENAI_API_KEY environment variable not set")); [done|].
    rewrite B. apply (answer_in_session_missing_key _ _ _ s1); try done.
    by rewrite C1.
  - intros msg L K F.
    destruct (body_resolves request w L) as (w1 & s1 & B & E1 & X1 & C1 & _).
    rewrite (ask_question_of_body request w (OpenAIError msg)); [done|].
    rewrite B. apply (answer_in_session_model_failure _ _ _ s1); try done.
    by rewrite C1.
Qed.

(** X11.  A request answered without a tool invocation adds the user message to
    its session and nothing else: the answer returned to the caller is not
    stored, so the next request of the session does not see it. *)
Theorem tool_free_answer_is_not_stored request w resp :
  (∀ msgs am, chat_completions_create msgs (Some TOOL_SCHEMAS) = Return am →
              am_tool_calls am = []) →
  session_resolves_live request w →
  (ask_question request w).1 = Return resp →
  made_tool_calls resp = [] ∧ resp_session_id resp = session_of request w
  ∧ ∃ old,
      match req_session_id request with
      | Some (String a sid') => messages <$> sessions w !! String a sid'
      | _ => Some []
      end = Some old
      ∧ (sessions (ask_question request w).2 !! session_of request w = None
         ∨ ∃ s' stamp,
             sessions (ask_question request w).2 !! session_of request w = Some s'
             ∧ messages s' = old ++ [user_message request stamp]).
Proof.
  intros NT L R. apply ask_question_returns in R.
  destruct (body_resolves request w L) as (w1 & s1 & B & E1 & X1 & C1 & K).
  rewrite B in R.
  destruct (answer_in_session_without_tools _ _ _ _ _ NT R)
    as (M0 & I0 & s & E & D).
  split; [done|]. split; [done|].
  rewrite E1 in E. injection E as <-. exists (messages s1). split; [|done].
  unfold session_of in *. destruct (req_session_id request) as [[|a sid']|].
  - by destruct K as [_ ->].
  - subst w1. by rewrite E1.
  - by destruct K as [_ ->].
Qed.

End request_failures.

(** ** The tool loop *)

Section tool_loop.
Context `{Runtime}.
Implicit Types (w : world) (sid : string) (s : ChatSession).

Lemma execute_tool_calls_shape sid tcs : ∀ made msgs w made' msgs',
  (execute_tool_calls sid tcs made msgs w).1 = Return (made', msgs') →
  ∃ results, made' = made ++ results
             ∧ Forall2 reports tcs results
             ∧ msgs' = msgs ++ zip_with tool_entry tcs (map dumped_result results).
Proof.
  induction tcs as [|tc tcs IH]; intros made msgs w made' msgs'; simpl.
  - intros [= <- <-]. exists []. by rewrite !app_nil_r.
  - unfold mbind at 1, M_bind at 1. unfold lift at 1.
    destruct (json_loads (tc_arguments tc)) as [function_args|e] eqn:J; [|done].
    unfold mbind at 1, M_bind at 1. unfold lift at 1.
    destruct (call_execute_tool (tc_name tc) function_args) as [[args tool_result]|e] eqn:C;
      [|done].
    unfold mbind at 1, M_bind at 1. unfold lift at 1.
    destruct (make_ToolCall (tc_name tc) args tool_result) as [c|e] eqn:K; [|done].
    unfold mbind at 1, M_bind at 1.
    destruct (add_message sid "tool" (Some (json_dumps tool_result)) None (Some (tc_id tc)) w)
      as [[b|e] w1]; [|done].
    intros R. apply IH in R as (results & -> & F & ->).
    unfold call_execute_tool in C.
    destruct function_args as [| | | | | |args0]; try done.
    destruct (execute_tool (tc_name tc) args0) as [r|e] eqn:X; [|done].
    assert (D : dict_get "tool_name" args0 = None).
    { unfold execute_tool in X. by destruct (dict_get "tool_name" args0). }
    injection C as <- <-. unfold make_ToolCall in K.
    destruct r as [| | | | | |r]; try done. injection K as <-.
    exists (mkToolCall (tc_name tc) args0 r :: results).
    split; [by rewrite <- app_assoc|]. split.
    + by constructor.
    + by rewrite <- app_assoc.
Qed.

(** X12.  When the tool loop completes, the trace gains one entry per
    invocation, in the order asked, each reporting the invocation's name,
    its decoded arguments and the dispatcher's result for them; and the
    conversation gains one tool entry per invocation, in the same order,
    carrying the invocation's id and the serialized result. *)
Theorem execute_tool_calls_reports_each_invocation sid tcs made msgs w made' msgs' :
  (execute_tool_calls sid tcs made msgs w).1 = Return (made', msgs') →
  ∃ results, made' = made ++ results
             ∧ length results = length tcs
             ∧ Forall2 reports tcs results
             ∧ msgs' = msgs ++ zip_with tool_entry tcs (map dumped_result results).
Proof.
  intros R. destruct (execute_tool_calls_shape _ _ _ _ _ _ _ R) as (results & M1 & F & M2).
  exists results. split; [done|]. split; [|done].
  symmetry. by eapply Forall2_length.
Qed.

(** X13.  An invocation whose arguments string does not decode, decodes to
    something that is no dictionary, or decodes to a dictionary with the
    key [tool_name], stops the loop with an exception before the body of
    the dispatcher is reached: the decoder's own exception, the
    [TypeError] of unpacking with [**], which names the type found, or
    the [TypeError] of the second value for [tool_name].  Nothing is
    stored for the invocation and the invocations after it are not
    executed. *)
Theorem unusable_arguments_stop_the_loop sid tc tcs made msgs w :
  match json_loads (tc_arguments tc) with
  | Return (PDict args) => is_Some (dict_get "tool_name" args)
  | _ => True
  end →
  execute_tool_calls sid (tc :: tcs) made msgs w
  = (Raise match json_loads (tc_arguments tc) with
           | Raise e => e
           | Return (PDict _) =>
               PyError "TypeError"
                 "execute_tool() got multiple values for argument 'tool_name'"
           | Return v =>
               PyError "TypeError"
                 ("tools_runtime.execute_tool() argument after ** must be a mapping, not "
                  +:+ pyval_type_name v)
           end, w).
Proof.
  intros U. simpl. unfold mbind at 1, M_bind at 1. unfold lift at 1.
  destruct (json_loads (tc_arguments tc)) as [function_args|e]; [|done].
  unfold mbind at 1, M_bind at 1. unfold lift at 1.
  destruct function_args as [| | | | | |args]; try done.
  unfold call_execute_tool, execute_tool. by destruct U as [v ->].
Qed.

Lemma answer_in_session_shape sid request w resp :
  (answer_in_session sid request w).1 = Return resp →
  resp_session_id resp = sid
  ∧ ∃ msgs am,
      chat_completions_create msgs (Some TOOL_SCHEMAS) = Return am
      ∧ Forall2 reports (am_tool_calls am) (made_tool_calls resp)
      ∧ match am_tool_calls am with
        | [] => am_content am = Some (answer resp)
        | _ :: _ =>
            ∃ final,
              chat_completions_create
                (msgs ++ [assistant_entry am]
                      ++ zip_with tool_entry (am_tool_calls am)
                           (map dumped_result (made_tool_calls resp))) None
              = Return final
              ∧ am_content final = Some (answer resp)
        end.
Proof.
  unfold answer_in_session. unfold mbind at 1, M_bind at 1.
  destruct (get_session sid w) as [[[s|]|e] w1]; [|done|done].
  unfold mbind at 1, M_bind at 1.
  destruct (add_message sid "user" (Some (question request)) None None w1)
    as [[b|e] w2]; [|done].
  unfold mbind at 1, M_bind at 1.
  destruct (get_openai_client w2) as [[c|e] w3]; [|done].
  unfold mbind at 1, M_bind at 1.
  destruct (get_conversation_history sid true w3) as [[h|e] w4]; [|done].
  unfold mbind at 1, M_bind at 1. unfold lift at 1.
  destruct (chat_completions_create h (Some TOOL_SCHEMAS)) as [am|e] eqn:Q; [|done].
  destruct (am_tool_calls am) as [|tc tcs] eqn:T.
  - unfold mbind at 1, M_bind at 1.
    destruct (am_content am) as [ans|] eqn:A; [|done]. simpl.
    intros [= <-]. simpl. split; [done|]. exists h, am. rewrite T, A.
    split; [done|]. split; [constructor|done].
  - unfold mbind at 1, M_bind at 1.
    destruct (add_message sid "assistant" (Some (default "" (am_content am)))
                (Some (map tool_call_for_session (tc :: tcs))) None w4)
      as [[b1|e] w5]; [|done].
    unfold mbind at 1, M_bind at 1.
    destruct (execute_tool_calls sid (tc :: tcs) []
                (h ++ [PDict [("role", PStr "assistant");
                               ("content", from_option PStr PNone (am_content am));
                               ("tool_calls", PList (map tool_call_for_session (tc :: tcs)))]])
                w5) as [[[made msgs']|e] w6] eqn:X; [|done].
    pose proof (execute_tool_calls_shape _ _ _ _ _ made msgs' (f_equal fst X))
      as (results & -> & F & ->).
    unfold mbind at 1, M_bind at 1. unfold lift at 1.
    destruct (chat_completions_create _ None) as [final|e] eqn:Q2; [|done].
    unfold mbind at 1, M_bind at 1.
    destruct (add_message sid "assistant" (am_content final) None None w6)
      as [[b2|e] w7]; [|done].
    unfold mbind at 1, M_bind at 1.
    destruct (am_content final) as [ans|] eqn:A; [|done]. simpl.
    intros [= <-]. simpl. split; [done|]. exists h, am. rewrite T.
    split; [done|]. split; [done|]. exists final. split; [|done].
    unfold assistant_entry. rewrite T. by rewrite <- app_assoc in Q2.
Qed.

(** X14.  A successful response names the session worked in and reports, in
    order, exactly the invocations the model asked for in its first
    answer.  Without invocations the answer is the content of that first
    answer; with invocations it is the content of a second answer, which
    the model gives without tools on offer after seeing its own request
    and one tool entry per invocation: there is one round of tools. *)
Theorem response_reports_one_round_of_tools request w resp :
  (ask_question request w).1 = Return resp →
  resp_session_id resp = session_of request w
  ∧ ∃ msgs am,
      chat_completions_create msgs (Some TOOL_SCHEMAS) = Return am
      ∧ Forall2 reports (am_tool_calls am) (made_tool_calls resp)
      ∧ match am_tool_calls am with
        | [] => am_content am = Some (answer resp)
        | _ :: _ =>
            ∃ final,
              chat_completions_create
                (msgs ++ [assistant_entry am]
                      ++ zip_with tool_entry (am_tool_calls am)
                           (map dumped_result (made_tool_calls resp))) None
              = Return final
              ∧ am_content final = Some (answer resp)
        end.
Proof.
  intros R. apply ask_question_returns in R. apply (f_equal fst) in R. simpl in R.
  unfold ask_question_body, resolve_session, session_of in *.
  destruct (req_session_id request) as [[|a sid']|];
    unfold mbind at 1, M_bind at 1 in R; simpl in R;
    by apply answer_in_session_shape in R.
Qed.

End tool_loop.

(** ** The session endpoints *)

Section session_endpoints.
Context `{Runtime}.
Variable isoformat : Z → string.
Implicit Types (w : world) (sid : string) (s : ChatSession).

(** X15.  The history and clear endpoints answer an id that the store does not
    hold, or holds past its timeout, with 404, and create no session for
    it.  For a live session the history endpoint shows every stored
    message in order and leaves the store as it is: reading the history
    does not refresh the activity time, so it does not keep a session
    alive. *)
Theorem session_endpoints_answer_404 w sid :
  (sessions w !! sid = None
   ∨ (∃ s, sessions w !! sid = Some s
           ∧ (session_timeout < clock (ticks w) - last_updated s)%Z) →
   (get_session_history isoformat sid w).1 = Raise (HTTPException 404 "Session not found")
   ∧ sessions (get_session_history isoformat sid w).2 = delete sid (sessions w)
   ∧ (clear_session_history sid w).1 = Raise (HTTPException 404 "Session not found")
   ∧ sessions (clear_session_history sid w).2 = delete sid (sessions w))
  ∧ (∀ s, sessions w !! sid = Some s →
          (clock (ticks w) - last_updated s ≤ session_timeout)%Z →
          (get_session_history isoformat sid w).1
          = Return (sid, map (display_message isoformat) (messages s))
          ∧ sessions (get_session_history isoformat sid w).2 = sessions w
          ∧ (clear_session_history sid w).1 = Return tt).
Proof.
  split.
  - intros A.
    assert (G : ∃ w1, get_session sid w = (Return None, w1)
                      ∧ sessions w1 = delete sid (sessions w)).
    { destruct A as [E|(s & E & X)].
      - rewrite (get_session_unknown _ _ E). eexists. split; [done|].
        by rewrite delete_id.
      - rewrite (get_session_expired _ _ _ E X). by eexists. }
    destruct G as (w1 & G & D).
    assert (R1 : get_session_history isoformat sid w
                 = (Raise (HTTPException 404 "Session not found"), w1)).
    { unfold get_session_history. unfold mbind at 1, M_bind at 1. by rewrite G. }
    assert (R2 : clear_session_history sid w
                 = (Raise (HTTPException 404 "Session not found"), w1)).
    { unfold clear_session_history, clear_session.
      unfold mbind at 1 2, M_bind at 1 2. by rewrite G. }
    by rewrite R1, R2.
  - intros s E L. assert (X : ¬ expired_at w s) by (unfold expired_at; lia).
    assert (R1 : get_session_history isoformat sid w
                 = (Return (sid, map (display_message isoformat) (messages s)), tick w)).
    { unfold get_session_history. unfold mbind at 1, M_bind at 1.
      by rewrite (get_session_live _ _ _ E X). }
    rewrite R1. split; [done|]. split; [done|].
    unfold clear_session_history, clear_session.
    unfold mbind at 1 2, M_bind at 1 2. by rewrite (get_session_live _ _ _ E X).
Qed.

End session_endpoints.

(** ** Loading the data, and the health check *)

Section loading.
Context `{FileSystem}.

(** X16.  After [load_all_data] on a directory whose five files are in order,
    the getters and the two parameter tools return what the files held,
    and the health check reports the number of records read. *)
Theorem loaded_data_reaches_the_tools dir df enc dec :
  files_hold dir df enc dec → enc ≠ PNone → dec ≠ PNone →
  load_all_data (new_loader dir)
  = (Return tt, mkLoader dir (Some df) (Some enc) (Some dec))
  ∧ @get_feeds_dataframe (loader_view (load_all_data (new_loader dir)).2) = Return df
  ∧ @get_encoder_params (loader_view (load_all_data (new_loader dir)).2) = Return enc
  ∧ @get_decoder_params (loader_view (load_all_data (new_loader dir)).2) = Return dec
  ∧ @encoder_get_params (loader_view (load_all_data (new_loader dir)).2)
    = Return (PDict [("encoder_params", enc);
                     ("description", PStr "Video encoder configuration parameters")])
  ∧ @decoder_get_params (loader_view (load_all_data (new_loader dir)).2)
    = Return (PDict [("decoder_params", dec);
                     ("description", PStr "Video decoder configuration parameters")])
  ∧ @health_check (loader_view (load_all_data (new_loader dir)).2)
    = Return (PDict [("status", PStr "healthy");
                     ("data", PDict [("feeds_loaded", PInt (Z.of_nat (length (rows df))));
                                     ("encoder_loaded", PBool true);
                                     ("decoder_loaded", PBool true)])]).
Proof.
  intros (P1 & P2 & P3 & P4 & P5 & C & J1 & J2 & (s1 & S1 & V1) & (s2 & S2 & V2)) N1 N2.
  assert (A1 : attribute_of enc = Some enc) by (by destruct enc).
  assert (A2 : attribute_of dec = Some dec) by (by destruct dec).
  assert (R : load_all_data (new_loader dir)
              = (Return tt, mkLoader dir (Some df) (Some enc) (Some dec))).
  { unfold load_all_data, load_feeds_data, load_encoder_params, load_decoder_params.
    simpl. rewrite P1, C. simpl. rewrite P2, P3. simpl. rewrite J1, S1, V1. simpl.
    rewrite P4, P5. simpl. rewrite J2, S2, V2. by rewrite A1, A2. }
  rewrite R. done.
Qed.

(** X17.  A missing file stops the load with [FileNotFoundError] naming the
    path as pathlib prints it.  The feeds file is looked for first, and
    without it nothing is loaded.  Both encoder files are looked for before either is read: when
    only the schema is missing, the parameters are not loaded although
    their file is there. *)
Theorem missing_file_stops_the_load (l : Loader) :
  (path_exists (path_join (data_dir l) "Table_feeds_v2.csv") = false →
   load_all_data l
   = (Raise (PyError "FileNotFoundError"
               ("Feeds CSV not found: " +:+ path_join (data_dir l) "Table_feeds_v2.csv")),
      l))
  ∧ (path_exists (path_join (data_dir l) "encoder_params.json") = false →
     load_encoder_params l
     = (Raise (PyError "FileNotFoundError"
                 ("Encoder params not found: "
                  +:+ path_join (data_dir l) "encoder_params.json")), l))
  ∧ (path_exists (path_join (data_dir l) "encoder_params.json") = true →
     path_exists (path_join (data_dir l) "encoder_schema.json") = false →
     load_encoder_params l
     = (Raise (PyError "FileNotFoundError"
                 ("Encoder schema not found: "
                  +:+ path_join (data_dir l) "encoder_schema.json")), l))
  ∧ (∀ df, load_feeds_data l = (Return df, mkLoader (data_dir l) (Some df)
                                             (loader_encoder_params l)
                                             (loader_decoder_params l)) →
       path_exists (path_join (data_dir l) "encoder_params.json") = false →
       (load_all_data l).1
       = Raise (PyError "FileNotFoundError"
                  ("Encoder params not found: "
                   +:+ path_join (data_dir l) "encoder_params.json"))
       ∧ loader_feeds_df (load_all_data l).2 = Some df
       ∧ loader_encoder_params (load_all_data l).2 = loader_encoder_params l
       ∧ loader_decoder_params (load_all_data l).2 = loader_decoder_params l).
Proof.
  split; [|split; [|split]].
  - intros P. unfold load_all_data, load_feeds_data. by rewrite P.
  - intros P. unfold load_encoder_params. by rewrite P.
  - intros P1 P2. unfold load_encoder_params. by rewrite P1, P2.
  - intros df F P. unfold load_all_data. rewrite F.
    unfold load_encoder_params. simpl. by rewrite P.
Qed.

(** X18.  Parameters that their schema rejects make the load fail with
    [ValueError], but they were assigned before the validation and stay
    assigned: the getter afterwards returns the rejected parameters. *)
Theorem rejected_parameters_stay_loaded (l : Loader) params schema msg :
  path_exists (path_join (data_dir l) "encoder_params.json") = true →
  path_exists (path_join (data_dir l) "encoder_schema.json") = true →
  json_load (path_join (data_dir l) "encoder_params.json") = Return params →
  json_load (path_join (data_dir l) "encoder_schema.json") = Return schema →
  jsonschema_validate params schema = Raise (PyError "ValidationError" msg) →
  params ≠ PNone →
  (load_encoder_params l).1
  = Raise (PyError "ValueError" ("Encoder parameters validation failed: " +:+ msg))
  ∧ loader_encoder_params (load_encoder_params l).2 = Some params
  ∧ @get_encoder_params (loader_view (load_encoder_params l).2) = Return params
  ∧ @encoder_get_params (loader_view (load_encoder_params l).2)
    = Return (PDict [("encoder_params", params);
                     ("description", PStr "Video encoder configuration parameters")]).
Proof.
  intros P1 P2 J1 J2 V N.
  assert (A : attribute_of params = Some params) by (by destruct params).
  assert (R : load_encoder_params l
              = (Raise (PyError "ValueError"
                          ("Encoder parameters validation failed: " +:+ msg)),
                 mkLoader (data_dir l) (loader_feeds_df l) (Some params)
                   (loader_decoder_params l))).
  { unfold load_encoder_params. rewrite P1, P2. simpl. rewrite J1, J2, V. by rewrite A. }
  by rewrite R.
Qed.

End loading.

Section health_properties.
Context `{DataLoader}.

(** X19.  The health check never raises.  It is healthy, with the number of
    records, exactly when all three data sets are loaded; otherwise it is
    unhealthy and names the first one missing, in the order feeds,
    encoder, decoder. *)
Theorem health_check_names_first_missing :
  health_check
  = Return
      match feeds_df, encoder_params, decoder_params with
      | Some df, Some _, Some _ =>
          PDict [("status", PStr "healthy");
                 ("data", PDict [("feeds_loaded", PInt (Z.of_nat (length (rows df))));
                                 ("encoder_loaded", PBool true);
                                 ("decoder_loaded", PBool true)])]
      | None, _, _ =>
          PDict [("status", PStr "unhealthy");
                 ("error", PStr "Feeds data not loaded. Call load_all_data() first.")]
      | Some _, None, _ =>
          PDict [("status", PStr "unhealthy");
                 ("error", PStr "Encoder params not loaded. Call load_all_data() first.")]
      | Some _, Some _, None =>
          PDict [("status", PStr "unhealthy");
                 ("error", PStr "Decoder params not loaded. Call load_all_data() first.")]
      end.
Proof.
  unfold health_check, get_encoder_params, get_decoder_params.
  by destruct feeds_df, encoder_params, decoder_params.
Qed.

End health_properties.

(** ** More on the query engine *)

Lemma filter_all {A} (rs : list A) : List.filter (λ _, true) rs = rs.
Proof. induction rs as [|r rs IH]; simpl; [done|]. by rewrite IH. Qed.

Lemma filter_filter_and {A} (f g : A → bool) (rs : list A) :
  List.filter g (List.filter f rs) = List.filter (λ r, f r && g r) rs.
Proof.
  induction rs as [|r rs IH]; simpl; [done|].
  destruct (f r); simpl; [|done]. destruct (g r); by rewrite IH.
Qed.

Lemma filter_length_le {A} (f : A → bool) (rs : list A) :
  (List.length (List.filter f rs) ≤ List.length rs)%nat.
Proof. induction rs as [|r rs IH]; simpl; [done|]. destruct (f r); simpl; lia. Qed.

Lemma select_rows_length {A} (mask : list bool) : ∀ rs : list A,
  (List.length (select_rows mask rs) ≤ List.length rs)%nat.
Proof.
  induction mask as [|b mask IH]; intros [|r rs]; simpl; try lia.
  destruct b; simpl; specialize (IH rs); lia.
Qed.

Lemma Forall_filter_keeps {A} (P : A → Prop) (f : A → bool) (rs : list A) :
  Forall P rs → Forall P (List.filter f rs).
Proof.
  induction 1 as [|r rs Hr _ IH]; simpl; [done|].
  destruct (f r); [by constructor|done].
Qed.

Lemma imap_nth_map {A B C} (g : A → B → C) (f : A → B) (d : B) (l : list A) :
  imap (λ i c, g c (nth i (map f l) d)) l = map (λ c, g c (f c)) l.
Proof.
  assert (G : ∀ pre l, imap (λ i c, g c (nth (length pre + i) (map f (pre ++ l)) d)) l
                       = map (λ c, g c (f c)) l).
  { clear l. intros pre l. revert pre.
    induction l as [|x l IH]; intros pre; simpl; [done|]. f_equal.
    - rewrite Nat.add_0_r, map_app, app_nth2 by (rewrite length_map; lia).
      by rewrite length_map, Nat.sub_diag.
    - rewrite <- (IH (pre ++ [x])). apply imap_ext. intros i c _. simpl.
      rewrite <- app_assoc, length_app. simpl. do 2 f_equal. lia. }
  apply (G []).
Qed.

Section query_engine.
Context `{Pandas} `{DataLoader}.

Lemma series_compare_numbers op dt xs z :
  Forall not_text xs →
  series_compare op dt xs (SInt z) = Return (map (within op (Some (SInt z))) xs).
Proof.
  intros F. unfold series_compare. simpl.
  assert (T : traverse (λ x, scalar_compare op x (SInt z)) xs
              = Return (map (within op (Some (SInt z))) xs)).
  { induction F as [|x xs Hx _ IH]; simpl; [done|]. rewrite IH.
    by destruct x as [|b|a| |t]. }
  by destruct dt.
Qed.

Lemma apply_bound_plain op bound i dt df :
  int_bound bound → Forall (λ row, not_text (get_cell i row)) (rows df) →
  apply_bound op bound i dt df
  = Return (mkDataFrame (schema df)
              (List.filter (λ row, within op bound (get_cell i row)) (rows df))).
Proof.
  intros B F. destruct bound as [[| |z| |]|]; try done; simpl.
  - rewrite series_compare_numbers.
    + simpl. by rewrite (select_rows_column (within op (Some (SInt z)))).
    + unfold column_values. by apply Forall_map.
  - rewrite filter_all. by destruct df.
Qed.

Lemma apply_filter_plain df0 df c value i dt :
  schema df = schema df0 →
  find_column c (schema df0) = Some (i, dt) →
  match value with
  | FScalar _ => ∀ xs, is_string_dtype dt xs = false
  | FIsin _ => True
  | FRange vmin vmax vgt vlt =>
      int_bound vmin ∧ int_bound vmax ∧ int_bound vgt ∧ int_bound vlt
      ∧ Forall (λ row, not_text (get_cell i row)) (rows df)
  end →
  apply_filter df i dt value
  = Return (mkDataFrame (schema df0) (List.filter (passes df0 (c, value)) (rows df))).
Proof.
  intros S C P. unfold passes. simpl. rewrite C.
  destruct value as [v|values|vmin vmax vgt vlt]; simpl.
  - rewrite P. simpl. rewrite (select_rows_column (λ x, py_eq x v)). by rewrite S.
  - rewrite (select_rows_column (isin values)). by rewrite S.
  - destruct P as (B1 & B2 & B3 & B4 & F).
    rewrite apply_bound_plain by done. simpl.
    rewrite apply_bound_plain by (try done; by apply Forall_filter_keeps). simpl.
    rewrite apply_bound_plain by (try done; by do 2 apply Forall_filter_keeps). simpl.
    rewrite apply_bound_plain by (try done; by do 3 apply Forall_filter_keeps). simpl.
    rewrite !filter_filter_and, S. do 2 f_equal.
    apply List.filter_ext. intros r. by rewrite !andb_assoc.
Qed.

Lemma apply_filters_plain df0 fs : ∀ df,
  schema df = schema df0 →
  (∀ i, Forall (λ row, not_text (get_cell i row)) (rows df0) →
        Forall (λ row, not_text (get_cell i row)) (rows df)) →
  Forall (plain_filter df0) fs →
  apply_filters df fs
  = Return (inr (mkDataFrame (schema df0)
                   (List.filter (λ row, forallb (λ f, passes df0 f row) fs) (rows df)))).
Proof.
  induction fs as [|[c value] fs IH]; intros df S K F; simpl.
  - rewrite filter_all, <- S. by destruct df.
  - apply Forall_cons in F as [(i & dt & C & P) F]. simpl in C, P.
    rewrite S, C.
    rewrite (apply_filter_plain df0 df c value i dt S C).
    + simpl. rewrite IH; [|done| |done].
      * simpl. by rewrite filter_filter_and.
      * intros j Fj. simpl. by apply Forall_filter_keeps, K.
    + destruct value as [v|values|vmin vmax vgt vlt]; try done.
      destruct P as (B1 & B2 & B3 & B4 & Fi). repeat split; try done. by apply K.
Qed.

(** X20.  Filters that compare values keep exactly the rows that pass every
    one of them, in the order of the frame; a query with such filters and
    nothing else returns those rows, and reports the size of the whole
    frame as [total_feeds].  For a list of values a row passes when its
    cell is among them; a missing cell is found only by its own kind of
    null in the list, so [None] in the list does not find a NaN cell. *)
Theorem filters_keep_rows_passing_all df fs spec :
  feeds_df = Some df → filters spec = Some fs → Forall (plain_filter df) fs →
  filter_stage spec df
  = Return (inr (mkDataFrame (schema df)
                   (List.filter (λ row, forallb (λ f, passes df f row) fs) (rows df))))
  ∧ (sort_by spec = None → top_k spec = None → columns spec = None →
     feeds_search spec
     = Return (data_result
                 (to_dict_records
                    (mkDataFrame (schema df)
                       (List.filter (λ row, forallb (λ f, passes df f row) fs) (rows df))))
                 (length (rows df)))).
Proof.
  intros D Q F.
  assert (R : filter_stage spec df
              = Return (inr (mkDataFrame (schema df)
                               (List.filter (λ row, forallb (λ f, passes df f row) fs)
                                  (rows df))))).
  { unfold filter_stage. rewrite Q. destruct fs as [|f fs].
    - simpl. rewrite filter_all. by destruct df.
    - by apply apply_filters_plain. }
  split; [done|]. intros So T C.
  rewrite feeds_search_unfold. unfold get_feeds_dataframe. rewrite D, R.
  unfold sort_limit_project, sort_stage, limit_project, limit_stage, project_stage.
  by rewrite So, T, C.
Qed.

End query_engine.

(** *** numpy's quicksort returns as many positions as it is given values *)

Section npysort_length.
Variable v : list scalar.

Lemma INTP_SWAP_length a p q : List.length (INTP_SWAP a p q) = List.length a.
Proof. unfold INTP_SWAP. by rewrite !length_insert. Qed.

Lemma partition_loop_length fuel : ∀ a vp pi pj,
  List.length (partition_loop v fuel a vp pi pj).1 = List.length a.
Proof.
  induction fuel as [|fuel IH]; intros a vp pi pj; [done|].
  cbn [partition_loop].
  destruct (scan_down v (List.length a) a vp pj <=? scan_up v (List.length a) a vp pi)%nat;
    [done|].
  by rewrite IH, INTP_SWAP_length.
Qed.

Lemma insert_shift_length fuel : ∀ a vp pl pj,
  List.length (insert_shift v fuel a vp pl pj).1 = List.length a.
Proof.
  induction fuel as [|fuel IH]; intros a vp pl pj; [done|].
  cbn [insert_shift].
  destruct ((pl <? pj)%nat && scalar_lt vp (val v a (pj - 1))); [|done].
  by rewrite IH, length_insert.
Qed.

Lemma insertion_loop_length count : ∀ a pl pi,
  List.length (insertion_loop v count a pl pi) = List.length a.
Proof.
  induction count as [|count IH]; intros a pl pi; [done|].
  cbn [insertion_loop].
  pose proof (insert_shift_length (List.length a) a (nth (at_ a pi) v SNaN) pl pi) as L.
  destruct (insert_shift v (List.length a) a (nth (at_ a pi) v SNaN) pl pi) as [a1 pj].
  simpl in L. by rewrite IH, length_insert.
Qed.

Lemma sift_length fuel : ∀ pl a tmp i j n,
  List.length (sift v fuel pl a tmp i j n) = List.length a.
Proof.
  induction fuel as [|fuel IH]; intros pl a tmp i j n; cbn [sift];
    [by unfold hset; rewrite length_insert|].
  destruct (j <=? n)%nat; [|by unfold hset; rewrite length_insert].
  destruct (scalar_lt (nth tmp v SNaN) _); [|by unfold hset; rewrite length_insert].
  rewrite IH. unfold hset. by rewrite length_insert.
Qed.

Lemma heapify_length l : ∀ pl a n,
  List.length (heapify v l pl a n) = List.length a.
Proof.
  induction l as [|l IH]; intros pl a n; [done|].
  cbn [heapify]. by rewrite IH, sift_length.
Qed.

Lemma heap_extract_length fuel : ∀ pl a n,
  List.length (heap_extract v fuel pl a n) = List.length a.
Proof.
  induction fuel as [|fuel IH]; intros pl a n; [done|].
  cbn [heap_extract]. destruct (1 <? n)%nat; [|done].
  rewrite IH, sift_length. unfold hset. by rewrite length_insert.
Qed.

Lemma aheapsort_length a pl n : List.length (aheapsort v a pl n) = List.length a.
Proof. unfold aheapsort. by rewrite heap_extract_length, heapify_length. Qed.

Lemma swap_if_length (b : bool) a p q :
  List.length (if b then INTP_SWAP a p q else a) = List.length a.
Proof. destruct b; [apply INTP_SWAP_length|done]. Qed.

Lemma quicksort_loop_length fuel : ∀ inner a pl pr cdepth stack,
  List.length (quicksort_loop v fuel inner a pl pr cdepth stack) = List.length a.
Proof.
  induction fuel as [|fuel IH]; intros inner a pl pr cdepth stack; [done|].
  cbn [quicksort_loop].
  destruct (negb inner && (cdepth <? 0)%Z).
  { destruct stack as [|[[pl' pr'] cd'] stack]; [|rewrite IH]; apply aheapsort_length. }
  destruct (SMALL_QUICKSORT <? pr - pl)%nat.
  - set (pm := (pl + (pr - pl) / 2)%nat).
    set (a1 := if scalar_lt (val v a pm) (val v a pl) then INTP_SWAP a pm pl else a).
    set (a2 := if scalar_lt (val v a1 pr) (val v a1 pm) then INTP_SWAP a1 pr pm else a1).
    set (a3 := if scalar_lt (val v a2 pm) (val v a2 pl) then INTP_SWAP a2 pm pl else a2).
    assert (L3 : List.length a3 = List.length a).
    { unfold a3, a2, a1. by rewrite !swap_if_length. }
    set (a4 := INTP_SWAP a3 pm (pr - 1)).
    assert (L4 : List.length a4 = List.length a).
    { unfold a4. by rewrite INTP_SWAP_length. }
    pose proof (partition_loop_length (List.length a4) a4 (val v a3 pm) pl (pr - 1)) as L5.
    destruct (partition_loop v (List.length a4) a4 (val v a3 pm) pl (pr - 1)) as [a5 pi].
    simpl in L5.
    destruct (pi - pl <? pr - pi)%nat; rewrite IH, INTP_SWAP_length; congruence.
  - destruct stack as [|[[pl' pr'] cd'] stack]; [|rewrite IH];
      unfold insertion_sort; apply insertion_loop_length.
Qed.

Lemma npy_aquicksort_length : List.length (npy_aquicksort v) = List.length v.
Proof. unfold npy_aquicksort. by rewrite quicksort_loop_length, length_seq. Qed.

End npysort_length.

Section query_results.
Context `{Pandas} `{DataLoader}.

Lemma apply_bound_length op bound i dt df df' :
  apply_bound op bound i dt df = Return df' →
  (List.length (rows df') ≤ List.length (rows df))%nat.
Proof.
  destruct bound as [b|]; simpl; [|by intros [= <-]].
  destruct (series_compare op dt (column_values i df) b) as [mask|]; simpl; [|done].
  intros [= <-]. apply select_rows_length.
Qed.

Lemma apply_filter_length df i dt value df' :
  apply_filter df i dt value = Return df' →
  (List.length (rows df') ≤ List.length (rows df))%nat.
Proof.
  destruct value as [v|values|vmin vmax vgt vlt]; simpl.
  - destruct (is_string_dtype dt (column_values i df)).
    + unfold str_contains.
      destruct (re_compile_ignorecase (str_scalar v)); simpl; [|done].
      intros [= <-]. apply select_rows_length.
    + intros [= <-]. apply select_rows_length.
  - intros [= <-]. apply select_rows_length.
  - destruct (apply_bound Ge vmin i dt df) as [d1|] eqn:E1; simpl; [|done].
    destruct (apply_bound Le vmax i dt d1) as [d2|] eqn:E2; simpl; [|done].
    destruct (apply_bound Gt vgt i dt d2) as [d3|] eqn:E3; simpl; [|done].
    intros E4. apply apply_bound_length in E1, E2, E3, E4. lia.
Qed.

Lemma apply_filters_result fs : ∀ df r,
  apply_filters df fs = Return r →
  match r with
  | inl early => ∃ msg, early = unknown_result msg df
  | inr df' => schema df' = schema df
               ∧ (List.length (rows df') ≤ List.length (rows df))%nat
  end.
Proof.
  induction fs as [|[c value] fs IH]; intros df r; simpl; [by intros [= <-]|].
  destruct (find_column c (schema df)) as [[i dt]|]; [|intros [= <-]; eauto].
  destruct (apply_filter df i dt value) as [d1|] eqn:E; simpl; [|done].
  intros R. apply IH in R.
  pose proof (apply_filter_schema _ _ _ _ _ E) as S.
  pose proof (apply_filter_length _ _ _ _ _ E) as L.
  destruct r as [early|df'].
  - destruct R as [msg ->]. exists msg. by apply unknown_result_schema.
  - destruct R as [S' L']. split; [congruence|lia].
Qed.

Lemma filter_stage_result spec df r :
  filter_stage spec df = Return r →
  match r with
  | inl early => ∃ msg, early = unknown_result msg df
  | inr df' => schema df' = schema df
               ∧ (List.length (rows df') ≤ List.length (rows df))%nat
  end.
Proof.
  unfold filter_stage. destruct (filters spec) as [[|f fs]|];
    try by intros [= <-]. apply apply_filters_result.
Qed.

Lemma nargsort_length items ascending :
  (∀ xs, List.length (argsort xs) = List.length xs) →
  List.length (nargsort items ascending) = List.length items.
Proof.
  intros A. unfold nargsort, take_rows.
  assert (L : List.length (if ascending
                           then map (λ i, nth i (non_missing_positions items ascending) O)
                                  (argsort (argsort_input items ascending))
                           else rev (map (λ i, nth i (non_missing_positions items ascending) O)
                                       (argsort (argsort_input items ascending))))
              = List.length (non_missing_positions items ascending)).
  { assert (L0 : List.length (map (λ i, nth i (non_missing_positions items ascending) O)
                                (argsort (argsort_input items ascending)))
                 = List.length (non_missing_positions items ascending)).
    { rewrite length_map, A. unfold argsort_input, take_rows. by rewrite length_map. }
    destruct ascending; [done|]. by rewrite length_rev. }
  rewrite length_app, L.
  assert (N : List.length (non_missing_positions items ascending)
              = List.length (List.filter (λ i, negb (is_null (nth i items SNaN)))
                               (seq 0 (List.length items)))).
  { unfold non_missing_positions. destruct ascending; [done|]. by rewrite length_rev. }
  rewrite N. unfold missing_positions. rewrite <- length_app.
  rewrite (Permutation_length
             (filter_partition_perm (λ i, is_null (nth i items SNaN))
                (seq 0 (List.length items)))).
  apply length_seq.
Qed.

Lemma sort_stage_result spec df :
  (∀ xs, List.length (argsort xs) = List.length xs) →
  match sort_stage spec df with
  | inl early => ∃ msg, early = unknown_result msg df
  | inr df' => schema df' = schema df ∧ List.length (rows df') = List.length (rows df)
  end.
Proof.
  intros A. unfold sort_stage. destruct (sort_by spec) as [[|a s]|]; try done.
  destruct (find_column (String a s) (schema df)) as [[i dt]|]; [|eauto].
  split; [done|]. unfold sort_values, take_rows. simpl.
  rewrite length_map, nargsort_length by done.
  unfold column_values. by rewrite length_map.
Qed.

Lemma head_length_le {A} (k : Z) (rs : list A) :
  (List.length (head k rs) ≤ List.length rs)%nat.
Proof. unfold head. destruct (0 <=? k)%Z; rewrite length_firstn; lia. Qed.

Lemma limit_stage_result spec df :
  schema (limit_stage spec df) = schema df
  ∧ (List.length (rows (limit_stage spec df)) ≤ List.length (rows df))%nat.
Proof.
  unfold limit_stage. destruct (top_k spec) as [k|]; [|done].
  destruct (k =? 0)%Z; [done|]. split; [done|]. apply head_length_le.
Qed.

Lemma project_columns df cols :
  Forall (λ c, is_Some (find_column c (schema df))) cols →
  map fst (omap (λ c, (λ p : nat * dtype, (c, p.2)) <$> find_column c (schema df)) cols)
  = cols.
Proof.
  induction 1 as [|c cols [p E] _ IH]; simpl; [done|].
  rewrite E. simpl. f_equal. exact IH.
Qed.

Lemma project_row df cols row :
  Forall (λ c, is_Some (find_column c (schema df))) cols →
  omap (λ c, (λ p : nat * dtype, get_cell p.1 row) <$> find_column c (schema df)) cols
  = map (λ c, cell_of df c row) cols.
Proof.
  induction 1 as [|c cols [[i dt] E] _ IH]; simpl; [done|].
  unfold cell_of at 1. rewrite E. simpl. f_equal. exact IH.
Qed.

Lemma project_records df0 df cols :
  schema df = schema df0 →
  Forall (λ c, is_Some (find_column c (schema df0))) cols →
  to_dict_records (project df cols) = map (record_of df0 cols) (rows df).
Proof.
  intros S F. unfold to_dict_records, project, df_columns. simpl.
  rewrite S, project_columns by done. rewrite map_map.
  apply map_ext. intros row. unfold record_of. f_equal.
  rewrite project_row by done. unfold get_cell.
  apply (imap_nth_map (λ c x, (c, pv x)) (λ c, cell_of df0 c row) SNaN cols).
Qed.

Lemma all_known_filter df cols :
  Forall (λ c, is_Some (find_column c (schema df))) cols →
  List.filter (λ col, negb (is_known df col)) cols = [].
Proof.
  induction 1 as [|c cols E _ IH]; simpl; [done|].
  unfold is_known at 1. by rewrite bool_decide_eq_true_2.
Qed.

Lemma project_stage_result spec df :
  match project_stage spec df with
  | inl early => ∃ msg, early = unknown_result msg df
  | inr df' => List.length (rows df') = List.length (rows df)
  end.
Proof.
  unfold project_stage. destruct (columns spec) as [[|c cs]|]; try done.
  destruct (List.filter _ (c :: cs)); [|eauto].
  unfold project. simpl. by rewrite length_map.
Qed.

(** X21.  [feeds_search] never raises, and its answer has one of three shapes:
    an error dictionary for an exception caught on the way; the report of
    an unknown column, with the columns of the frame; or the records found
    with their number, which is at most [total_feeds], the number of rows
    of the whole frame whatever the query asked for. *)
Theorem feeds_search_answers_in_three_shapes spec :
  (∀ xs, List.length (argsort xs) = List.length xs) →
  (∃ msg, feeds_search spec = Return (error_result ("Error in feeds_search: " +:+ msg)))
  ∨ (∃ df msg, feeds_df = Some df ∧ feeds_search spec = Return (unknown_result msg df))
  ∨ (∃ df records,
       feeds_df = Some df
       ∧ feeds_search spec
         = Return (PDict [("data", PList records);
                          ("count", PInt (Z.of_nat (List.length records)));
                          ("total_feeds", PInt (Z.of_nat (List.length (rows df))))])
       ∧ (List.length records ≤ List.length (rows df))%nat).
Proof.
  intros A. rewrite feeds_search_unfold. unfold get_feeds_dataframe.
  destruct feeds_df as [df|]; [|left; eauto].
  destruct (filter_stage spec df) as [[early|filtered]|e] eqn:F; [| |left; eauto].
  - apply filter_stage_result in F as [msg ->]. right; left. eauto.
  - apply filter_stage_result in F as [S L].
    unfold sort_limit_project.
    pose proof (sort_stage_result spec filtered A) as So.
    destruct (sort_stage spec filtered) as [early|sorted].
    + destruct So as [msg ->]. right; left. exists df, msg. split; [done|].
      by rewrite (unknown_result_schema msg df filtered).
    + destruct So as [S1 L1]. unfold limit_project.
      destruct (limit_stage_result spec sorted) as [S2 L2].
      pose proof (project_stage_result spec (limit_stage spec sorted)) as P.
      destruct (project_stage spec (limit_stage spec sorted)) as [early|projected].
      * destruct P as [msg ->]. right; left. exists df, msg. split; [done|].
        rewrite (unknown_result_schema msg df (limit_stage spec sorted)); [done|].
        congruence.
      * right; right. exists df, (to_dict_records projected). split; [done|].
        split; [done|]. unfold to_dict_records. rewrite length_map. lia.
Qed.

(** X22.  The columns asked for are what every record holds: exactly those, in
    the order asked, each with the cell of its row; the projection comes
    last, after filtering, sorting and cutting, so a column left out can
    still be filtered and sorted on. *)
Theorem projection_keeps_requested_columns df spec filtered sorted c cs :
  feeds_df = Some df →
  filter_stage spec df = Return (inr filtered) →
  sort_stage spec filtered = inr sorted →
  columns spec = Some (c :: cs) →
  Forall (λ col, is_Some (find_column col (schema df))) (c :: cs) →
  NoDup (c :: cs) →
  feeds_search spec
  = Return (data_result (map (record_of df (c :: cs)) (rows (limit_stage spec sorted)))
              (List.length (rows df))).
Proof.
  intros D F So C K _.
  apply filter_stage_result in F as F'. destruct F' as [S _].
  apply sort_stage_schema in So as S1.
  destruct (limit_stage_result spec sorted) as [S2 _].
  assert (S3 : schema (limit_stage spec sorted) = schema df) by congruence.
  rewrite feeds_search_unfold. unfold get_feeds_dataframe. rewrite D, F.
  unfold sort_limit_project. rewrite So. unfold limit_project, project_stage.
  rewrite C, all_known_filter by (by rewrite S3).
  by rewrite (project_records df).
Qed.

(** X23.  An empty value for an argument is the same as leaving the argument
    out: an empty filter dictionary, an empty column list, a [top_k] of
    zero and an empty sort column change nothing in the answer. *)
Theorem empty_arguments_count_as_absent spec :
  feeds_search (without_empty spec) = feeds_search spec.
Proof.
  rewrite !feeds_search_unfold.
  destruct get_feeds_dataframe as [df|e]; [|done].
  assert (F : filter_stage (without_empty spec) df = filter_stage spec df).
  { unfold filter_stage, without_empty. simpl. by destruct (filters spec) as [[|f fs]|]. }
  rewrite F. destruct (filter_stage spec df) as [[early|filtered]|e]; try done.
  f_equal. unfold sort_limit_project.
  assert (So : sort_stage (without_empty spec) filtered = sort_stage spec filtered).
  { unfold sort_stage, without_empty. simpl. by destruct (sort_by spec) as [[|a s]|]. }
  rewrite So. destruct (sort_stage spec filtered) as [early|sorted]; [done|].
  unfold limit_project.
  assert (L : limit_stage (without_empty spec) sorted = limit_stage spec sorted).
  { unfold limit_stage, without_empty. simpl. by destruct (top_k spec) as [[|p|p]|]. }
  rewrite L.
  assert (P : project_stage (without_empty spec) (limit_stage spec sorted)
              = project_stage spec (limit_stage spec sorted)).
  { unfold project_stage, without_empty. simpl. by destruct (columns spec) as [[|c cs]|]. }
  by rewrite P.
Qed.

End query_results.

Section tools_before_load.
Context `{Pandas}.

(** X24.  While a data set is not loaded, before [load_all_data] or after
    a load that failed on the way, the tool that needs it does not raise:
    it answers with an error dictionary that carries the getter's message
    behind the tool's own prefix, whatever the query. *)
Theorem tools_answer_before_load (l : Loader) :
  (loader_feeds_df l = None →
   ∀ spec, @feeds_search _ (loader_view l) spec
           = Return (error_result
                       "Error in feeds_search: Feeds data not loaded. Call load_all_data() first."))
  ∧ (loader_encoder_params l = None →
     @encoder_get_params (loader_view l)
     = Return (error_result
                 "Error getting encoder params: Encoder params not loaded. Call load_all_data() first."))
  ∧ (loader_decoder_params l = None →
     @decoder_get_params (loader_view l)
     = Return (error_result
                 "Error getting decoder params: Decoder params not loaded. Call load_all_data() first.")).
Proof.
  split; [|split].
  - intros E spec. rewrite feeds_search_unfold. unfold get_feeds_dataframe. simpl.
    by rewrite E.
  - intros E. unfold encoder_get_params. simpl. by rewrite E.
  - intros E. unfold decoder_get_params. simpl. by rewrite E.
Qed.

End tools_before_load.

(** * Examples for the further properties *)

Lemma created_session_is_usable_witness :
  ∃ w1, @create_session chat_runtime empty_world = (Return "session-0", w1)
        ∧ sessions w1 !! "session-0" = Some (mkChatSession "session-0" [] 0 0)
        ∧ (∀ k, k ≠ "session-0" → sessions w1 !! k = sessions empty_world !! k)
        ∧ (@get_conversation_history chat_runtime "session-0" true w1).1
          = Return [@system_message chat_runtime].
Proof.
  apply (@created_session_is_usable chat_runtime empty_world).
  vm_compute. discriminate.
Defined.

Lemma add_message_to_absent_session_witness :
  (@add_message (demo_runtime slow_clock plain_reply) "s1" "user" (Some "Hello")
     None None one_session_world).1 = Return false
  ∧ sessions (@add_message (demo_runtime slow_clock plain_reply) "s1" "user" (Some "Hello")
                None None one_session_world).2
    = delete "s1" (sessions one_session_world).
Proof.
  apply (@add_message_to_absent_session (demo_runtime slow_clock plain_reply)
           one_session_world "s1" "user" (Some "Hello") None None).
  right. exists (mkChatSession "s1" [] 0 0). split; [reflexivity|].
  vm_compute. reflexivity.
Defined.

Lemma add_message_appends_one_witness :
  (@add_message chat_runtime "s1" "user" (Some "Hello") None None one_session_world).1
  = Return true
  ∧ sessions (@add_message chat_runtime "s1" "user" (Some "Hello") None None
                one_session_world).2 !! "s1"
    = Some (mkChatSession "s1" [mkChatMessage "user" "Hello" 3000000 None None] 0 4000000)
  ∧ sessions (@add_message chat_runtime "s1" "user" None None None one_session_world).2
    = sessions one_session_world.
Proof.
  destruct (@add_message_appends_one chat_runtime one_session_world "s1"
              (mkChatSession "s1" [] 0 0) "user" None None)
    as (A & _ & B); [reflexivity|vm_compute; discriminate|].
  destruct (A "Hello") as (A1 & A2 & _). split; [exact A1|]. split; [exact A2|exact B].
Defined.

Lemma clear_session_empties_history_witness :
  (@clear_session chat_runtime "s1" one_session_world).1 = Return true
  ∧ sessions (@clear_session chat_runtime "s1" one_session_world).2 !! "s1"
    = Some (mkChatSession "s1" [] 0 3000000)
  ∧ (@clear_session (demo_runtime slow_clock plain_reply) "s1" one_session_world).1
    = Return false.
Proof.
  destruct (@clear_session_empties_history chat_runtime one_session_world "s1") as [L _].
  destruct (L (mkChatSession "s1" [] 0 0)) as (L1 & L2 & _);
    [reflexivity|vm_compute; discriminate|].
  destruct (@clear_session_empties_history (demo_runtime slow_clock plain_reply)
              one_session_world "s1") as [_ A].
  destruct A as [A1 _].
  { right. exists (mkChatSession "s1" [] 0 0). split; [reflexivity|].
    vm_compute. reflexivity. }
  split; [exact L1|]. split; [exact L2|exact A1].
Defined.

Lemma ask_question_touches_one_session_witness :
  sessions (@ask_question chat_runtime (mkQueryRequest "How many feeds are there?" None)
              one_session_world).2 !! "s1"
  = sessions one_session_world !! "s1"
  ∧ ∀ s s',
      sessions one_session_world !! "s1" = Some s →
      sessions (@ask_question chat_runtime
                  (mkQueryRequest "How many feeds are there?" (Some "s1"))
                  one_session_world).2 !! "s1" = Some s' →
      session_id s' = session_id s ∧ created_at s' = created_at s
      ∧ messages s `prefix_of` messages s'.
Proof.
  split.
  - apply (proj1 (@ask_question_touches_one_session chat_runtime
                    (mkQueryRequest "How many feeds are there?" None) one_session_world)).
    vm_compute. discriminate.
  - apply (proj2 (@ask_question_touches_one_session chat_runtime
                    (mkQueryRequest "How many feeds are there?" (Some "s1"))
                    one_session_world) "s"%char "1").
    reflexivity.
Defined.

Lemma stored_sessions_keep_their_key_witness :
  keys_match one_session_world
  ∧ ∀ request, keys_match (@ask_question chat_runtime request one_session_world).2.
Proof.
  assert (K : keys_match one_session_world).
  { intros k s E. unfold one_session_world in E. simpl in E.
    apply lookup_singleton_Some in E as [<- <-]. reflexivity. }
  split; [exact K|].
  apply (@stored_sessions_keep_their_key chat_runtime one_session_world K).
Defined.

Lemma ask_question_records_the_question_witness :
  sessions (@ask_question failing_runtime (mkQueryRequest "How many feeds are there?" None)
              empty_world).2 !! "session-0" = None
  ∨ ∃ s', sessions (@ask_question failing_runtime
                      (mkQueryRequest "How many feeds are there?" None)
                      empty_world).2 !! "session-0" = Some s'
          ∧ session_id s' = "session-0" ∧ created_at s' = 0%Z
          ∧ [user_message (mkQueryRequest "How many feeds are there?" None) 3000000]
              `prefix_of` messages s'.
Proof.
  apply (@ask_question_records_the_question failing_runtime
           (mkQueryRequest "How many feeds are there?" None) empty_world).
  - vm_compute. discriminate.
  - left. reflexivity.
Defined.

Lemma ask_question_fails_with_500_witness :
  (@ask_question keyless_runtime (mkQueryRequest "How many feeds are there?" None)
     empty_world).1
  = Raise (HTTPException 500
             "Internal server error: 500: OPENAI_API_KEY environment variable not set")
  ∧ (@ask_question failing_runtime (mkQueryRequest "How many feeds are there?" (Some "s1"))
       one_session_world).1
    = Raise (HTTPException 500 "OpenAI API error: Connection error.").
Proof.
  split.
  - apply (@ask_question_fails_with_500 keyless_runtime
             (mkQueryRequest "How many feeds are there?" None) empty_world).
    + vm_compute. discriminate.
    + reflexivity.
    + left. reflexivity.
  - apply (proj2 (proj2 (@ask_question_fails_with_500 failing_runtime
                           (mkQueryRequest "How many feeds are there?" (Some "s1"))
                           one_session_world)) "Connection error.").
    + exists (mkChatSession "s1" [] 0 0). split; [reflexivity|]. vm_compute. discriminate.
    + right. exists "s"%char, "k-demo". reflexivity.
    + intros msgs. reflexivity.
Defined.

Lemma tool_free_answer_is_not_stored_witness :
  made_tool_calls (mkQueryResponse "There are three feeds." [] "s1") = []
  ∧ resp_session_id (mkQueryResponse "There are three feeds." [] "s1") = "s1"
  ∧ ∃ old,
      messages <$> sessions one_session_world !! "s1" = Some old
      ∧ (sessions (@ask_question chat_runtime
                     (mkQueryRequest "How many feeds are there?" (Some "s1"))
                     one_session_world).2 !! "s1" = None
         ∨ ∃ s' stamp,
             sessions (@ask_question chat_runtime
                         (mkQueryRequest "How many feeds are there?" (Some "s1"))
                         one_session_world).2 !! "s1" = Some s'
             ∧ messages s'
               = old ++ [user_message
                           (mkQueryRequest "How many feeds are there?" (Some "s1")) stamp]).
Proof.
  apply (@tool_free_answer_is_not_stored chat_runtime
           (mkQueryRequest "How many feeds are there?" (Some "s1")) one_session_world
           (mkQueryResponse "There are three feeds." [] "s1")).
  - intros msgs am E. injection E as <-. reflexivity.
  - exists (mkChatSession "s1" [] 0 0). split; [reflexivity|]. vm_compute. discriminate.
  - vm_compute. reflexivity.
Defined.

Lemma execute_tool_calls_reports_each_invocation_witness :
  ∃ results,
    [encoder_trace; stray_trace] = [] ++ results
    ∧ List.length results = List.length [encoder_call; stray_call]
    ∧ Forall2 (@reports tools_runtime) [encoder_call; stray_call] results
    ∧ [tool_entry encoder_call "{}"; tool_entry stray_call "{}"]
      = [] ++ zip_with tool_entry [encoder_call; stray_call]
                (map (@dumped_result tools_runtime) results).
Proof.
  apply (@execute_tool_calls_reports_each_invocation tools_runtime "s1"
           [encoder_call; stray_call] [] [] one_session_world).
  vm_compute. reflexivity.
Defined.

Lemma unusable_arguments_stop_the_loop_witness :
  @execute_tool_calls list_arguments_runtime "s1" [encoder_call; stray_call] [] []
    one_session_world
  = (Raise (PyError "TypeError"
              "tools_runtime.execute_tool() argument after ** must be a mapping, not list"),
     one_session_world)
  ∧ @execute_tool_calls named_arguments_runtime "s1" [encoder_call; stray_call] [] []
      one_session_world
    = (Raise (PyError "TypeError"
                "execute_tool() got multiple values for argument 'tool_name'"),
       one_session_world).
Proof.
  split.
  - apply (@unusable_arguments_stop_the_loop list_arguments_runtime "s1" encoder_call
             [stray_call] [] [] one_session_world).
    exact I.
  - apply (@unusable_arguments_stop_the_loop named_arguments_runtime "s1" encoder_call
             [stray_call] [] [] one_session_world).
    eexists. reflexivity.
Defined.

Lemma response_reports_one_round_of_tools_witness :
  resp_session_id
    (mkQueryResponse "There are three feeds." [encoder_trace; stray_trace] "session-0")
  = @session_of tools_runtime (mkQueryRequest "How are the feeds encoded?" None) empty_world
  ∧ ∃ msgs am,
      @chat_completions_create tools_runtime msgs (Some (@TOOL_SCHEMAS tools_runtime))
      = Return am
      ∧ Forall2 (@reports tools_runtime) (am_tool_calls am) [encoder_trace; stray_trace]
      ∧ match am_tool_calls am with
        | [] => am_content am = Some "There are three feeds."
        | _ :: _ =>
            ∃ final,
              @chat_completions_create tools_runtime
                (msgs ++ [assistant_entry am]
                      ++ zip_with tool_entry (am_tool_calls am)
                           (map (@dumped_result tools_runtime)
                              [encoder_trace; stray_trace])) None
              = Return final
              ∧ am_content final = Some "There are three feeds."
        end.
Proof.
  apply (@response_reports_one_round_of_tools tools_runtime
           (mkQueryRequest "How are the feeds encoded?" None) empty_world
           (mkQueryResponse "There are three feeds." [encoder_trace; stray_trace]
              "session-0")).
  vm_compute. reflexivity.
Defined.

Lemma session_endpoints_answer_404_witness :
  ((@get_session_history chat_runtime demo_isoformat "no-such-session" one_session_world).1
   = Raise (HTTPException 404 "Session not found")
   ∧ sessions (@get_session_history chat_runtime demo_isoformat "no-such-session"
                 one_session_world).2
     = delete "no-such-session" (sessions one_session_world)
   ∧ (@clear_session_history chat_runtime "no-such-session" one_session_world).1
     = Raise (HTTPException 404 "Session not found")
   ∧ sessions (@clear_session_history chat_runtime "no-such-session" one_session_world).2
     = delete "no-such-session" (sessions one_session_world))
  ∧ ((@get_session_history chat_runtime demo_isoformat "s1" one_session_world).1
     = Return ("s1", map (display_message demo_isoformat)
                       (messages (mkChatSession "s1" [] 0 0)))
     ∧ sessions (@get_session_history chat_runtime demo_isoformat "s1" one_session_world).2
       = sessions one_session_world
     ∧ (@clear_session_history chat_runtime "s1" one_session_world).1 = Return tt).
Proof.
  split.
  - apply (@session_endpoints_answer_404 chat_runtime demo_isoformat one_session_world
             "no-such-session").
    left. reflexivity.
  - apply (proj2 (@session_endpoints_answer_404 chat_runtime demo_isoformat
                    one_session_world "s1") (mkChatSession "s1" [] 0 0)).
    + reflexivity.
    + vm_compute. discriminate.
Defined.

Lemma loaded_data_reaches_the_tools_witness :
  @load_all_data (demo_files all_files true) (new_loader "Data")
  = (Return tt, mkLoader "Data" (Some scenario_df) (Some demo_encoder) (Some demo_decoder))
  ∧ @health_check
      (loader_view (@load_all_data (demo_files all_files true) (new_loader "Data")).2)
    = Return (PDict [("status", PStr "healthy");
                     ("data", PDict [("feeds_loaded", PInt 2);
                                     ("encoder_loaded", PBool true);
                                     ("decoder_loaded", PBool true)])]).
Proof.
  destruct (@loaded_data_reaches_the_tools (demo_files all_files true) "Data"
              scenario_df demo_encoder demo_decoder)
    as (L & _ & _ & _ & _ & _ & Hc).
  - repeat split; try reflexivity; exists (PDict []); split; reflexivity.
  - discriminate.
  - discriminate.
  - split; [exact L|exact Hc].
Defined.

Lemma missing_file_stops_the_load_witness :
  @load_all_data (demo_files [] true) (new_loader "Data")
  = (Raise (PyError "FileNotFoundError" "Feeds CSV not found: Data/Table_feeds_v2.csv"),
     new_loader "Data")
  ∧ @load_all_data (demo_files [] true) (new_loader ".")
    = (Raise (PyError "FileNotFoundError" "Feeds CSV not found: Table_feeds_v2.csv"),
       new_loader ".")
  ∧ @load_encoder_params (demo_files ["Data/encoder_params.json"] true) (new_loader "Data/")
    = (Raise (PyError "FileNotFoundError"
                "Encoder schema not found: Data/encoder_schema.json"),
       new_loader "Data/").
Proof.
  split; [|split].
  - apply (proj1 (@missing_file_stops_the_load (demo_files [] true) (new_loader "Data"))).
    reflexivity.
  - apply (proj1 (@missing_file_stops_the_load (demo_files [] true) (new_loader "."))).
    reflexivity.
  - apply (proj1 (proj2 (proj2 (@missing_file_stops_the_load
                                  (demo_files ["Data/encoder_params.json"] true)
                                  (new_loader "Data/")))));
      reflexivity.
Defined.

Lemma rejected_parameters_stay_loaded_witness :
  (@load_encoder_params (demo_files all_files false) (new_loader "Data")).1
  = Raise (PyError "ValueError"
             "Encoder parameters validation failed: 'bitrate' is a required property")
  ∧ loader_encoder_params
      (@load_encoder_params (demo_files all_files false) (new_loader "Data")).2
    = Some demo_encoder
  ∧ @get_encoder_params
      (loader_view (@load_encoder_params (demo_files all_files false) (new_loader "Data")).2)
    = Return demo_encoder
  ∧ @encoder_get_params
      (loader_view (@load_encoder_params (demo_files all_files false) (new_loader "Data")).2)
    = Return (PDict [("encoder_params", demo_encoder);
                     ("description", PStr "Video encoder configuration parameters")]).
Proof.
  apply (@rejected_parameters_stay_loaded (demo_files all_files false) (new_loader "Data")
           demo_encoder (PDict []) "'bitrate' is a required property");
    try reflexivity.
  discriminate.
Defined.

Lemma filters_keep_rows_passing_all_witness :
  (@filter_stage demo_pandas (filter_query wide_feeds) scenario_df
   = Return (inr (mkDataFrame (schema scenario_df) [[SInt 1; SStr "PAC"; SInt 1920]]))
   ∧ @feeds_search demo_pandas (loaded scenario_df) (filter_query wide_feeds)
     = Return (data_result
                 [PDict [("FEED_ID", PInt 1); ("THEATER", PStr "PAC"); ("RES_W", PInt 1920)]]
                 2))
  ∧ @feeds_search demo_pandas (loaded gappy_df)
      (filter_query [("THEATER", FIsin [SNone])])
    = Return (data_result [] 2).
Proof.
  split.
  - destruct (@filters_keep_rows_passing_all demo_pandas (loaded scenario_df) scenario_df
                wide_feeds (filter_query wide_feeds)) as [F S].
    + reflexivity.
    + reflexivity.
    + repeat constructor.
      * exists 2%nat, int64. split; [reflexivity|]. simpl. repeat split; repeat constructor.
      * exists 0%nat, int64. split; [reflexivity|]. exact I.
    + split; [exact F|]. apply S; reflexivity.
  - destruct (@filters_keep_rows_passing_all demo_pandas (loaded gappy_df) gappy_df
                [("THEATER", FIsin [SNone])]
                (filter_query [("THEATER", FIsin [SNone])])) as [_ S].
    + reflexivity.
    + reflexivity.
    + repeat constructor. exists 1%nat, object_. split; [reflexivity|]. exact I.
    + apply S; reflexivity.
Defined.

Lemma feeds_search_answers_in_three_shapes_witness :
  (∃ msg, @feeds_search demo_pandas (loaded scenario_df) (sort_query "RES_W" true)
          = Return (error_result ("Error in feeds_search: " +:+ msg)))
  ∨ (∃ df msg, @feeds_df (loaded scenario_df) = Some df
               ∧ @feeds_search demo_pandas (loaded scenario_df) (sort_query "RES_W" true)
                 = Return (unknown_result msg df))
  ∨ (∃ df records,
       @feeds_df (loaded scenario_df) = Some df
       ∧ @feeds_search demo_pandas (loaded scenario_df) (sort_query "RES_W" true)
         = Return (PDict [("data", PList records);
                          ("count", PInt (Z.of_nat (List.length records)));
                          ("total_feeds", PInt (Z.of_nat (List.length (rows df))))])
       ∧ (List.length records ≤ List.length (rows df))%nat).
Proof.
  apply (@feeds_search_answers_in_three_shapes demo_pandas (loaded scenario_df)
           (sort_query "RES_W" true)).
  intros xs. apply npy_aquicksort_length.
Defined.

Lemma projection_keeps_requested_columns_witness :
  @feeds_search demo_pandas (loaded scenario_df) (columns_query ["RES_W"; "FEED_ID"])
  = Return (data_result
              [PDict [("RES_W", PInt 1920); ("FEED_ID", PInt 1)];
               PDict [("RES_W", PInt 1280); ("FEED_ID", PInt 2)]]
              2).
Proof.
  apply (@projection_keeps_requested_columns demo_pandas (loaded scenario_df) scenario_df
           (columns_query ["RES_W"; "FEED_ID"]) scenario_df scenario_df "RES_W" ["FEED_ID"]);
    try reflexivity.
  - repeat constructor; eexists; reflexivity.
  - repeat constructor; rewrite ?elem_of_cons, ?elem_of_nil; intros X;
      repeat destruct X as [X|X]; try discriminate X; exact X.
Defined.

Lemma tools_answer_before_load_witness :
  (∀ spec, @feeds_search demo_pandas (loader_view (new_loader "Data")) spec
           = Return (error_result
                       "Error in feeds_search: Feeds data not loaded. Call load_all_data() first."))
  ∧ @encoder_get_params
      (loader_view (@load_all_data (demo_files ["Data/Table_feeds_v2.csv"] true)
                      (new_loader "Data")).2)
    = Return (error_result
                "Error getting encoder params: Encoder params not loaded. Call load_all_data() first.").
Proof.
  split.
  - apply (@tools_answer_before_load demo_pandas (new_loader "Data")). reflexivity.
  - apply (proj1 (proj2 (@tools_answer_before_load demo_pandas
                           (@load_all_data (demo_files ["Data/Table_feeds_v2.csv"] true)
                              (new_loader "Data")).2))).
    reflexivity.
Defined.
